(** * Placement portal: conversation memory, chatbot flows and record managers

    A shallow embedding of the Python sources

      - [StudBud/backend/chatbot copy.py]   (module [StudBud])
      - [College-Counseling-App/backend/chatbot.py]   (module [College])
      - [StudBud/backend/jobs.py]   (module [Jobs])
      - [StudBud/backend/auth.py]   (module [Auth])
      - [College-Counseling-App/backend/applications.py]   (module [Applications])

    Python [str] values are modelled as [string] over ASCII characters, Python
    [int] as [Z], Python [set] as [gset], data frames as lists of rows in index
    order.  Generators are modelled by the list of messages they yield together
    with the state they leave behind.  Calls that leave the program (the
    language-model client, the clock, the random generator, pandas sorting, the
    iteration order of a Python [set]) are parameters of the definitions. *)

From Stdlib Require Import ZArith QArith Ascii String.
From stdpp Require Import gmap strings list.

Local Open Scope string_scope.
Local Open Scope list_scope.

(** ** Python string operations (ASCII) *)

Module Text.

Definition is_upper (c : ascii) : bool :=
  let n := Ascii.N_of_ascii c in ((65 <=? n) && (n <=? 90))%N.

Definition is_lower (c : ascii) : bool :=
  let n := Ascii.N_of_ascii c in ((97 <=? n) && (n <=? 122))%N.

Definition is_digit (c : ascii) : bool :=
  let n := Ascii.N_of_ascii c in ((48 <=? n) && (n <=? 57))%N.

Definition lower_char (c : ascii) : ascii :=
  if is_upper c then Ascii.ascii_of_N (Ascii.N_of_ascii c + 32) else c.

Definition upper_char (c : ascii) : ascii :=
  if is_lower c then Ascii.ascii_of_N (Ascii.N_of_ascii c - 32) else c.

(** [s.lower()] *)
Fixpoint lower (s : string) : string :=
  match s with
  | EmptyString => EmptyString
  | String c r => String (lower_char c) (lower r)
  end.

(** [s.startswith(p)] *)
Fixpoint startswith (p s : string) : bool :=
  match p, s with
  | EmptyString, _ => true
  | String _ _, EmptyString => false
  | String a p', String b s' => if Ascii.eqb a b then startswith p' s' else false
  end.

(** [p in s] for strings: [p] occurs in [s] as a contiguous substring. *)
Fixpoint contains (p s : string) : bool :=
  startswith p s ||
  match s with
  | EmptyString => false
  | String _ s' => contains p s'
  end.

(** [any(k in text for k in keywords)] *)
Definition any_in (keywords : list string) (text : string) : bool :=
  existsb (fun k => contains k text) keywords.

(** [s.title()]: a cased character is upper-cased when it follows an
    uncased one (or starts the string) and lower-cased otherwise. *)
Fixpoint title_from (prev_cased : bool) (s : string) : string :=
  match s with
  | EmptyString => EmptyString
  | String c r =>
      let cased := is_upper c || is_lower c in
      String (if prev_cased then lower_char c else upper_char c) (title_from cased r)
  end.

Definition title (s : string) : string := title_from false s.

(** [sep.join(items)] *)
Fixpoint join (sep : string) (items : list string) : string :=
  match items with
  | [] => EmptyString
  | [x] => x
  | x :: rest => x +:+ sep +:+ join sep rest
  end.

(** [re.findall(r'\d+', s)]: the maximal digit runs of [s], left to right.
    [run] holds the run being read, most recent digit first. *)
Fixpoint findall_digits_from (run : list ascii) (s : string) : list string :=
  let flush r := match r with [] => [] | _ => [string_of_list_ascii (rev r)] end in
  match s with
  | EmptyString => flush run
  | String c r =>
      if is_digit c then findall_digits_from (c :: run) r
      else flush run ++ findall_digits_from [] r
  end.

Definition findall_digits (s : string) : list string := findall_digits_from [] s.

(** The number a digit run denotes. *)
Definition digits_value (s : string) : N :=
  fold_left (fun acc c => (acc * 10 + (Ascii.N_of_ascii c - 48))%N)
            (list_ascii_of_string s) 0%N.

Definition digit_char (d : N) : ascii := Ascii.ascii_of_N (48 + d).

(** Decimal digits of [n], at most [fuel] of them, least significant last. *)
Fixpoint decimal_fuel (fuel : nat) (n : N) (acc : string) : string :=
  match fuel with
  | O => acc
  | S f =>
      let acc' := String (digit_char (n mod 10)) acc in
      if (n <? 10)%N then acc' else decimal_fuel f (n / 10)%N acc'
  end.

(** [str(n)] for a non-negative integer. *)
Definition decimal (n : N) : string := decimal_fuel (S (N.to_nat (N.log2 n))) n EmptyString.

(** [str(z)] for an integer. *)
Definition str_Z (z : Z) : string :=
  if (z <? 0)%Z then "-" +:+ decimal (Z.to_N (- z)) else decimal (Z.to_N z).

(** [f"{n:0{w}d}"]: decimal, left-padded with zeros to width [w]. *)
Definition zero_padded (w : nat) (n : N) : string :=
  let d := decimal n in
  string_of_list_ascii (replicate (w - String.length d) "0"%char) +:+ d.

End Text.

(** ** The language-model client, as the chatbots use it *)

Module Ollama.

(** The decoding options both chatbots pass to [client.chat]; the values
    are tenths ([temperature], [top_p]) and integers. *)
Record ChatOptions := {
  temperature_tenths : Z; top_p_tenths : Z; top_k : Z; num_ctx : Z
}.

Inductive Request :=
| Chat (model system user : string) (stream : bool) (options : ChatOptions)
| Generate (model prompt : string) (max_tokens : Z).

(** One element of a streamed reply: the value of
    [chunk.get('message', {}).get('content')], [None] when absent. *)
Definition Chunk := option string.

(** A streamed reply yields its chunks and then either ends or raises. *)
Record Stream := { chunks : list Chunk; failure : option string }.

(** Exceptions carry their [str(e)] text. *)
Inductive ChatResult :=
| ChatRaises (e : string)
| ChatStreams (s : Stream).

(** [client.generate] returns a dictionary, read with [.get('text', ...)]. *)
Inductive GenerateResult :=
| GenerateRaises (e : string)
| GenerateReturns (text : option string).

(** The client answers a request knowing the requests sent before it. *)
Definition ChatClient := list Request -> Request -> ChatResult.
Definition GenerateClient := list Request -> Request -> GenerateResult.

End Ollama.

(** ** StudBud: bounded conversation memory with derived context *)

Module StudBud.

Inductive MessageType :=
| TEXT | QUICK_REPLY | SUGGESTION | ERROR | SYSTEM
| RICH_CONTENT | CODE | INTERVIEW | RESOURCE.

Definition MessageType_value (t : MessageType) : string :=
  match t with
  | TEXT => "text" | QUICK_REPLY => "quick_reply" | SUGGESTION => "suggestion"
  | ERROR => "error" | SYSTEM => "system" | RICH_CONTENT => "rich_content"
  | CODE => "code" | INTERVIEW => "interview" | RESOURCE => "resource"
  end.

Definition is_TEXT (t : MessageType) : bool :=
  match t with TEXT => true | _ => false end.

Definition is_ERROR (t : MessageType) : bool :=
  match t with ERROR => true | _ => false end.

Definition is_SUGGESTION (t : MessageType) : bool :=
  match t with SUGGESTION => true | _ => false end.

(** The dictionary built by [_get_message_metadata]. *)
Record Metadata := { md_timestamp : string; md_type : string }.

(** The [Message] dataclass.  Its [timestamp] field is the class-level
    default, one value computed when the module is imported and shared by
    every message; no code reads it and it is not represented. *)
Record Message := {
  content : string;
  type : MessageType;
  metadata : option Metadata;
  sender : string
}.

(** [self.conversation_context] *)
Record ConversationContext := {
  topics : gset string;
  skills_mentioned : gset string;
  companies_mentioned : gset string;
  current_focus : option string
}.

(** [ConversationMemory]; the fields [context_window], [current_topics] and
    [user_preferences] are set by the constructor and never used again. *)
Record ConversationMemory := {
  messages : list Message;
  max_messages : Z;
  conversation_context : ConversationContext
}.

Definition context_window : Z := 8192.

(** [ConversationMemory(max_messages)] *)
Definition new_memory (max_messages : Z) : ConversationMemory :=
  {| messages := [];
     max_messages := max_messages;
     conversation_context :=
       {| topics := ∅; skills_mentioned := ∅; companies_mentioned := ∅;
          current_focus := None |} |}.

Definition default_max_messages : Z := 50.

Definition topic_keywords : list (string * list string) :=
  [ ("technical", ["algorithm"; "coding"; "programming"; "system design"; "development"]);
    ("interview", ["interview"; "questions"; "preparation"; "practice"]);
    ("career", ["career"; "growth"; "path"; "future"; "goals"]);
    ("skills", ["skills"; "learning"; "technology"; "tools"]);
    ("companies", ["company"; "organization"; "workplace"; "employer"]);
    ("placement", ["placement"; "job"; "position"; "opportunity"]) ].

Definition skills : list string :=
  [ "python"; "java"; "javascript"; "react"; "node"; "sql";
    "machine learning"; "ai"; "cloud"; "aws"; "azure";
    "system design"; "algorithms"; "data structures" ].

Definition companies : list string :=
  [ "google"; "microsoft"; "amazon"; "meta"; "apple";
    "netflix"; "uber"; "twitter"; "linkedin" ].

Definition focus_indicators : list (string * list string) :=
  [ ("technical", ["how to"; "example"; "code"; "implement"]);
    ("conceptual", ["explain"; "what is"; "understand"; "concept"]);
    ("practical", ["apply"; "use"; "practice"; "real world"]);
    ("career", ["career"; "job"; "future"; "growth"]) ].

(** [for topic, keywords in topics.items(): if any(...): topics.add(topic)] *)
Fixpoint add_matching_topics (table : list (string * list string))
    (content_lower : string) (acc : gset string) : gset string :=
  match table with
  | [] => acc
  | (topic, keywords) :: rest =>
      add_matching_topics rest content_lower
        (if Text.any_in keywords content_lower then acc ∪ {[ topic ]} else acc)
  end.

(** [for w in words: if w in content_lower: s.add(w)] *)
Fixpoint add_mentioned (words : list string) (content_lower : string)
    (acc : gset string) : gset string :=
  match words with
  | [] => acc
  | w :: rest =>
      add_mentioned rest content_lower
        (if Text.contains w content_lower then acc ∪ {[ w ]} else acc)
  end.

(** The focus loop: the first entry with a matching indicator assigns the
    focus and [break]s; with no match the focus is left as it was. *)
Fixpoint scan_focus (table : list (string * list string))
    (content_lower : string) (focus : option string) : option string :=
  match table with
  | [] => focus
  | (label, indicators) :: rest =>
      if Text.any_in indicators content_lower then Some label
      else scan_focus rest content_lower focus
  end.

Definition _update_context (ctx : ConversationContext) (content : string)
    : ConversationContext :=
  let content_lower := Text.lower content in
  {| topics := add_matching_topics topic_keywords content_lower (topics ctx);
     skills_mentioned := add_mentioned skills content_lower (skills_mentioned ctx);
     companies_mentioned := add_mentioned companies content_lower (companies_mentioned ctx);
     current_focus := scan_focus focus_indicators content_lower (current_focus ctx) |}.

(** [self.messages.pop(0)] on a non-empty list. *)
Definition pop_front {A} (l : list A) : list A := tail l.

Definition add_message (self : ConversationMemory) (message : Message)
    : ConversationMemory :=
  let appended := messages self ++ [message] in
  let kept :=
    if (max_messages self <? Z.of_nat (length appended))%Z
    then pop_front appended else appended in
  {| messages := kept;
     max_messages := max_messages self;
     conversation_context :=
       if is_TEXT (type message)
       then _update_context (conversation_context self) (content message)
       else conversation_context self |}.

(** A sequence of [add_message] calls, first message first. *)
Definition add_messages (self : ConversationMemory) (ms : list Message)
    : ConversationMemory :=
  foldl add_message self ms.


Definition nl : string := String (Ascii.ascii_of_N 10) EmptyString.

(** Python truthiness of an optional string. *)
Definition truthy (o : option string) : bool :=
  match o with
  | Some s => negb (String.eqb s "")
  | None => false
  end.

(** [l[-3:]] *)
Definition last3 {A} (l : list A) : list A := drop (length l - 3) l.

Section Chatbot.

(** Iteration order of a Python set ([list(s)], [', '.join(s)]). *)
Variable set_order : gset string -> list string.
(** [sorted(l, key=lambda _: random.random())] *)
Variable random_order : list string -> list string.
(** [self.system_prompt], a fixed text. *)
Variable system_prompt : string.
(** [self.client.chat] *)
Variable client_chat : Ollama.ChatClient.
(** [datetime.now().isoformat()], by the number of earlier readings. *)
Variable clock : nat -> string.

Definition get_formatted_context (self : ConversationMemory) : string :=
  let ctx := conversation_context self in
  let focus_part :=
    match current_focus ctx with
    | Some f => if truthy (Some f) then ["Current focus: " +:+ f] else []
    | None => []
    end in
  let set_part (label : string) (s : gset string) :=
    if bool_decide (s = ∅) then []
    else [label +:+ Text.join ", " (set_order s)] in
  let recent_part :=
    match messages self with
    | [] => []
    | _ =>
        (nl +:+ "Recent conversation:") ::
        map (fun msg =>
               (if String.eqb (sender msg) "user" then "User" else "Assistant")
               +:+ ": " +:+ content msg)
            (last3 (messages self))
    end in
  Text.join nl
    (focus_part
     ++ set_part "Active topics: " (topics ctx)
     ++ set_part "Skills discussed: " (skills_mentioned ctx)
     ++ set_part "Companies mentioned: " (companies_mentioned ctx)
     ++ recent_part).

Definition _get_format_instructions (self : ConversationMemory) : string :=
  let current_focus := current_focus (conversation_context self) in
  let instructions := ["Response Instructions:"] in
  let by_focus (f : string) :=
    if String.eqb f "technical" then
      [ "- Provide code examples in markdown format";
        "- Include best practices and patterns";
        "- Add relevant technical explanations";
        "- Suggest resources for further learning" ]
    else if String.eqb f "interview" then
      [ "- Structure response in interview format";
        "- Include example Q&A pairs";
        "- Add interviewer perspectives";
        "- Provide preparation tips" ]
    else if String.eqb f "career" then
      [ "- Offer strategic career advice";
        "- Include industry insights";
        "- Suggest skill development paths";
        "- Provide actionable steps" ]
    else
      [ "- Structure response clearly";
        "- Include relevant examples";
        "- Add practical tips";
        "- Suggest next steps" ] in
  Text.join nl (instructions ++ by_focus (default "" current_focus)).

Definition prepare_response_prompt (self : ConversationMemory) (query : string)
    : string :=
  let prompt := system_prompt in
  let context := get_formatted_context self in
  let prompt :=
    if String.eqb context "" then prompt
    else prompt +:+ nl +:+ nl +:+ "Conversation Context:" +:+ nl +:+ context in
  let format_instructions := _get_format_instructions self in
  let prompt :=
    if String.eqb format_instructions "" then prompt
    else prompt +:+ nl +:+ nl +:+ format_instructions in
  prompt +:+ nl +:+ nl +:+ "User Query: " +:+ query.

(** [_get_message_metadata]; [now] is the clock reading it takes. *)
Definition _get_message_metadata (now : string) (message : string)
    (msg_type : MessageType) : Metadata :=
  {| md_timestamp := now; md_type := MessageType_value msg_type |}.

Definition technical_suggestions : list string :=
  [ "Can you provide more coding examples?";
    "What are the best practices for this?";
    "How can I practice these concepts?" ].

Definition interview_suggestions : list string :=
  [ "What are common follow-up questions?";
    "How should I handle behavioral questions?";
    "Can we do a mock interview?" ].

Definition career_suggestions : list string :=
  [ "What skills should I focus on next?";
    "How can I prepare for this role?";
    "What are the growth opportunities?" ].

Definition company_suggestions (company : string) : list string :=
  [ "What is " +:+ Text.title company +:+ "'s interview process?";
    "What skills does " +:+ Text.title company +:+ " value?";
    "How can I prepare for " +:+ Text.title company +:+ "?" ].

Definition skill_suggestions (skill : string) : list string :=
  [ "How can I master " +:+ skill +:+ "?";
    "What projects can I build with " +:+ skill +:+ "?";
    "Which companies value " +:+ skill +:+ "?" ].

(** The candidate list built by the rule table, before it is
    de-duplicated, shuffled and cut.  [list(s)[0]] is the first element in
    the set's iteration order; the branch is entered for a non-empty set
    only. *)
Definition suggestion_candidates (ctx : ConversationContext) : list string :=
  let suggestions := [] in
  let suggestions :=
    if bool_decide ("technical" ∈ topics ctx)
    then suggestions ++ technical_suggestions else suggestions in
  let suggestions :=
    if bool_decide ("interview" ∈ topics ctx)
    then suggestions ++ interview_suggestions else suggestions in
  let suggestions :=
    if bool_decide ("career" ∈ topics ctx)
    then suggestions ++ career_suggestions else suggestions in
  let suggestions :=
    if bool_decide (companies_mentioned ctx = ∅) then suggestions
    else match set_order (companies_mentioned ctx) with
         | company :: _ => suggestions ++ company_suggestions company
         | [] => suggestions
         end in
  let suggestions :=
    if bool_decide (skills_mentioned ctx = ∅) then suggestions
    else match set_order (skills_mentioned ctx) with
         | skill :: _ => suggestions ++ skill_suggestions skill
         | [] => suggestions
         end in
  suggestions.

Definition _generate_suggestions (self : ConversationMemory)
    (query response : string) : list string :=
  let suggestions := suggestion_candidates (conversation_context self) in
  match suggestions with
  | [] => suggestions
  | _ =>
      let suggestions := set_order (list_to_set suggestions) in
      let suggestions := random_order suggestions in
      take 3 suggestions
  end.

(** What the generator yields.  Every item is a [Message]; the suggestion
    message is built as [Message(suggestions, MessageType.SUGGESTION)],
    with the list itself as its content. *)
Inductive Yielded :=
| YieldMessage (m : Message)
| YieldSuggestions (items : list string).

Definition yielded_type (y : Yielded) : MessageType :=
  match y with
  | YieldMessage m => type m
  | YieldSuggestions _ => SUGGESTION
  end.

(** The chatbot: its memory and the requests sent to the client so far. *)
Record PlacementChatbot := {
  memory : ConversationMemory;
  client_log : list Ollama.Request
}.

Definition text_model : string := "gemma2:27b".

Definition chat_options : Ollama.ChatOptions :=
  {| Ollama.temperature_tenths := 7; Ollama.top_p_tenths := 9;
     Ollama.top_k := 40; Ollama.num_ctx := 8192 |}.

(** The [for chunk in response] loop: [reads] counts the clock readings
    taken so far, [current_message] accumulates the text.  Returns the
    yielded messages, the accumulated text and the clock count. *)
Fixpoint consume_chunks (chunks : list Ollama.Chunk) (reads : nat)
    (current_message : string) : list Yielded * string * nat :=
  match chunks with
  | [] => ([], current_message, reads)
  | chunk :: rest =>
      if truthy chunk then
        let content := default "" chunk in
        let current_message := current_message +:+ content in
        let m := {| content := content; type := TEXT;
                    metadata := Some (_get_message_metadata (clock reads)
                                        current_message TEXT);
                    sender := "bot" |} in
        let '(ys, final_message, reads') :=
          consume_chunks rest (S reads) current_message in
        (YieldMessage m :: ys, final_message, reads')
      else consume_chunks rest reads current_message
  end.

Definition error_message (e : string) : Message :=
  {| content := "I apologize, but I encountered an error: " +:+ e
                +:+ ". Please try again.";
     type := ERROR; metadata := None; sender := "bot" |}.

(** The arguments of the [self.client.chat] call. *)
Definition chat_request (prompt query : string) : Ollama.Request :=
  Ollama.Chat text_model prompt query true chat_options.

(** [get_response]: the messages yielded and the chatbot afterwards.  The
    whole body is inside [try]; [except Exception] yields one error
    message, after which the generator is exhausted. *)
Definition get_response (self : PlacementChatbot) (query : string)
    : list Yielded * PlacementChatbot :=
  let prompt := prepare_response_prompt (memory self) query in
  let memory1 :=
    add_message (memory self)
      {| content := query; type := TEXT; metadata := None; sender := "user" |} in
  let request := chat_request prompt query in
  let log1 := client_log self ++ [request] in
  match client_chat (client_log self) request with
  | Ollama.ChatRaises e =>
      ([YieldMessage (error_message e)],
       {| memory := memory1; client_log := log1 |})
  | Ollama.ChatStreams response =>
      let '(ys, current_message, reads) :=
        consume_chunks (Ollama.chunks response) 0 EmptyString in
      match Ollama.failure response with
      | Some e =>
          (ys ++ [YieldMessage (error_message e)],
           {| memory := memory1; client_log := log1 |})
      | None =>
          let memory2 :=
            add_message memory1
              {| content := current_message; type := TEXT;
                 metadata := Some (_get_message_metadata (clock reads)
                                     current_message TEXT);
                 sender := "bot" |} in
          let suggestions := _generate_suggestions memory2 query current_message in
          (ys ++ match suggestions with
                 | [] => []
                 | _ => [YieldSuggestions suggestions]
                 end,
           {| memory := memory2; client_log := log1 |})
      end
  end.

End Chatbot.

End StudBud.

(** ** College-Counseling-App: chatbot with mock interview and resume analysis *)

Module College.

Inductive MessageType :=
| TEXT | QUICK_REPLY | SUGGESTION | ERROR | SYSTEM | RICH_CONTENT
| CODE | INTERVIEW | RESOURCE | RESUME_FEEDBACK | JOB_MATCH.

Definition MessageType_value (t : MessageType) : string :=
  match t with
  | TEXT => "text" | QUICK_REPLY => "quick_reply" | SUGGESTION => "suggestion"
  | ERROR => "error" | SYSTEM => "system" | RICH_CONTENT => "rich_content"
  | CODE => "code" | INTERVIEW => "interview" | RESOURCE => "resource"
  | RESUME_FEEDBACK => "resume_feedback" | JOB_MATCH => "job_match"
  end.

Definition is_ERROR (t : MessageType) : bool :=
  match t with ERROR => true | _ => false end.

Definition is_SUGGESTION (t : MessageType) : bool :=
  match t with SUGGESTION => true | _ => false end.

Record Metadata := { md_timestamp : string; md_type : string }.

Definition nl : string := String (Ascii.ascii_of_N 10) EmptyString.

(** A value of the preferences dictionary. *)
Inductive PrefValue :=
| PrefNone
| PrefStr (s : string)
| PrefList (l : list string).

(** [if value:] *)
Definition pref_truthy (v : PrefValue) : bool :=
  match v with
  | PrefNone => false
  | PrefStr s => negb (String.eqb s "")
  | PrefList l => match l with [] => false | _ => true end
  end.

(** [str(value)] inside an f-string; for a list, the quoting of its items
    is the plain one (no escapes). *)
Definition pref_str (v : PrefValue) : string :=
  match v with
  | PrefNone => "None"
  | PrefStr s => s
  | PrefList l => "[" +:+ Text.join ", " (map (fun s => "'" +:+ s +:+ "'") l) +:+ "]"
  end.

(** [for skill in value]: a list gives its items, a string its characters. *)
Definition pref_iter (v : PrefValue) : list string :=
  match v with
  | PrefNone => []
  | PrefStr s => map (fun c => String c EmptyString) (list_ascii_of_string s)
  | PrefList l => l
  end.

(** [d.get(key)] on a dictionary kept as its items in insertion order. *)
Fixpoint dict_get {V} (d : list (string * V)) (key : string) : option V :=
  match d with
  | [] => None
  | (k, v) :: rest => if String.eqb k key then Some v else dict_get rest key
  end.

(** [key.capitalize()] *)
Definition capitalize (s : string) : string :=
  match s with
  | EmptyString => EmptyString
  | String c r => String (Text.upper_char c) (Text.lower r)
  end.

(** [l[i]] with Python's negative indices; [None] stands for [IndexError]. *)
Definition py_index {A} (l : list A) (i : Z) : option A :=
  if (0 <=? i)%Z then l !! Z.to_nat i
  else if (- Z.of_nat (length l) <=? i)%Z then l !! Z.to_nat (Z.of_nat (length l) + i)
  else None.

(** [s[:n]] *)
Definition str_take (n : nat) (s : string) : string :=
  string_of_list_ascii (take n (list_ascii_of_string s)).

Definition text_model : string := "gemma2:27b".
Definition vision_model : string := "llama3.2-vision:latest".

Definition chat_options : Ollama.ChatOptions :=
  {| Ollama.temperature_tenths := 7; Ollama.top_p_tenths := 9;
     Ollama.top_k := 40; Ollama.num_ctx := 8192 |}.

Section Chatbot.

(** Sentence embeddings: [torch.Tensor] values and the encoder. *)
Context {Tensor : Type}.
Variable encode : string -> Tensor.
(** [torch.topk] over the cosine similarities of a query embedding with a
    list of embeddings: the positions of the [k] best, all in range. *)
Variable topk_cos_sim : Tensor -> list Tensor -> nat -> list nat.
(** Iteration order of a Python set. *)
Variable set_order : gset string -> list string.
(** [random.sample(population, k)] *)
Variable random_sample : list string -> nat -> list string.
Variable system_prompt : string.
Variable client_chat : Ollama.ChatClient.
Variable client_generate : Ollama.GenerateClient.
(** [datetime.now().isoformat()], by the number of earlier readings. *)
Variable clock : nat -> string.

(** The [Message] dataclass; as in StudBud the shared class-level
    [timestamp] default is not represented. *)
Record Message := {
  content : string;
  type : MessageType;
  metadata : option Metadata;
  sender : string;
  embedding : option Tensor
}.

Definition bot_message (content : string) (type : MessageType) : Message :=
  {| content := content; type := type; metadata := None; sender := "bot";
     embedding := None |}.

Record ConversationMemory := {
  messages : list Message;
  max_messages : Z
}.

Definition new_memory (max_messages : Z) : ConversationMemory :=
  {| messages := []; max_messages := max_messages |}.

Definition default_max_messages : Z := 50.

(** [message.embedding = ...] *)
Definition with_embedding (message : Message) : Message :=
  {| content := content message; type := type message;
     metadata := metadata message; sender := sender message;
     embedding := Some (encode (content message)) |}.

Definition add_message (self : ConversationMemory) (message : Message)
    : ConversationMemory :=
  let message := with_embedding message in
  let appended := messages self ++ [message] in
  {| messages :=
       if (max_messages self <? Z.of_nat (length appended))%Z
       then tail appended else appended;
     max_messages := max_messages self |}.

Definition add_messages (self : ConversationMemory) (ms : list Message)
    : ConversationMemory :=
  foldl add_message self ms.

Definition get_relevant_context (self : ConversationMemory) (query : string)
    (top_k : nat) : string :=
  match messages self with
  | [] => EmptyString
  | _ =>
      let query_embedding := encode query in
      let embeddings := omap embedding (messages self) in
      let top_indices :=
        if Nat.eqb (length embeddings) 1 then [0%nat]
        else topk_cos_sim query_embedding embeddings
               (Nat.min top_k (length (messages self))) in
      Text.join nl
        (omap (fun idx => content <$> (messages self !! idx)) top_indices)
  end.

Definition get_formatted_context (self : ConversationMemory) (query : string)
    : string :=
  let relevant_context := get_relevant_context self query 5 in
  if String.eqb relevant_context "" then EmptyString
  else "Relevant conversation context:" +:+ nl +:+ relevant_context.

Record PlacementChatbot := {
  memory : ConversationMemory;
  user_preferences : list (string * PrefValue);
  is_mock_interview_active : bool;
  mock_interview_questions : list string;
  current_question_index : Z;
  user_resume_text : string;
  resume_uploaded : bool;
  (** the requests sent to [self.client] so far *)
  client_log : list Ollama.Request
}.

Definition set_memory (self : PlacementChatbot) (m : ConversationMemory) :=
  {| memory := m;
     user_preferences := user_preferences self;
     is_mock_interview_active := is_mock_interview_active self;
     mock_interview_questions := mock_interview_questions self;
     current_question_index := current_question_index self;
     user_resume_text := user_resume_text self;
     resume_uploaded := resume_uploaded self;
     client_log := client_log self |}.

Definition set_interview (self : PlacementChatbot) (active : bool)
    (questions : list string) (index : Z) :=
  {| memory := memory self;
     user_preferences := user_preferences self;
     is_mock_interview_active := active;
     mock_interview_questions := questions;
     current_question_index := index;
     user_resume_text := user_resume_text self;
     resume_uploaded := resume_uploaded self;
     client_log := client_log self |}.

Definition log_request (self : PlacementChatbot) (r : Ollama.Request) :=
  {| memory := memory self;
     user_preferences := user_preferences self;
     is_mock_interview_active := is_mock_interview_active self;
     mock_interview_questions := mock_interview_questions self;
     current_question_index := current_question_index self;
     user_resume_text := user_resume_text self;
     resume_uploaded := resume_uploaded self;
     client_log := client_log self ++ [r] |}.

Definition set_user_preferences (self : PlacementChatbot)
    (preferences : list (string * PrefValue)) :=
  {| memory := memory self;
     user_preferences := preferences;
     is_mock_interview_active := is_mock_interview_active self;
     mock_interview_questions := mock_interview_questions self;
     current_question_index := current_question_index self;
     user_resume_text := user_resume_text self;
     resume_uploaded := resume_uploaded self;
     client_log := client_log self |}.

(** [PlacementChatbot()] *)
Definition new_chatbot : PlacementChatbot :=
  {| memory := new_memory default_max_messages;
     user_preferences := [];
     is_mock_interview_active := false;
     mock_interview_questions := [];
     current_question_index := 0;
     user_resume_text := EmptyString;
     resume_uploaded := false;
     client_log := [] |}.

(** [self.client.generate(model=self.text_model, prompt=..., max_tokens=...)]:
    the request is logged, then the client answers or raises. *)
Definition generate (self : PlacementChatbot) (prompt : string) (max_tokens : Z)
    : PlacementChatbot * Ollama.GenerateResult :=
  let request := Ollama.Generate text_model prompt max_tokens in
  (log_request self request, client_generate (client_log self) request).

Definition prepare_response_prompt (self : PlacementChatbot) (query : string)
    : string :=
  let prompt := system_prompt in
  let prompt :=
    match user_preferences self with
    | [] => prompt
    | items =>
        prompt +:+
        fold_left
          (fun preferences_text '(key, value) =>
             if pref_truthy value
             then preferences_text +:+ nl +:+ "- " +:+ capitalize key +:+ ": "
                  +:+ pref_str value
             else preferences_text)
          items (nl +:+ "User Preferences:")
    end in
  let context := get_formatted_context (memory self) query in
  let prompt :=
    if String.eqb context "" then prompt else prompt +:+ nl +:+ nl +:+ context in
  prompt +:+ nl +:+ nl +:+ "User Query: " +:+ query.

Definition _get_message_metadata (now : string) (message : string)
    (msg_type : MessageType) : Metadata :=
  {| md_timestamp := now; md_type := MessageType_value msg_type |}.

Definition system_design_suggestions : list string :=
  [ "Can you explain the CAP theorem?";
    "What are some best practices for scaling systems?";
    "How does load balancing work in distributed systems?" ].

Definition machine_learning_suggestions : list string :=
  [ "What is overfitting and how can it be prevented?";
    "Can you explain the bias-variance tradeoff?";
    "What are common evaluation metrics for classification models?" ].

Definition skill_suggestion (skill : string) : string :=
  "How can I improve my " +:+ skill +:+ " skills?".

Definition standing_suggestions : list string :=
  [ "Can you start a mock technical interview with me?";
    "Can you analyze my resume?";
    "Can you help me with job matching?" ].

(** The candidate list built by the rules, before it is de-duplicated
    and sampled. *)
Definition suggestion_candidates (self : PlacementChatbot) (response : string)
    : list string :=
  let suggestions := [] in
  let suggestions :=
    if Text.contains "system design" (Text.lower response)
    then suggestions ++ system_design_suggestions else suggestions in
  let suggestions :=
    if Text.contains "machine learning" (Text.lower response)
    then suggestions ++ machine_learning_suggestions else suggestions in
  let suggestions :=
    match dict_get (user_preferences self) "skills" with
    | Some preferred_skills =>
        if pref_truthy preferred_skills
        then suggestions ++ map skill_suggestion (pref_iter preferred_skills)
        else suggestions
    | None => suggestions
    end in
  suggestions ++ standing_suggestions.

Definition _generate_suggestions (self : PlacementChatbot)
    (query response : string) : list string :=
  let suggestions := suggestion_candidates self response in
  match suggestions with
  | [] => suggestions
  | _ =>
      let suggestions := set_order (list_to_set suggestions) in
      random_sample suggestions (Nat.min (length suggestions) 3)
  end.

(** A generator run to exhaustion: the messages it yielded, the chatbot
    it leaves, and the exception that ended it, if one did. *)
Record Run := {
  yielded : list Message;
  final : PlacementChatbot;
  raised : option string
}.

Definition get_mock_interview_questions : list string :=
  [ "Can you explain the concept of polymorphism in object-oriented programming?";
    "How does a binary search algorithm work?";
    "What are the differences between TCP and UDP protocols?" ].

Definition start_mock_interview (self : PlacementChatbot) : Run :=
  let self := set_interview self true get_mock_interview_questions 0 in
  match py_index (mock_interview_questions self) (current_question_index self) with
  | None => {| yielded := []; final := self; raised := Some "IndexError" |}
  | Some question =>
      let self :=
        set_interview self (is_mock_interview_active self)
          (mock_interview_questions self) (current_question_index self + 1) in
      {| yielded :=
           [ bot_message
               ("Let's begin the mock technical interview." +:+ nl +:+ nl
                +:+ "**Question 1:** " +:+ question)
               INTERVIEW ];
         final := self;
         raised := None |}
  end.

Definition evaluation_prompt (question user_answer : string) : string :=
  "Evaluate the following answer for correctness, completeness, and clarity. Provide constructive feedback."
  +:+ nl +:+ nl +:+ "Question: " +:+ question +:+ nl +:+ "Answer: " +:+ user_answer
  +:+ nl +:+ nl +:+ "Feedback:".

(** [evaluate_answer]: the chatbot after the call and the returned text,
    or the exception raised. *)
Definition evaluate_answer (self : PlacementChatbot) (user_answer : string)
    : PlacementChatbot * (string + string) :=
  match py_index (mock_interview_questions self) (current_question_index self - 1) with
  | None => (self, inr "IndexError")
  | Some question =>
      let prompt := evaluation_prompt question user_answer in
      match generate self prompt 150 with
      | (self, Ollama.GenerateRaises e) => (self, inr e)
      | (self, Ollama.GenerateReturns text) =>
          (self, inl (default "Unable to provide feedback at this time." text))
      end
  end.

Definition closing_message : Message :=
  bot_message
    "This concludes the mock interview. Great job! If you'd like to practice more, let me know."
    INTERVIEW.

Definition process_mock_interview_response (self : PlacementChatbot)
    (user_answer : string) : Run :=
  match evaluate_answer self user_answer with
  | (self, inr e) => {| yielded := []; final := self; raised := Some e |}
  | (self, inl evaluation) =>
      let feedback := bot_message ("**Feedback:** " +:+ evaluation) INTERVIEW in
      if (current_question_index self
          <? Z.of_nat (length (mock_interview_questions self)))%Z
      then
        match py_index (mock_interview_questions self) (current_question_index self) with
        | None => {| yielded := [feedback]; final := self; raised := Some "IndexError" |}
        | Some question =>
            let self :=
              set_interview self (is_mock_interview_active self)
                (mock_interview_questions self) (current_question_index self + 1) in
            {| yielded :=
                 [ feedback;
                   bot_message
                     ("**Question "
                      +:+ Text.str_Z (current_question_index self)
                      +:+ ":** " +:+ question)
                     INTERVIEW ];
               final := self;
               raised := None |}
        end
      else
        let self :=
          set_interview self false (mock_interview_questions self)
            (current_question_index self) in
        {| yielded := [feedback; closing_message]; final := self; raised := None |}
  end.

Definition max_resume_length : nat := 1000.

Definition summary_prompt (resume_text : string) : string :=
  "Summarize the following resume in 1000 characters or less:" +:+ nl +:+ nl
  +:+ resume_text +:+ nl +:+ nl +:+ "Summary:".

Definition critique_prompt (resume_text : string) : string :=
  "Analyze the following resume and provide suggestions for improvement:"
  +:+ nl +:+ nl +:+ resume_text +:+ nl +:+ nl +:+ "Suggestions:".

Definition no_resume_message : Message :=
  bot_message
    "I haven't received your resume yet. Please upload it, and then ask me to analyze it."
    ERROR.

Definition analyze_resume (self : PlacementChatbot) (query : string) : Run :=
  if resume_uploaded self && negb (String.eqb (user_resume_text self) "") then
    let resume_text := user_resume_text self in
    let summarised : PlacementChatbot * (string + string) :=
      if (max_resume_length <? String.length resume_text)%nat then
        match generate self (summary_prompt resume_text) 200 with
        | (self, Ollama.GenerateRaises e) => (self, inr e)
        | (self, Ollama.GenerateReturns text) =>
            (self, inl (default (str_take max_resume_length resume_text) text))
        end
      else (self, inl resume_text) in
    match summarised with
    | (self, inr e) => {| yielded := []; final := self; raised := Some e |}
    | (self, inl resume_text) =>
        match generate self (critique_prompt resume_text) 300 with
        | (self, Ollama.GenerateRaises e) =>
            {| yielded := []; final := self; raised := Some e |}
        | (self, Ollama.GenerateReturns text) =>
            {| yielded :=
                 [ bot_message
                     (default "Unable to analyze resume at this time." text)
                     RESUME_FEEDBACK ];
               final := self;
               raised := None |}
        end
    end
  else {| yielded := [no_resume_message]; final := self; raised := None |}.

(** The [for chunk in response] loop of [get_response]. *)
Fixpoint consume_chunks (chunks : list Ollama.Chunk) (reads : nat)
    (current_message : string) : list Message * string * nat :=
  match chunks with
  | [] => ([], current_message, reads)
  | chunk :: rest =>
      match chunk with
      | Some content =>
          if String.eqb content "" then consume_chunks rest reads current_message
          else
            let current_message := current_message +:+ content in
            let m := {| content := content; type := TEXT;
                        metadata := Some (_get_message_metadata (clock reads)
                                            current_message TEXT);
                        sender := "bot"; embedding := None |} in
            let '(ys, final_message, reads') :=
              consume_chunks rest (S reads) current_message in
            (m :: ys, final_message, reads')
      | None => consume_chunks rest reads current_message
      end
  end.

Definition error_message : Message :=
  bot_message
    "I'm sorry, but I encountered an error while processing your request. Please try again."
    ERROR.

(** The arguments of the [self.client.chat] call. *)
Definition chat_request (prompt query : string) : Ollama.Request :=
  Ollama.Chat text_model prompt query true chat_options.

(** The tests at the head of [get_response] that select a flow other than
    general chat: an active mock interview, then the command phrases. *)
Definition selects_flow (self : PlacementChatbot) (query : string) : bool :=
  let q := Text.lower query in
  if is_mock_interview_active self then true
  else if Text.contains "start mock interview" q then true
  else if Text.contains "analyze my resume" q
          || (Text.contains "analyze" q && Text.contains "resume" q)
  then true
  else if Text.contains "find jobs" q || Text.contains "job matching" q then true
  else false.

(** [get_response] is a generator function (its body contains [yield]),
    so each [return self.some_flow(...)] in it only builds the generator
    object of that flow and ends this generator: the flow's body is never
    run, nothing is yielded and the chatbot is unchanged.  The general
    chat path is inside [try]; [except Exception] yields one error
    message, after which the generator is exhausted. *)
Definition get_response (self : PlacementChatbot) (query : string)
    : list Message * PlacementChatbot :=
  if selects_flow self query then ([], self)
  else
    let prompt := prepare_response_prompt self query in
    let self :=
      set_memory self
        (add_message (memory self)
           {| content := query; type := TEXT; metadata := None;
              sender := "user"; embedding := None |}) in
    let request := chat_request prompt query in
    let result := client_chat (client_log self) request in
    let self := log_request self request in
    match result with
    | Ollama.ChatRaises e => ([error_message], self)
    | Ollama.ChatStreams response =>
        let '(ys, current_message, reads) :=
          consume_chunks (Ollama.chunks response) 0 EmptyString in
        match Ollama.failure response with
        | Some e => (ys ++ [error_message], self)
        | None =>
            let self :=
              set_memory self
                (add_message (memory self)
                   {| content := current_message; type := TEXT;
                      metadata := Some (_get_message_metadata (clock reads)
                                          current_message TEXT);
                      sender := "bot"; embedding := None |}) in
            let suggestions := _generate_suggestions self query current_message in
            (ys ++ match suggestions with
                   | [] => []
                   | _ => [bot_message (Text.join nl suggestions) SUGGESTION]
                   end,
             self)
        end
    end.

End Chatbot.

End College.

(** ** StudBud: job listing *)

Module Jobs.

(** A cell of a text column read from the CSV file: a string, or the
    missing value ([NaN], a float). *)
Inductive Cell :=
| Str (s : string)
| NaN.

Inductive Exception :=
| IndexError
| TypeError
| ValueError
| AttributeError
(** [re.error] *)
| ReError.

(** A row of [jobs.csv]. *)
Record Job := {
  id : Cell;
  title : Cell;
  company : Cell;
  location : Cell;
  salary_range : Cell;
  job_type : Cell;
  posted_date : Cell;
  description : Cell;
  skills : Cell;
  status : Cell
}.

(** A row of the frame [get_jobs] works on: the job and the added columns.
    The salary columns hold the [float] of a digit run, kept as the number
    the digits write: [float] gives that number when it is at most 2^53 and
    the nearest [float64] beyond, so what is stated on the values of these
    columns is stated for numbers up to 2^53. *)
Record JobRow := {
  job : Job;
  salary_min : N;
  salary_max : N;
  avg_salary : option Q
}.

(** The [filters] dictionary; a field is [None] when its key is absent,
    [other_keys] tells whether the dictionary has a key that [get_jobs] does
    not read. *)
Record Filters := {
  search_query : option string;
  job_types : option (list string);
  locations : option (list string);
  salary_range_filter : option (Z * Z);
  sort_by : option string;
  other_keys : bool
}.

(** [if filters:] on a dictionary: some key is present. *)
Definition filters_truthy (f : Filters) : bool :=
  match search_query f, job_types f, locations f, salary_range_filter f, sort_by f with
  | None, None, None, None, None => other_keys f
  | _, _, _, _, _ => true
  end.

(** [float(re.findall(r'\d+', x)[0])]; [re.findall] on a float raises
    [TypeError], [[][0]] raises [IndexError]. *)
Definition first_digit_run (x : Cell) : Exception + N :=
  match x with
  | NaN => inl TypeError
  | Str s =>
      match Text.findall_digits s with
      | [] => inl IndexError
      | run :: _ => inr (Text.digits_value run)
      end
  end.

(** [float(re.findall(r'\d+', x)[-1])] *)
Definition last_digit_run (x : Cell) : Exception + N :=
  match x with
  | NaN => inl TypeError
  | Str s =>
      match last (Text.findall_digits s) with
      | None => inl IndexError
      | Some run => inr (Text.digits_value run)
      end
  end.

(** [series.apply(f)]: [f] on each value in index order; the first
    exception ends the call. *)
Fixpoint apply {A B} (f : A -> Exception + B) (series : list A)
    : Exception + list B :=
  match series with
  | [] => inr []
  | x :: rest =>
      match f x with
      | inl e => inl e
      | inr y =>
          match apply f rest with
          | inl e => inl e
          | inr ys => inr (y :: ys)
          end
      end
  end.

Definition cell_isin (c : Cell) (values : list string) : bool :=
  match c with
  | Str s => bool_decide (s ∈ values)
  | NaN => false
  end.

Definition is_str (c : Cell) : bool :=
  match c with
  | Str _ => true
  | NaN => false
  end.

(** [mask1 | mask2] *)
Definition mask_or (mask1 mask2 : list bool) : list bool := zip_with orb mask1 mask2.

(** [df[mask]] *)
Definition select {A} (mask : list bool) (df : list A) : list A :=
  map fst (List.filter snd (zip df mask)).

Inductive SortKey := by_posted_date | by_avg_salary.

Section Pandas.

(** [re.compile(pattern).search], as [series.str.contains] uses it: the
    search of the compiled pattern in a string, [None] when the pattern is
    not a regular expression and [re.compile] raises [re.error]. *)
Variable regex_search : string -> option (string -> bool).
(** [df.sort_values(by=key, ascending=...)] *)
Variable sort_values : SortKey -> bool -> list JobRow -> list JobRow.
(** [pd.to_datetime] on one string: the instant in microseconds, [None]
    when the text is not a date. *)
Variable parse_datetime : string -> option Z.

(** [series.str] on a text column of the frame: a column that has rows and
    a string in none of them was read from the file as [float64], and the
    accessor raises [AttributeError]. *)
Definition str_accessor (column : list Cell) : Exception + list Cell :=
  match column with
  | [] => inr []
  | _ => if existsb is_str column then inr column else inl AttributeError
  end.

(** What [.str.lower().str.contains(pattern, na=False)] gives on one cell
    once the pattern is compiled. *)
Definition cell_contains (search : string -> bool) (c : Cell) : bool :=
  match c with
  | Str s => search (Text.lower s)
  | NaN => false
  end.

(** [series.str.lower().str.contains(pattern, na=False)]: the mask, one
    truth value per row.  The pattern is compiled before any row is
    looked at. *)
Definition str_lower_contains (pattern : string) (column : list Cell)
    : Exception + list bool :=
  match str_accessor column with
  | inl e => inl e
  | inr cells =>
      match regex_search pattern with
      | None => inl ReError
      | Some search => inr (map (cell_contains search) cells)
      end
  end.

Definition with_avg_salary (r : JobRow) : JobRow :=
  {| job := job r; salary_min := salary_min r; salary_max := salary_max r;
     avg_salary :=
       Some ((inject_Z (Z.of_N (salary_min r)) + inject_Z (Z.of_N (salary_max r))) / 2)%Q |}.

Definition apply_filters (filters : Filters) (df : list JobRow)
    : Exception + list JobRow :=
  let search_query := Text.lower (default "" (search_query filters)) in
  let searched : Exception + list JobRow :=
    if String.eqb search_query "" then inr df
    else
      match str_lower_contains search_query (map (fun r => title (job r)) df) with
      | inl e => inl e
      | inr in_title =>
          match str_lower_contains search_query (map (fun r => company (job r)) df) with
          | inl e => inl e
          | inr in_company =>
              match str_lower_contains search_query (map (fun r => skills (job r)) df) with
              | inl e => inl e
              | inr in_skills =>
                  inr (select (mask_or (mask_or in_title in_company) in_skills) df)
              end
          end
      end in
  match searched with
  | inl e => inl e
  | inr df =>
      let job_types := default [] (job_types filters) in
      let df :=
        match job_types with
        | [] => df
        | _ => List.filter (fun r => cell_isin (job_type (job r)) job_types) df
        end in
      let locations := default [] (locations filters) in
      let df :=
        match locations with
        | [] => df
        | _ => List.filter (fun r => cell_isin (location (job r)) locations) df
        end in
      let '(salary_min_filter, salary_max_filter) :=
        default (0, 100)%Z (salary_range_filter filters) in
      let df :=
        List.filter (fun r => (salary_min_filter <=? Z.of_N (salary_min r))%Z
                              && (Z.of_N (salary_max r) <=? salary_max_filter)%Z) df in
      let sort_by := default "Most Recent" (sort_by filters) in
      if String.eqb sort_by "Most Recent" then inr (sort_values by_posted_date false df)
      else if String.eqb sort_by "Salary (High to Low)"
      then inr (sort_values by_avg_salary false (map with_avg_salary df))
      else if String.eqb sort_by "Salary (Low to High)"
      then inr (sort_values by_avg_salary true (map with_avg_salary df))
      else inr df
  end.

(** The two [apply] lines that add the salary columns. *)
Definition add_salary_columns (jobs_df : list Job) : Exception + list JobRow :=
  match apply first_digit_run (map salary_range jobs_df) with
  | inl e => inl e
  | inr mins =>
      match apply last_digit_run (map salary_range jobs_df) with
      | inl e => inl e
      | inr maxs =>
          inr (zip_with (fun j '(lo, hi) =>
                           {| job := j; salary_min := lo; salary_max := hi;
                              avg_salary := None |})
                        jobs_df (zip mins maxs))
      end
  end.

(** [JobManager.get_jobs]; [self] is [self.jobs_df], [filters] is [None]
    when the argument is [None]. *)
Definition get_jobs (self : list Job) (filters : option Filters)
    : Exception + list JobRow :=
  match add_salary_columns self with
  | inl e => inl e
  | inr df =>
      match filters with
      | Some f => if filters_truthy f then apply_filters f df else inr df
      | None => inr df
      end
  end.

Record Statistics := {
  active_jobs : nat;
  companies : nat;
  recent_jobs : nat;
  (** [salary_ranges.avg]; [None] is the mean of an empty column *)
  salary_avg : option Q
}.

(** [pd.to_datetime] on one cell: a missing value stays missing. *)
Definition to_datetime (c : Cell) : Exception + option Z :=
  match c with
  | NaN => inr None
  | Str s =>
      match parse_datetime s with
      | Some t => inr (Some t)
      | None => inl ValueError
      end
  end.

Definition week_microseconds : Z := 7 * 86400 * 1000000.

Definition mean (xs : list Q) : option Q :=
  match xs with
  | [] => None
  | _ => Some (fold_right Qplus 0%Q xs / inject_Z (Z.of_nat (length xs)))%Q
  end.

Definition cell_strings (cs : list Cell) : list string :=
  omap (fun c => match c with Str s => Some s | NaN => None end) cs.

(** [get_job_statistics]; [jobs_file] is the content of [jobs.csv], [None]
    when the file does not exist; [now] is the clock.  The result [None]
    is the empty dictionary. *)
Definition get_job_statistics (jobs_file : option (list Job)) (now : Z)
    : Exception + option Statistics :=
  match jobs_file with
  | None => inr None
  | Some jobs_df =>
      match apply to_datetime (map posted_date jobs_df) with
      | inl e => inl e
      | inr dates =>
          match add_salary_columns jobs_df with
          | inl e => inl e
          | inr df =>
              inr (Some
                {| active_jobs := length df;
                   companies := length (remove_dups (cell_strings (map company jobs_df)));
                   recent_jobs :=
                     length (List.filter
                               (fun d => match d with
                                         | Some t => (now - week_microseconds <=? t)%Z
                                         | None => false
                                         end) dates);
                   salary_avg :=
                     mean (map (fun r => ((inject_Z (Z.of_N (salary_min r))
                                           + inject_Z (Z.of_N (salary_max r))) / 2)%Q) df) |})
          end
      end
  end.

End Pandas.

End Jobs.

(** ** Wall-clock time, as [datetime.datetime.now()] returns it *)

Module Clock.

Record DateTime := {
  year : N; month : N; day : N;
  hour : N; minute : N; second : N;
  microsecond : N
}.

(** [t.strftime('%Y%m%d%H%M%S')] *)
Definition strftime_compact (t : DateTime) : string :=
  Text.zero_padded 4 (year t) +:+ Text.zero_padded 2 (month t)
  +:+ Text.zero_padded 2 (day t) +:+ Text.zero_padded 2 (hour t)
  +:+ Text.zero_padded 2 (minute t) +:+ Text.zero_padded 2 (second t).

(** [t.isoformat()]; the fraction is printed only when it is not zero. *)
Definition isoformat (t : DateTime) : string :=
  Text.zero_padded 4 (year t) +:+ "-" +:+ Text.zero_padded 2 (month t)
  +:+ "-" +:+ Text.zero_padded 2 (day t) +:+ "T" +:+ Text.zero_padded 2 (hour t)
  +:+ ":" +:+ Text.zero_padded 2 (minute t) +:+ ":" +:+ Text.zero_padded 2 (second t)
  +:+ (if (microsecond t =? 0)%N then EmptyString
       else "." +:+ Text.zero_padded 6 (microsecond t)).

(** Two readings fall in the same clock second. *)
Definition same_second (a b : DateTime) : Prop :=
  year a = year b /\ month a = month b /\ day a = day b /\
  hour a = hour b /\ minute a = minute b /\ second a = second b.

End Clock.

(** ** StudBud: authentication against the user table *)

Module Auth.

(** A row of [users.csv]. *)
Record User := {
  user_id : string;
  email : string;
  password : string;
  role : string;
  name : string;
  department : string;
  year : string;
  created_at : string;
  last_login : string
}.

(** [AuthManager]: the frame in memory and the content of the CSV file.
    [users_df = None] is the column-less frame [_load_users] returns after an
    exception; [users_file = None] is a file that does not exist. *)
Record AuthManager := {
  users_df : option (list User);
  users_file : option (list User)
}.

Definition default_users (now : Clock.DateTime) : list User :=
  [ {| user_id := "USR_001"; email := "admin@atlas.edu"; password := "admin123";
       role := "admin"; name := "Admin User"; department := "Administration";
       year := "NA"; created_at := Clock.isoformat now;
       last_login := Clock.isoformat now |};
    {| user_id := "USR_002"; email := "student@atlas.edu"; password := "student123";
       role := "student"; name := "Student User"; department := "Computer Science";
       year := "Third Year"; created_at := Clock.isoformat now;
       last_login := Clock.isoformat now |} ].

(** [AuthManager()] with [_load_users]; [io_ok] tells whether the file
    operations succeed. *)
Definition new_manager (file : option (list User)) (now : Clock.DateTime)
    (io_ok : bool) : AuthManager :=
  if io_ok then
    match file with
    | Some rows => {| users_df := Some rows; users_file := file |}
    | None =>
        {| users_df := Some (default_users now);
           users_file := Some (default_users now) |}
    end
  else {| users_df := None; users_file := file |}.

(** [_save_users]; a failed write is logged and otherwise ignored. *)
Definition _save_users (self : AuthManager) (write_ok : bool) : AuthManager :=
  if write_ok then {| users_df := users_df self; users_file := users_df self |}
  else self.

Definition set_last_login (u : User) (t : string) : User :=
  {| user_id := user_id u; email := email u; password := password u;
     role := role u; name := name u; department := department u;
     year := year u; created_at := created_at u; last_login := t |}.

(** The dictionary returned on success. *)
Record UserInfo := {
  info_user_id : string;
  info_name : string;
  info_role : string
}.

(** [authenticate_user]; [now] is the clock reading, [write_ok] tells
    whether the write of the CSV file succeeds. *)
Definition authenticate_user (self : AuthManager) (email' password' : string)
    (now : Clock.DateTime) (write_ok : bool)
    : AuthManager * (bool * string * option UserInfo) :=
  match users_df self with
  | None => (self, (false, "Authentication failed: 'email'", None))
  | Some df =>
      let user :=
        List.filter (fun u => String.eqb (Text.lower (email u)) (Text.lower email')) df in
      match user with
      | [] => (self, (false, "Invalid email or password", None))
      | user_data :: _ =>
          if negb (String.eqb password' (password user_data))
          then (self, (false, "Invalid email or password", None))
          else
            let df :=
              map (fun u => if String.eqb (email u) email'
                            then set_last_login u (Clock.isoformat now) else u) df in
            let self := {| users_df := Some df; users_file := users_file self |} in
            let self := _save_users self write_ok in
            (self, (true, "Login successful",
                    Some {| info_user_id := user_id user_data;
                            info_name := name user_data;
                            info_role := role user_data |}))
      end
  end.

(** The [user_data] dictionary of a registration. *)
Record Registration := {
  reg_email : string;
  reg_password : string;
  reg_name : string;
  reg_department : option string;
  reg_year : option string
}.

(** [register_user]; [now1] and [now2] are its two clock readings. *)
Definition register_user (self : AuthManager) (user_data : Registration)
    (now1 now2 : Clock.DateTime) (write_ok : bool) : AuthManager * (bool * string) :=
  match users_df self with
  | None => (self, (false, "Registration failed: 'email'"))
  | Some df =>
      if existsb (fun u => String.eqb (Text.lower (email u))
                                      (Text.lower (reg_email user_data))) df
      then (self, (false, "Email already registered"))
      else
        let new_user :=
          {| user_id := "USR_" +:+ Clock.strftime_compact now1;
             email := Text.lower (reg_email user_data);
             password := reg_password user_data;
             role := "student";
             name := reg_name user_data;
             department := default "" (reg_department user_data);
             year := default "" (reg_year user_data);
             created_at := Clock.isoformat now2;
             last_login := "" |} in
        let self := {| users_df := Some (df ++ [new_user]); users_file := users_file self |} in
        (_save_users self write_ok, (true, "Registration successful"))
  end.

End Auth.

(** ** College-Counseling-App: application records *)

Module Applications.

(** A row of the applications frame: column name to value; a column the row
    has no value for is absent (pandas shows [NaN]). *)
Abbreviation Row := (gmap string string).

(** [ApplicationManager]: the frame, as rows with their index labels in
    order, and the content of the CSV file (written without the index). *)
Record ApplicationManager := {
  applications_df : list (nat * Row);
  applications_file : list Row
}.

Definition rows (self : ApplicationManager) : list Row :=
  map snd (applications_df self).

(** A frame with a fresh [RangeIndex]: labels 0, 1, 2, ... *)
Definition range_index (rs : list Row) : list (nat * Row) :=
  zip (seq 0 (length rs)) rs.

(** [ApplicationManager()] over an existing CSV file. *)
Definition load (file : list Row) : ApplicationManager :=
  {| applications_df := range_index file; applications_file := file |}.

Definition _save_applications (self : ApplicationManager) : ApplicationManager :=
  {| applications_df := applications_df self; applications_file := rows self |}.

(** The identifier [create_application] makes from a clock reading. *)
Definition make_application_id (now : Clock.DateTime) : string :=
  "APP_" +:+ Clock.strftime_compact now.

(** [create_application]; [now1] and [now2] are its two clock readings.
    Returns the manager, the identifier, and [application_data] as the call
    leaves it (the caller's dictionary is updated in place). *)
Definition create_application (self : ApplicationManager) (application_data : Row)
    (now1 now2 : Clock.DateTime) : ApplicationManager * string * Row :=
  let application_id := make_application_id now1 in
  let application_data := <["application_id" := application_id]> application_data in
  let application_data := <["applied_date" := Clock.isoformat now2]> application_data in
  let self :=
    {| applications_df := range_index (rows self ++ [application_data]);
       applications_file := applications_file self |} in
  (_save_applications self, application_id, application_data).

Definition has_id (application_id : string) (r : Row) : bool :=
  bool_decide (r !! "application_id" = Some application_id).

(** [df.at[label, key] = value] *)
Definition set_at (label : nat) (key value : string) (df : list (nat * Row))
    : list (nat * Row) :=
  map (fun '(l, r) => if Nat.eqb l label then (l, <[key := value]> r) else (l, r)) df.

(** [update_application]; [updates] holds the items of the dictionary in
    iteration order. *)
Definition update_application (self : ApplicationManager) (application_id : string)
    (updates : list (string * string)) : ApplicationManager * bool :=
  let idx :=
    map fst (List.filter (fun '(_, r) => has_id application_id r) (applications_df self)) in
  match idx with
  | label :: _ =>
      let df :=
        fold_left (fun df '(key, value) => set_at label key value df)
                  updates (applications_df self) in
      (_save_applications
         {| applications_df := df; applications_file := applications_file self |},
       true)
  | [] => (self, false)
  end.

Definition delete_application (self : ApplicationManager) (application_id : string)
    : ApplicationManager * bool :=
  let initial_count := length (applications_df self) in
  let df :=
    List.filter (fun '(_, r) => negb (has_id application_id r)) (applications_df self) in
  let self :=
    _save_applications
      {| applications_df := df; applications_file := applications_file self |} in
  (self, (length (applications_df self) <? initial_count)%nat).

End Applications.

(** ** College-Counseling-App: job matching *)

Module JobMatching.

(** An entry of the [jobs] list of the placement data. *)
Record JobPosting := {
  title : string;
  company : string;
  required_skills : list string;
  location : string
}.

(** [any(skill.lower() in [s.lower() for s in job['required_skills']]
         for skill in user_skills)] *)
Definition job_matches (user_skills : list string) (job : JobPosting) : bool :=
  existsb (fun skill =>
             bool_decide (Text.lower skill ∈ map Text.lower (required_skills job)))
          user_skills.

Definition format_job (job : JobPosting) : string :=
  "- **" +:+ title job +:+ "** at **" +:+ company job +:+ "**" +:+ College.nl
  +:+ "  Skills Required: " +:+ Text.join ", " (required_skills job) +:+ College.nl
  +:+ "  Location: " +:+ location job +:+ College.nl +:+ College.nl.

Definition matches_header : string :=
  "**Here are some job opportunities that match your skills:**" +:+ College.nl.

Definition no_match_text : string :=
  "Sorry, I couldn't find any job opportunities that match your skills at the moment.".

Section FindJobs.

Context {Tensor : Type}.

(** [find_jobs]; [jobs] is [self.placement_data.categories.get('jobs', [])].
    The preferred skills are [self.user_preferences.get('skills', [])]: a
    list gives its items, a string its characters, and [None] cannot be
    iterated, which raises [TypeError] at the first job. *)
Definition find_jobs (jobs : list JobPosting) (self : @College.PlacementChatbot Tensor)
    : @College.Run Tensor :=
  let user_skills :=
    default (College.PrefList []) (College.dict_get (College.user_preferences self) "skills") in
  match user_skills, jobs with
  | College.PrefNone, _ :: _ =>
      {| College.yielded := []; College.final := self;
         College.raised := Some "TypeError" |}
  | _, _ =>
      let matched_jobs :=
        List.filter (job_matches (College.pref_iter user_skills)) jobs in
      match matched_jobs with
      | _ :: _ =>
          let response :=
            fold_left (fun response job => response +:+ format_job job)
                      matched_jobs matches_header in
          {| College.yielded := [College.bot_message response College.JOB_MATCH];
             College.final := self; College.raised := None |}
      | [] =>
          {| College.yielded := [College.bot_message no_match_text College.JOB_MATCH];
             College.final := self; College.raised := None |}
      end
  end.

End FindJobs.

End JobMatching.

(** ** StudBud: looking a job up by its identifier *)

Module JobLookup.

(** [df['id'] == job_id] on one cell: a missing value equals nothing. *)
Definition id_is (job_id : string) (j : Jobs.Job) : bool :=
  match Jobs.id j with
  | Jobs.Str s => String.eqb s job_id
  | Jobs.NaN => false
  end.

(** [get_job_by_id], of [JobManager] and of [DatabaseManager] alike: the
    first row of the selection, [None] when the selection is empty. *)
Definition get_job_by_id (jobs_df : list Jobs.Job) (job_id : string) : option Jobs.Job :=
  match List.filter (id_is job_id) jobs_df with
  | job :: _ => Some job
  | [] => None
  end.

End JobLookup.

(** ** StudBud: the session, as [backend/auth.py] uses it *)

Module Session.

(** A value kept in [st.session_state]. *)
Inductive Value :=
| VNone
| VBool (b : bool)
| VStr (s : string)
(** the dictionary [{"page": page}] *)
| VPage (page : string).

Definition truthy (v : Value) : bool :=
  match v with
  | VNone => false
  | VBool b => b
  | VStr s => negb (String.eqb s "")
  | VPage _ => true
  end.

(** [v == 'admin'] *)
Definition is_admin_role (v : Value) : bool :=
  match v with
  | VStr s => String.eqb s "admin"
  | _ => false
  end.

Abbreviation State := (gmap string Value).

(** What the functions show or request through Streamlit. *)
Inductive UIEvent :=
| Warning (text : string)
| Error (text : string)
| Success (text : string)
| Rerun.

(** [if key not in st.session_state: st.session_state[key] = value] *)
Definition set_default (key : string) (value : Value) (s : State) : State :=
  match s !! key with
  | Some _ => s
  | None => <[key := value]> s
  end.

Definition init_session_state (s : State) : State :=
  set_default "user_name" VNone
    (set_default "user_role" VNone
       (set_default "user_id" VNone
          (set_default "authenticated" (VBool false) s))).

(** [st.session_state.get('authenticated', False)] *)
Definition check_authentication (s : State) : Value :=
  default (VBool false) (s !! "authenticated").

(** The wrapper built by [require_admin(func)], called on a session: the
    events shown, and the result of [func], [None] when the wrapper returned
    [False] without calling it. *)
Definition require_admin {R} (func : State -> R) (s : State) : list UIEvent * option R :=
  if negb (truthy (default (VBool false) (s !! "authenticated")))
  then ([Warning "Please login to access this page."], None)
  else if negb (is_admin_role (default VNone (s !! "user_role")))
  then ([Error "You don't have permission to access this page."], None)
  else ([], Some (func s)).

Definition session_keys : list string :=
  ["authenticated"; "user_id"; "user_name"; "user_role"].

Definition logout (s : State) : State * list UIEvent :=
  (fold_left (fun s key => delete key s) session_keys s,
   [Success "Logged out successfully."; Rerun]).

(** [login_ui] of [backend/auth.py] once e-mail and password are typed;
    [clicked] tells whether the Login button was pressed.  [users_file] is
    the CSV file found by the [AuthManager()] built on the click, [now_load]
    and [now_login] the clock readings of that construction and of the
    authentication.  A successful authentication always comes with the user
    dictionary. *)
Definition login_ui (users_file : option (list Auth.User)) (s : State)
    (email password : string) (clicked : bool)
    (now_load now_login : Clock.DateTime) (io_ok write_ok : bool)
    : option Auth.AuthManager * State * list UIEvent :=
  if clicked then
    let auth_manager := Auth.new_manager users_file now_load io_ok in
    match Auth.authenticate_user auth_manager email password now_login write_ok with
    | (auth_manager, (true, message, Some user_info)) =>
        let s := <["authenticated" := VBool true]> s in
        let s := <["user_id" := VStr (Auth.info_user_id user_info)]> s in
        let s := <["user_name" := VStr (Auth.info_name user_info)]> s in
        let s := <["user_role" := VStr (Auth.info_role user_info)]> s in
        (Some auth_manager, s, [Success "Login successful!"; Rerun])
    | (auth_manager, (_, message, _)) =>
        (Some auth_manager, s, [Error message])
    end
  else (None, s, []).

End Session.

(** ** StudBud: removing the data files *)

Module Cleanup.

Definition data_files : list string :=
  [ "data/jobs.csv"; "data/faq.csv"; "data/users.csv"; "data/applications.csv";
    "data/companies.json"; "data/skills.json"; "data/courses.json";
    "data/interviews.json" ].

Section Files.

(** [os.remove(path)]: [None] when the file was removed, the text of the
    exception otherwise. *)
Variable remove : string -> option string.

(** One round of the loop; the file system is the set of existing paths. *)
Definition cleanup_step (state : gset string * list string) (file_path : string)
    : gset string * list string :=
  let '(fs, printed) := state in
  if bool_decide (file_path ∈ fs) then
    match remove file_path with
    | None => (fs ∖ {[ file_path ]}, printed ++ ["Removed: " +:+ file_path])
    | Some e => (fs, printed ++ ["Error removing " +:+ file_path +:+ ": " +:+ e])
    end
  else (fs, printed).

(** [cleanup()]: the file system afterwards and the lines printed. *)
Definition cleanup (fs : gset string) : gset string * list string :=
  fold_left cleanup_step data_files (fs, ["Cleaning up data files..."]).

End Files.

End Cleanup.

(** ** College-Counseling-App: page routing of [app.py] *)

Module App.

(** The value of the [page] query parameter: a list of strings or a string. *)
Inductive QueryValue :=
| QueryList (items : list string)
| QueryStr (s : string).

(** [value[0]]; [None] stands for [IndexError]. *)
Definition first_of (value : QueryValue) : option string :=
  match value with
  | QueryList items => head items
  | QueryStr s =>
      match s with
      | EmptyString => None
      | String c _ => Some (String c EmptyString)
      end
  end.

(** The branch in which one run of [main] ends: the redirection it asks
    for, or the page whose code it hands over to.  What that page's own code
    does afterwards is not part of [main]. *)
Inductive Outcome :=
| IndexErrorRaised
| RedirectTo (page : string)
(** every key of the session deleted, then the redirection to [Login] *)
| LoggedOut
| LoginForm
| HomePage
| ApplicationsPage
| AdminPage
| PageNotFound.

Section Main.

(** [init_session_state] and [check_authentication] of the application's
    [backend.auth]. *)
Variable init_session_state : Session.State -> Session.State.
Variable check_authentication : Session.State -> Session.Value.

(** [main()]; [page_param] is the [page] query parameter, [None] when
    absent, [logout_clicked] the state of the Logout button. *)
Definition main (s : Session.State) (page_param : option QueryValue)
    (logout_clicked : bool) : Outcome :=
  let s := init_session_state s in
  match first_of (default (QueryList ["Login"]) page_param) with
  | None => IndexErrorRaised
  | Some current_page =>
      let role_is_admin := Session.is_admin_role (default Session.VNone (s !! "user_role")) in
      if negb (Session.truthy (check_authentication s)) then
        if negb (String.eqb current_page "Login") then RedirectTo "Login"
        else LoginForm
      else if String.eqb current_page "Login" then
        if role_is_admin then RedirectTo "Admin" else RedirectTo "Home"
      else if logout_clicked then LoggedOut
      else if String.eqb current_page "Home" then HomePage
      else if String.eqb current_page "Applications" then ApplicationsPage
      else if String.eqb current_page "Admin" && role_is_admin then AdminPage
      else PageNotFound
  end.

End Main.

End App.

(** ** Notions used to state the properties *)

(** The last [n] elements of [l], oldest first. *)
Definition most_recent {A} (n : nat) (l : list A) : list A := drop (length l - n) l.

(** The three sets of one context are included in those of another. *)
Definition context_included (a b : StudBud.ConversationContext) : Prop :=
  StudBud.topics a ⊆ StudBud.topics b /\
  StudBud.skills_mentioned a ⊆ StudBud.skills_mentioned b /\
  StudBud.companies_mentioned a ⊆ StudBud.companies_mentioned b.

(** The exception with which a chat call fails: raised by the call itself
    or while its streamed reply is read. *)
Definition chat_failure (r : Ollama.ChatResult) : option string :=
  match r with
  | Ollama.ChatRaises e => Some e
  | Ollama.ChatStreams s => Ollama.failure s
  end.

(** The canned suggestions a StudBud context gives access to: those of the
    topics technical, interview and career when detected, and the company and
    skill templates filled with a mentioned company or skill. *)
Definition studbud_suggestion_pool (ctx : StudBud.ConversationContext) (s : string)
    : Prop :=
  ("technical" ∈ StudBud.topics ctx /\ s ∈ StudBud.technical_suggestions)
  \/ ("interview" ∈ StudBud.topics ctx /\ s ∈ StudBud.interview_suggestions)
  \/ ("career" ∈ StudBud.topics ctx /\ s ∈ StudBud.career_suggestions)
  \/ (exists company, company ∈ StudBud.companies_mentioned ctx
                      /\ s ∈ StudBud.company_suggestions company)
  \/ (exists skill, skill ∈ StudBud.skills_mentioned ctx
                    /\ s ∈ StudBud.skill_suggestions skill).

(** The canned suggestions of the College chatbot for a response: those of
    the subjects found in the response, the skill template filled with a
    preferred skill, and the three standing suggestions. *)
Definition college_suggestion_pool {Tensor} (self : @College.PlacementChatbot Tensor)
    (response s : string) : Prop :=
  (Text.contains "system design" (Text.lower response) = true
   /\ s ∈ College.system_design_suggestions)
  \/ (Text.contains "machine learning" (Text.lower response) = true
      /\ s ∈ College.machine_learning_suggestions)
  \/ (exists preferred skill,
         College.dict_get (College.user_preferences self) "skills" = Some preferred
         /\ skill ∈ College.pref_iter preferred
         /\ s = College.skill_suggestion skill)
  \/ s ∈ College.standing_suggestions.

(** A chatbot that holds an uploaded resume of [n] characters. *)
Definition chatbot_with_resume (n : nat) : @College.PlacementChatbot unit :=
  {| College.memory := College.new_memory College.default_max_messages;
     College.user_preferences := [];
     College.is_mock_interview_active := false;
     College.mock_interview_questions := [];
     College.current_question_index := 0;
     College.user_resume_text := string_of_list_ascii (replicate n "r"%char);
     College.resume_uploaded := true;
     College.client_log := [] |}.

(** A client that answers every generation request with the same text. *)
Definition constant_client (reply : string) : Ollama.GenerateClient :=
  fun _ _ => Ollama.GenerateReturns (Some reply).

(** A client that answers a summarisation request with one text and every
    other generation request with another. *)
Definition summarising_client (summary critique : string) : Ollama.GenerateClient :=
  fun _ request =>
    match request with
    | Ollama.Generate _ prompt _ =>
        if Text.startswith "Summarize" prompt
        then Ollama.GenerateReturns (Some summary)
        else Ollama.GenerateReturns (Some critique)
    | Ollama.Chat _ _ _ _ _ => Ollama.GenerateReturns None
    end.

(** A job record with the given identifier and salary range. *)
Definition sample_job (id salary_range : string) : Jobs.Job :=
  {| Jobs.id := Jobs.Str id; Jobs.title := Jobs.Str "Software Engineer";
     Jobs.company := Jobs.Str "Atlas"; Jobs.location := Jobs.Str "Mumbai";
     Jobs.salary_range := Jobs.Str salary_range; Jobs.job_type := Jobs.Str "Full-time";
     Jobs.posted_date := Jobs.Str "2024-01-15"; Jobs.description := Jobs.Str "Build things";
     Jobs.skills := Jobs.Str "Python, SQL"; Jobs.status := Jobs.Str "Open" |}.

Definition sample_jobs : list Jobs.Job :=
  [sample_job "1" "10-15 LPA"; sample_job "2" "Negotiable"; sample_job "3" "8-12 LPA"].

(** Two clock readings, one at start-up and one at a later login. *)
Definition startup_time : Clock.DateTime :=
  {| Clock.year := 2024; Clock.month := 1; Clock.day := 5; Clock.hour := 9;
     Clock.minute := 0; Clock.second := 0; Clock.microsecond := 0 |}.

Definition login_time : Clock.DateTime :=
  {| Clock.year := 2024; Clock.month := 6; Clock.day := 15; Clock.hour := 14;
     Clock.minute := 30; Clock.second := 7; Clock.microsecond := 250000 |}.

(** A reading 0.65 s after [login_time], in the same clock second. *)
Definition login_time_later : Clock.DateTime :=
  {| Clock.year := 2024; Clock.month := 6; Clock.day := 15; Clock.hour := 14;
     Clock.minute := 30; Clock.second := 7; Clock.microsecond := 900000 |}.

(** The value a sequence of dictionary updates leaves under [key]: that of
    the last item with this key, [None] when no item has it. *)
Definition final_value (updates : list (string * string)) (key : string) : option string :=
  fold_left (fun acc '(k, v) => if String.eqb k key then Some v else acc) updates None.

(** The frame carries a fresh [RangeIndex], as after loading the CSV file
    or after [create_application]. *)
Definition fresh_index (self : Applications.ApplicationManager) : Prop :=
  Applications.applications_df self = Applications.range_index (Applications.rows self).

(** A user record without its [last_login]. *)
Definition without_last_login (u : Auth.User) : Auth.User := Auth.set_last_login u "".

(** The e-mail of a user as the look-ups compare it. *)
Definition email_key (u : Auth.User) : string := Text.lower (Auth.email u).

(** A salary cell the digit extraction accepts: a string with a digit run. *)
Definition has_digit_run (c : Jobs.Cell) : Prop :=
  exists s, c = Jobs.Str s /\ Text.findall_digits s <> [].

(** The empty [filters] dictionary. *)
Definition empty_filters : Jobs.Filters :=
  {| Jobs.search_query := None; Jobs.job_types := None; Jobs.locations := None;
     Jobs.salary_range_filter := None; Jobs.sort_by := None;
     Jobs.other_keys := false |}.

(** What a listed row shows of a job: the record and its two salary bounds. *)
Definition listing (r : Jobs.JobRow) : Jobs.Job * N * N :=
  (Jobs.job r, Jobs.salary_min r, Jobs.salary_max r).

(** The conditions a row has to meet to be listed under [filters]: the
    search text, when not empty, is found by [search] in title, company or
    skills; type and location are among the chosen ones, when some are
    chosen; the salary bounds lie in the salary range, which is 0 to 100 when
    none is given. *)
Definition passes_filters (search : string -> bool)
    (filters : Jobs.Filters) (r : Jobs.JobRow) : bool :=
  let query := Text.lower (default "" (Jobs.search_query filters)) in
  let types := default [] (Jobs.job_types filters) in
  let places := default [] (Jobs.locations filters) in
  let range := default (0, 100)%Z (Jobs.salary_range_filter filters) in
  (String.eqb query ""
   || Jobs.cell_contains search (Jobs.title (Jobs.job r))
   || Jobs.cell_contains search (Jobs.company (Jobs.job r))
   || Jobs.cell_contains search (Jobs.skills (Jobs.job r)))
  && (match types with [] => true | _ => Jobs.cell_isin (Jobs.job_type (Jobs.job r)) types end)
  && (match places with [] => true | _ => Jobs.cell_isin (Jobs.location (Jobs.job r)) places end)
  && ((range.1 <=? Z.of_N (Jobs.salary_min r))%Z && (Z.of_N (Jobs.salary_max r) <=? range.2)%Z).

(** A column on which the [.str] accessor works: it has no row, or a string
    in some row. *)
Definition text_column (column : list Jobs.Cell) : Prop :=
  column = [] \/ exists s, Jobs.Str s ∈ column.

(** A whole number that [float64] holds exactly. *)
Definition float_exact (z : Z) : Prop := (Z.abs z <= 2 ^ 53)%Z.

(** The salary figures of the rows and the bounds of the salary range of
    [filters] are numbers that [float64] holds exactly. *)
Definition salaries_exact (filters : Jobs.Filters) (df : list Jobs.JobRow) : Prop :=
  let range := default (0, 100)%Z (Jobs.salary_range_filter filters) in
  float_exact range.1 /\ float_exact range.2
  /\ forall r, r ∈ df ->
       float_exact (Z.of_N (Jobs.salary_min r)) /\ float_exact (Z.of_N (Jobs.salary_max r)).

(** A pattern compiler for patterns without special characters: the search
    is the search for the text itself. *)
Definition literal_search : string -> option (string -> bool) :=
  fun pattern => Some (Text.contains pattern).

(** The same, which also knows that [(remote], with its unclosed
    parenthesis, is not a regular expression. *)
Definition literal_search_or_error : string -> option (string -> bool) :=
  fun pattern =>
    if String.eqb pattern "(remote" then None else Some (Text.contains pattern).

(** The rows of [sample_jobs] that have a salary figure, with their bounds. *)
Definition sample_rows : list Jobs.JobRow :=
  [ {| Jobs.job := sample_job "1" "10-15 LPA"; Jobs.salary_min := 10; Jobs.salary_max := 15;
       Jobs.avg_salary := None |};
    {| Jobs.job := sample_job "3" "80-120 LPA"; Jobs.salary_min := 80; Jobs.salary_max := 120;
       Jobs.avg_salary := None |} ].

(** A [filters] dictionary that only asks for the sort by salary. *)
Definition salary_sort_only : Jobs.Filters :=
  {| Jobs.search_query := None; Jobs.job_types := None; Jobs.locations := None;
     Jobs.salary_range_filter := None; Jobs.sort_by := Some "Salary (High to Low)";
     Jobs.other_keys := false |}.

(** A [filters] dictionary as the filter panel builds it: a search text,
    no type or location chosen, the full range of the slider. *)
Definition search_filters (text : string) : Jobs.Filters :=
  {| Jobs.search_query := Some text; Jobs.job_types := Some [];
     Jobs.locations := Some []; Jobs.salary_range_filter := Some (0, 50)%Z;
     Jobs.sort_by := Some "Most Recent"; Jobs.other_keys := false |}.

(** A [filters] dictionary with a key that [get_jobs] does not read and no
    other key. *)
Definition unknown_key_only : Jobs.Filters :=
  {| Jobs.search_query := None; Jobs.job_types := None; Jobs.locations := None;
     Jobs.salary_range_filter := None; Jobs.sort_by := None;
     Jobs.other_keys := true |}.

(** A job record without a company. *)
Definition job_without_company (id salary_range : string) : Jobs.Job :=
  {| Jobs.id := Jobs.Str id; Jobs.title := Jobs.Str "Software Engineer";
     Jobs.company := Jobs.NaN; Jobs.location := Jobs.Str "Mumbai";
     Jobs.salary_range := Jobs.Str salary_range; Jobs.job_type := Jobs.Str "Full-time";
     Jobs.posted_date := Jobs.Str "2024-01-15"; Jobs.description := Jobs.Str "Build things";
     Jobs.skills := Jobs.Str "Python, SQL"; Jobs.status := Jobs.Str "active" |}.

(** Three rows with their salary bounds: the second is above the range of
    the slider, the third has no company. *)
Definition search_rows : list Jobs.JobRow :=
  [ {| Jobs.job := sample_job "1" "10-15 LPA"; Jobs.salary_min := 10; Jobs.salary_max := 15;
       Jobs.avg_salary := None |};
    {| Jobs.job := sample_job "3" "80-120 LPA"; Jobs.salary_min := 80; Jobs.salary_max := 120;
       Jobs.avg_salary := None |};
    {| Jobs.job := job_without_company "4" "12-20 LPA"; Jobs.salary_min := 12;
       Jobs.salary_max := 20; Jobs.avg_salary := None |} ].

(** The contents a streamed reply delivers: the chunks that carry a
    non-empty text, in order. *)
Definition delivered (chunks : list Ollama.Chunk) : list string :=
  omap (fun chunk => match chunk with
                     | Some content => if String.eqb content "" then None else Some content
                     | None => None
                     end) chunks.

(** The texts of a list put one after the other. *)
Definition concat_all (texts : list string) : string :=
  fold_right String.append EmptyString texts.

(** The values [current_focus] can take: none, or a label of
    [focus_indicators]. *)
Definition focus_values : list (option string) :=
  None :: map (fun entry => Some entry.1) StudBud.focus_indicators.

(** A conversation through [get_response]: the queries are answered one
    after the other, each generator run to its end; the messages yielded, in
    order, and the chatbot at the end. *)
Fixpoint converse {Tensor : Type} (encode : string -> Tensor)
    (topk_cos_sim : Tensor -> list Tensor -> nat -> list nat)
    (set_order : gset string -> list string)
    (random_sample : list string -> nat -> list string)
    (system_prompt : string) (client_chat : Ollama.ChatClient) (clock : nat -> string)
    (self : @College.PlacementChatbot Tensor) (queries : list string)
    : list (@College.Message Tensor) * @College.PlacementChatbot Tensor :=
  match queries with
  | [] => ([], self)
  | query :: rest =>
      let answered :=
        College.get_response encode topk_cos_sim set_order random_sample system_prompt
          client_chat clock self query in
      let continued :=
        converse encode topk_cos_sim set_order random_sample system_prompt client_chat
          clock answered.2 rest in
      (answered.1 ++ continued.1, continued.2)
  end.

(** The part of a College chatbot that the interview and the resume flows
    work on, with the preferences. *)
Definition flow_state {Tensor : Type} (self : @College.PlacementChatbot Tensor)
    : bool * list string * Z * string * bool * list (string * College.PrefValue) :=
  (College.is_mock_interview_active self, College.mock_interview_questions self,
   College.current_question_index self, College.user_resume_text self,
   College.resume_uploaded self, College.user_preferences self).

(** A request made by [client.chat]. *)
Definition is_chat_request (r : Ollama.Request) : Prop :=
  match r with
  | Ollama.Chat _ _ _ _ _ => True
  | Ollama.Generate _ _ _ => False
  end.

(** A preferred skill and a required skill of the job agree up to case. *)
Definition skills_overlap (user_skills : list string) (job : JobMatching.JobPosting) : Prop :=
  exists skill required,
    skill ∈ user_skills /\ required ∈ JobMatching.required_skills job
    /\ Text.lower skill = Text.lower required.

(** A chatbot whose preferences hold the given skills. *)
Definition chatbot_with_skills (skills : list string) : @College.PlacementChatbot unit :=
  College.set_user_preferences College.new_chatbot [("skills", College.PrefList skills)].

Definition python_sql_job : JobMatching.JobPosting :=
  {| JobMatching.title := "Data Engineer"; JobMatching.company := "Atlas";
     JobMatching.required_skills := ["Python"; "SQL"]; JobMatching.location := "Mumbai" |}.

Definition java_job : JobMatching.JobPosting :=
  {| JobMatching.title := "Backend Developer"; JobMatching.company := "Atlas";
     JobMatching.required_skills := ["Java"]; JobMatching.location := "Delhi" |}.

(** The session of a user who is logged in as an administrator. *)
Definition admin_session : Session.State :=
  <["user_role" := Session.VStr "admin"]>
    (<["authenticated" := Session.VBool true]> (∅ : Session.State)).

(** * Properties *)

(** ** The string operations on examples *)

Example lower_example : Text.lower "System Design at GOOGLE" = "system design at google".
Proof. reflexivity. Qed.

Example contains_example :
  Text.contains "use" "because" = true /\ Text.contains "job" "a JOB" = false.
Proof. split; reflexivity. Qed.

Example title_example : Text.title "google" = "Google".
Proof. reflexivity. Qed.

Example findall_digits_example :
  Text.findall_digits "10-15 LPA" = ["10"; "15"] /\ Text.findall_digits "Negotiable" = [].
Proof. split; reflexivity. Qed.

Example zero_padded_example :
  Text.zero_padded 4 2024 = "2024" /\ Text.zero_padded 2 7 = "07" /\ Text.decimal 0 = "0".
Proof. repeat split; reflexivity. Qed.

(** ** Conversation memory: the bounded log *)

Section Window.

Context {A : Type}.

Lemma most_recent_length n (l : list A) : length (most_recent n l) = Nat.min n (length l).
Proof. unfold most_recent. rewrite length_drop. lia. Qed.

Lemma most_recent_all n (l : list A) : length l <= n -> most_recent n l = l.
Proof.
  intros Hle. unfold most_recent.
  replace (length l - n) with 0 by lia. reflexivity.
Qed.

(** Appending to a full window and dropping its head gives the window of
    the extended sequence; below capacity nothing is dropped. *)
Lemma push_window (cap : Z) (all : list A) (x : A) :
  (1 <= cap)%Z ->
  (let appended := most_recent (Z.to_nat cap) all ++ [x] in
   if (cap <? Z.of_nat (length appended))%Z then tail appended else appended)
  = most_recent (Z.to_nat cap) (all ++ [x]).
Proof.
  intros Hcap. cbn zeta.
  rewrite length_app, most_recent_length. cbn [length].
  destruct (Z.ltb_spec cap (Z.of_nat (Nat.min (Z.to_nat cap) (length all) + 1))) as [Hfull|Hroom].
  - assert (Hlen : Z.to_nat cap <= length all) by lia.
    unfold most_recent. rewrite length_app. cbn [length].
    replace (length all + 1 - Z.to_nat cap) with (length all - Z.to_nat cap + 1) by lia.
    rewrite drop_app_le by lia.
    rewrite <- drop_drop.
    destruct (drop (length all - Z.to_nat cap) all) as [|y rest] eqn:Hdrop.
    + apply (f_equal length) in Hdrop. rewrite length_drop in Hdrop. cbn in Hdrop. lia.
    + reflexivity.
  - assert (Hlen : length all < Z.to_nat cap) by lia.
    rewrite (most_recent_all _ all) by lia.
    rewrite most_recent_all; [reflexivity|].
    rewrite length_app. cbn [length]. lia.
Qed.

End Window.

Lemma studbud_add_messages_snoc m ms x :
  StudBud.add_messages m (ms ++ [x]) = StudBud.add_message (StudBud.add_messages m ms) x.
Proof. unfold StudBud.add_messages. apply foldl_snoc. Qed.

Lemma studbud_add_messages_app m ms1 ms2 :
  StudBud.add_messages m (ms1 ++ ms2)
  = StudBud.add_messages (StudBud.add_messages m ms1) ms2.
Proof. unfold StudBud.add_messages. apply foldl_app. Qed.

Lemma studbud_max_messages_preserved m ms :
  StudBud.max_messages (StudBud.add_messages m ms) = StudBud.max_messages m.
Proof.
  induction ms as [|x ms IH] using rev_ind; [reflexivity|].
  rewrite studbud_add_messages_snoc. exact IH.
Qed.

(** The StudBud log is the window of everything added so far. *)
Lemma studbud_messages_window (cap : Z) (ms : list StudBud.Message) :
  (1 <= cap)%Z ->
  StudBud.messages (StudBud.add_messages (StudBud.new_memory cap) ms)
  = most_recent (Z.to_nat cap) ms.
Proof.
  intros Hcap. induction ms as [|x ms IH] using rev_ind; [reflexivity|].
  rewrite studbud_add_messages_snoc.
  unfold StudBud.add_message at 1. cbn [StudBud.messages].
  rewrite studbud_max_messages_preserved. cbn [StudBud.max_messages StudBud.new_memory].
  rewrite IH. unfold StudBud.pop_front. apply (push_window cap ms x Hcap).
Qed.

Section CollegeMemory.

Context {Tensor : Type} (encode : string -> Tensor).

Lemma college_add_messages_snoc m ms x :
  College.add_messages encode m (ms ++ [x])
  = College.add_message encode (College.add_messages encode m ms) x.
Proof. unfold College.add_messages. apply foldl_snoc. Qed.

Lemma college_max_messages_preserved m ms :
  College.max_messages (College.add_messages encode m ms) = College.max_messages m.
Proof.
  induction ms as [|x ms IH] using rev_ind; [reflexivity|].
  rewrite college_add_messages_snoc. exact IH.
Qed.

(** The College log is the window of everything added so far, each message
    carrying the embedding [add_message] gave it. *)
Lemma college_messages_window (cap : Z) (ms : list College.Message) :
  (1 <= cap)%Z ->
  College.messages (College.add_messages encode (College.new_memory cap) ms)
  = most_recent (Z.to_nat cap) (map (College.with_embedding encode) ms).
Proof.
  intros Hcap. induction ms as [|x ms IH] using rev_ind; [reflexivity|].
  rewrite college_add_messages_snoc.
  unfold College.add_message at 1. cbn [College.messages].
  rewrite college_max_messages_preserved. cbn [College.max_messages College.new_memory].
  rewrite IH, map_app. cbn [map].
  apply (push_window cap (map (College.with_embedding encode) ms) _ Hcap).
Qed.

End CollegeMemory.

(** C1.  For every capacity [cap >= 1] and every sequence [ms] of messages
    added by [add_message] to a memory built with [max_messages = cap], the
    stored list has at most [cap] entries, and when more than [cap] messages
    were added it is exactly the [cap] most recently added ones, oldest
    first.  This holds for the StudBud memory and for the College memory
    (whose stored messages carry the embedding computed on insertion). *)
Theorem C1_memory_keeps_most_recent (cap : Z) (Hcap : (1 <= cap)%Z) :
  (forall ms : list StudBud.Message,
     let log := StudBud.messages (StudBud.add_messages (StudBud.new_memory cap) ms) in
     (Z.of_nat (length log) <= cap)%Z /\
     ((cap < Z.of_nat (length ms))%Z ->
      log = drop (length ms - Z.to_nat cap) ms /\ Z.of_nat (length log) = cap))
  /\
  (forall (Tensor : Type) (encode : string -> Tensor) (ms : list College.Message),
     let log := College.messages
                  (College.add_messages encode (College.new_memory cap) ms) in
     (Z.of_nat (length log) <= cap)%Z /\
     ((cap < Z.of_nat (length ms))%Z ->
      log = drop (length ms - Z.to_nat cap) (map (College.with_embedding encode) ms)
      /\ Z.of_nat (length log) = cap)).
Proof.
  split.
  - intros ms log. subst log. rewrite studbud_messages_window by exact Hcap.
    rewrite most_recent_length. split; [lia|].
    intros Hmore. split; [reflexivity|lia].
  - intros Tensor encode ms log. subst log.
    rewrite college_messages_window by exact Hcap.
    rewrite most_recent_length, length_map. split; [lia|].
    intros Hmore. unfold most_recent. rewrite length_map. split; [reflexivity|lia].
Qed.

Lemma C1_memory_keeps_most_recent_witness :
  let m (c : string) :=
    {| StudBud.content := c; StudBud.type := StudBud.TEXT;
       StudBud.metadata := None; StudBud.sender := "user" |} in
  StudBud.messages
    (StudBud.add_messages (StudBud.new_memory 2) [m "one"; m "two"; m "three"])
  = [m "two"; m "three"].
Proof.
  intros m.
  assert (Hcap : (1 <= 2)%Z) by lia.
  assert (Hmore : (2 < Z.of_nat (length [m "one"; m "two"; m "three"]))%Z) by (simpl; lia).
  exact (proj1 (proj2 (proj1 (C1_memory_keeps_most_recent 2 Hcap) _) Hmore)).
Defined.

(** ** Conversation memory: the derived context *)

Lemma add_matching_topics_grows table content_lower (acc : gset string) :
  acc ⊆ StudBud.add_matching_topics table content_lower acc.
Proof.
  revert acc. induction table as [|[topic keywords] rest IH]; intros acc; cbn.
  - reflexivity.
  - etransitivity; [|apply IH]. destruct (Text.any_in keywords content_lower); set_solver.
Qed.

Lemma add_mentioned_grows words content_lower (acc : gset string) :
  acc ⊆ StudBud.add_mentioned words content_lower acc.
Proof.
  revert acc. induction words as [|w rest IH]; intros acc; cbn.
  - reflexivity.
  - etransitivity; [|apply IH]. destruct (Text.contains w content_lower); set_solver.
Qed.

Lemma context_included_refl a : context_included a a.
Proof. split; [|split]; reflexivity. Qed.

Lemma context_included_trans a b c :
  context_included a b -> context_included b c -> context_included a c.
Proof.
  intros (H1 & H2 & H3) (K1 & K2 & K3).
  split; [|split]; etransitivity; eassumption.
Qed.

Lemma update_context_grows ctx content :
  context_included ctx (StudBud._update_context ctx content).
Proof.
  unfold StudBud._update_context, context_included.
  cbn [StudBud.topics StudBud.skills_mentioned StudBud.companies_mentioned].
  split; [|split].
  - apply add_matching_topics_grows.
  - apply add_mentioned_grows.
  - apply add_mentioned_grows.
Qed.

Lemma add_message_grows m msg :
  context_included (StudBud.conversation_context m)
                   (StudBud.conversation_context (StudBud.add_message m msg)).
Proof.
  unfold StudBud.add_message. cbn [StudBud.conversation_context].
  destruct (StudBud.is_TEXT (StudBud.type msg)).
  - apply update_context_grows.
  - apply context_included_refl.
Qed.

Lemma add_messages_grows m ms :
  context_included (StudBud.conversation_context m)
                   (StudBud.conversation_context (StudBud.add_messages m ms)).
Proof.
  induction ms as [|x ms IH] using rev_ind.
  - apply context_included_refl.
  - rewrite studbud_add_messages_snoc.
    eapply context_included_trans; [exact IH|apply add_message_grows].
Qed.

(** C2.  Within one session the sets [topics], [skills_mentioned] and
    [companies_mentioned] only grow: for every memory, every sequence of
    [add_message] calls [earlier] and every continuation [later], a label that
    is in one of the sets after [earlier] is still in it after
    [earlier ++ later]. *)
Theorem C2_context_sets_grow (m : StudBud.ConversationMemory)
    (earlier later : list StudBud.Message) (label : string) :
  let before := StudBud.conversation_context (StudBud.add_messages m earlier) in
  let after := StudBud.conversation_context (StudBud.add_messages m (earlier ++ later)) in
  (label ∈ StudBud.topics before -> label ∈ StudBud.topics after) /\
  (label ∈ StudBud.skills_mentioned before -> label ∈ StudBud.skills_mentioned after) /\
  (label ∈ StudBud.companies_mentioned before ->
   label ∈ StudBud.companies_mentioned after).
Proof.
  intros before after. subst before after.
  rewrite studbud_add_messages_app.
  destruct (add_messages_grows (StudBud.add_messages m earlier) later) as (H1 & H2 & H3).
  split; [|split]; intros Hin; [apply H1|apply H2|apply H3]; exact Hin.
Qed.

(** ** Conversation memory: the current focus *)

Lemma scan_focus_first table content_lower focus pre label indicators post :
  table = pre ++ (label, indicators) :: post ->
  (forall entry, entry ∈ pre -> Text.any_in entry.2 content_lower = false) ->
  Text.any_in indicators content_lower = true ->
  StudBud.scan_focus table content_lower focus = Some label.
Proof.
  intros -> Hpre Hhit.
  induction pre as [|[l inds] pre IH]; cbn [app StudBud.scan_focus].
  - rewrite Hhit. reflexivity.
  - pose proof (Hpre (l, inds) (list_elem_of_here _ _)) as Hmiss.
    cbn [snd] in Hmiss. rewrite Hmiss.
    apply IH. intros entry Hentry. apply Hpre. apply list_elem_of_further, Hentry.
Qed.

Lemma scan_focus_no_match table content_lower focus :
  (forall entry, entry ∈ table -> Text.any_in entry.2 content_lower = false) ->
  StudBud.scan_focus table content_lower focus = focus.
Proof.
  induction table as [|[l inds] table IH]; intros Hnone;
    cbn [StudBud.scan_focus]; [reflexivity|].
  pose proof (Hnone (l, inds) (list_elem_of_here _ _)) as Hmiss.
  cbn [snd] in Hmiss. rewrite Hmiss.
  apply IH. intros entry Hentry. apply Hnone, list_elem_of_further, Hentry.
Qed.

(** C3.  The focus categories are scanned in the order technical,
    conceptual, practical, career.  For every context and every content, if
    [label] is a category with an indicator in the lower-cased content and no
    category before it in that order has one, then [_update_context] sets
    [current_focus] to exactly [label], whatever the focus was before and
    whatever later categories also match; so does [add_message] for a text
    message with that content. *)
Theorem C3_focus_is_first_match (ctx : StudBud.ConversationContext) (content : string)
    (pre post : list (string * list string)) (label : string) (indicators : list string) :
  StudBud.focus_indicators = pre ++ (label, indicators) :: post ->
  Text.any_in indicators (Text.lower content) = true ->
  (forall entry, entry ∈ pre -> Text.any_in entry.2 (Text.lower content) = false) ->
  map fst StudBud.focus_indicators = ["technical"; "conceptual"; "practical"; "career"]
  /\ StudBud.current_focus (StudBud._update_context ctx content) = Some label
  /\ (forall (m : StudBud.ConversationMemory) (message : StudBud.Message),
        StudBud.type message = StudBud.TEXT ->
        StudBud.content message = content ->
        StudBud.current_focus
          (StudBud.conversation_context (StudBud.add_message m message))
        = Some label).
Proof.
  intros Hsplit Hhit Hpre. split; [reflexivity|].
  assert (Hfocus : forall c, StudBud.current_focus (StudBud._update_context c content)
                             = Some label).
  { intros c. unfold StudBud._update_context. cbn [StudBud.current_focus].
    eapply scan_focus_first; eassumption. }
  split; [apply Hfocus|].
  intros m message Htype Hcontent. unfold StudBud.add_message.
  cbn [StudBud.conversation_context]. rewrite Htype, Hcontent. apply Hfocus.
Qed.

Lemma C3_focus_is_first_match_witness :
  let ctx := {| StudBud.topics := ∅; StudBud.skills_mentioned := ∅;
                StudBud.companies_mentioned := ∅;
                StudBud.current_focus := Some "career" |} in
  let content := "Show me CODE that helps my career" in
  Text.any_in ["career"; "job"; "future"; "growth"] (Text.lower content) = true /\
  StudBud.current_focus (StudBud._update_context ctx content) = Some "technical".
Proof.
  intros ctx content. split; [reflexivity|].
  refine (proj1 (proj2 (C3_focus_is_first_match ctx content []
                          (tail StudBud.focus_indicators) "technical"
                          ["how to"; "example"; "code"; "implement"] _ _ _))).
  - reflexivity.
  - reflexivity.
  - intros entry Hentry. inversion Hentry.
Defined.

Example focus_practical_before_career :
  StudBud.scan_focus StudBud.focus_indicators
    (Text.lower "Where can I apply for a job?") (Some "technical") = Some "practical".
Proof. reflexivity. Qed.

Example focus_kept_without_match :
  StudBud.scan_focus StudBud.focus_indicators (Text.lower "Hello there") (Some "technical")
  = Some "technical".
Proof. reflexivity. Qed.

(** ** The mock interview *)

Section MockInterview.

Context {Tensor : Type}.
Variable client_generate : Ollama.GenerateClient.

(** Starting the interview: question 1 is asked, the interview is active
    and the question under evaluation is the first of the bank. *)
Lemma start_mock_interview_run (self : @College.PlacementChatbot Tensor) :
  let run := College.start_mock_interview self in
  College.yielded run =
    [ College.bot_message
        ("Let's begin the mock technical interview." +:+ College.nl +:+ College.nl
         +:+ "**Question 1:** "
         +:+ "Can you explain the concept of polymorphism in object-oriented programming?")
        College.INTERVIEW ]
  /\ College.raised run = None
  /\ College.is_mock_interview_active (College.final run) = true
  /\ College.mock_interview_questions (College.final run)
     = College.get_mock_interview_questions
  /\ College.current_question_index (College.final run) = 1%Z.
Proof. cbn. repeat split. Qed.

(** One answer while the question under evaluation is number [k] of the
    bank (counting from 1): the request sent, and what is yielded when the
    client returns [text]. *)
Lemma process_answer_returns (self : @College.PlacementChatbot Tensor) (answer : string) (k : nat)
    (question : string) (text : option string) :
  College.mock_interview_questions self = College.get_mock_interview_questions ->
  College.current_question_index self = Z.of_nat (S k) ->
  College.get_mock_interview_questions !! k = Some question ->
  client_generate (College.client_log self)
    (Ollama.Generate College.text_model (College.evaluation_prompt question answer) 150)
  = Ollama.GenerateReturns text ->
  let run := College.process_mock_interview_response client_generate self answer in
  let feedback :=
    College.bot_message
      ("**Feedback:** " +:+ default "Unable to provide feedback at this time." text)
      College.INTERVIEW in
  College.raised run = None
  /\ College.mock_interview_questions (College.final run)
     = College.get_mock_interview_questions
  /\ College.client_log (College.final run)
     = College.client_log self
       ++ [Ollama.Generate College.text_model (College.evaluation_prompt question answer) 150]
  /\ match College.get_mock_interview_questions !! S k with
     | Some next =>
         College.yielded run =
           [ feedback;
             College.bot_message
               ("**Question " +:+ Text.str_Z (Z.of_nat (S (S k))) +:+ ":** " +:+ next)
               College.INTERVIEW ]
         /\ College.is_mock_interview_active (College.final run)
            = College.is_mock_interview_active self
         /\ College.current_question_index (College.final run) = Z.of_nat (S (S k))
     | None =>
         College.yielded run = [feedback; College.closing_message]
         /\ College.is_mock_interview_active (College.final run) = false
     end.
Proof.
  intros Hbank Hidx Hq Hreply.
  assert (Hk : k < 3) by (apply lookup_lt_Some in Hq; exact Hq).
  unfold College.process_mock_interview_response, College.evaluate_answer, College.generate.
  rewrite Hbank, Hidx.
  replace (Z.of_nat (S k) - 1)%Z with (Z.of_nat k) by lia.
  assert (Hget : College.py_index College.get_mock_interview_questions (Z.of_nat k)
                 = Some question).
  { unfold College.py_index.
    destruct (Z.leb_spec 0 (Z.of_nat k)); [|lia]. rewrite Nat2Z.id. exact Hq. }
  rewrite Hget, Hreply.
  cbn [College.log_request College.mock_interview_questions
       College.current_question_index College.client_log].
  rewrite Hbank, Hidx.
  destruct k as [|[|[|k]]]; [| | |lia]; cbn; repeat split; reflexivity.
Qed.

(** C4.  Starting the mock interview and supplying three answers, with a
    client that returns a reply to every evaluation request: the start asks
    question 1 and activates the interview; the first and the second answer
    each yield a feedback message followed by the next question (2, then
    3), the interview staying active; the third answer yields a feedback
    message followed by the closing message and resets the active flag.
    Each question of the bank is asked once, in order. *)
Theorem C4_mock_interview_is_linear (self : @College.PlacementChatbot Tensor) (a1 a2 a3 : string) :
  (forall log request, exists text,
      client_generate log request = Ollama.GenerateReturns text) ->
  let r0 := College.start_mock_interview self in
  let r1 := College.process_mock_interview_response client_generate (College.final r0) a1 in
  let r2 := College.process_mock_interview_response client_generate (College.final r1) a2 in
  let r3 := College.process_mock_interview_response client_generate (College.final r2) a3 in
  let question n q :=
    College.bot_message ("**Question " +:+ n +:+ ":** " +:+ q) College.INTERVIEW in
  let is_feedback (m : College.Message) :=
    exists evaluation,
      m = College.bot_message ("**Feedback:** " +:+ evaluation) College.INTERVIEW in
  (length (College.yielded r0) = 1
   /\ College.is_mock_interview_active (College.final r0) = true
   /\ (College.current_question_index (College.final r0) - 1 = 0)%Z)
  /\ (exists f, College.yielded r1
                = [f; question "2" "How does a binary search algorithm work?"]
                /\ is_feedback f)
  /\ College.is_mock_interview_active (College.final r1) = true
  /\ (exists f, College.yielded r2
                = [f; question "3" "What are the differences between TCP and UDP protocols?"]
                /\ is_feedback f)
  /\ College.is_mock_interview_active (College.final r2) = true
  /\ (exists f, College.yielded r3 = [f; College.closing_message] /\ is_feedback f)
  /\ College.is_mock_interview_active (College.final r3) = false
  /\ College.raised r0 = None /\ College.raised r1 = None
  /\ College.raised r2 = None /\ College.raised r3 = None.
Proof.
  intros Hclient r0 r1 r2 r3 question is_feedback.
  destruct (start_mock_interview_run self) as (Hy0 & He0 & Ha0 & Hb0 & Hi0).
  fold r0 in Hy0, He0, Ha0, Hb0, Hi0.
  destruct (Hclient (College.client_log (College.final r0))
              (Ollama.Generate College.text_model
                 (College.evaluation_prompt
                    "Can you explain the concept of polymorphism in object-oriented programming?"
                    a1) 150)) as [t1 Ht1].
  destruct (process_answer_returns (College.final r0) a1 0 _ t1 Hb0 Hi0 eq_refl Ht1)
    as (He1 & Hb1 & _ & Hy1 & Ha1 & Hi1).
  fold r1 in He1, Hb1, Hy1, Ha1, Hi1.
  destruct (Hclient (College.client_log (College.final r1))
              (Ollama.Generate College.text_model
                 (College.evaluation_prompt "How does a binary search algorithm work?" a2)
                 150)) as [t2 Ht2].
  destruct (process_answer_returns (College.final r1) a2 1 _ t2 Hb1 Hi1 eq_refl Ht2)
    as (He2 & Hb2 & _ & Hy2 & Ha2 & Hi2).
  fold r2 in He2, Hb2, Hy2, Ha2, Hi2.
  destruct (Hclient (College.client_log (College.final r2))
              (Ollama.Generate College.text_model
                 (College.evaluation_prompt
                    "What are the differences between TCP and UDP protocols?" a3)
                 150)) as [t3 Ht3].
  destruct (process_answer_returns (College.final r2) a3 2 _ t3 Hb2 Hi2 eq_refl Ht3)
    as (He3 & Hb3 & _ & Hy3 & Ha3).
  fold r3 in He3, Hb3, Hy3, Ha3.
  repeat match goal with |- _ /\ _ => split end;
    try assumption; try congruence.
  - rewrite Hy0. reflexivity.
  - rewrite Hi0. reflexivity.
  - eexists. split; [exact Hy1|]. eexists. reflexivity.
  - eexists. split; [exact Hy2|]. eexists. reflexivity.
  - eexists. split; [exact Hy3|]. eexists. reflexivity.
Qed.

End MockInterview.

Lemma C4_mock_interview_is_linear_witness :
  let client : Ollama.GenerateClient :=
    fun _ _ => Ollama.GenerateReturns (Some "Clear and complete.") in
  let r0 := College.start_mock_interview (@College.new_chatbot unit) in
  let r1 := College.process_mock_interview_response client (College.final r0) "first" in
  let r2 := College.process_mock_interview_response client (College.final r1) "second" in
  let r3 := College.process_mock_interview_response client (College.final r2) "third" in
  College.is_mock_interview_active (College.final r2) = true
  /\ College.is_mock_interview_active (College.final r3) = false.
Proof.
  intros client r0 r1 r2 r3.
  assert (Hclient : forall log request, exists text,
             client log request = Ollama.GenerateReturns text)
    by (intros log request; exists (Some "Clear and complete."); reflexivity).
  pose proof (C4_mock_interview_is_linear client (@College.new_chatbot unit)
                "first" "second" "third" Hclient) as H.
  cbv zeta in H.
  destruct H as (_ & _ & _ & _ & Hactive2 & _ & Hinactive3 & _).
  split; [exact Hactive2|exact Hinactive3].
Defined.

(** ** Failure of the model call in [get_response] *)

Section ChatFailure.

Variable clock : nat -> string.

Lemma studbud_consume_chunks_text chunks reads current :
  Forall (fun y => StudBud.yielded_type y = StudBud.TEXT)
         (StudBud.consume_chunks clock chunks reads current).1.1.
Proof.
  revert reads current. induction chunks as [|chunk rest IH]; intros reads current.
  - constructor.
  - cbn [StudBud.consume_chunks]. destruct (StudBud.truthy chunk).
    + specialize (IH (S reads) (current +:+ default "" chunk)).
      destruct (StudBud.consume_chunks clock rest (S reads) (current +:+ default "" chunk))
        as [[ys final_message] reads'].
      cbn in *. constructor; [reflexivity|exact IH].
    + apply IH.
Qed.

Lemma college_consume_chunks_text {Tensor : Type} chunks reads current :
  Forall (fun m : @College.Message Tensor => College.type m = College.TEXT)
         (College.consume_chunks clock chunks reads current).1.1.
Proof.
  revert reads current. induction chunks as [|chunk rest IH]; intros reads current.
  - constructor.
  - cbn [College.consume_chunks]. destruct chunk as [content|]; [|apply IH].
    destruct (String.eqb content ""); [apply IH|].
    specialize (IH (S reads) (current +:+ content)).
    destruct (College.consume_chunks clock rest (S reads) (current +:+ content))
      as [[ys final_message] reads'].
    cbn in *. constructor; [reflexivity|exact IH].
Qed.

Lemma studbud_text_not_error (ys : list StudBud.Yielded) :
  Forall (fun y => StudBud.yielded_type y = StudBud.TEXT) ys ->
  List.filter (fun y => StudBud.is_ERROR (StudBud.yielded_type y)) ys = [].
Proof.
  induction 1 as [|y ys Hy _ IH]; [reflexivity|].
  cbn [List.filter]. rewrite Hy. exact IH.
Qed.

Lemma studbud_text_not_suggestion (ys : list StudBud.Yielded) :
  Forall (fun y => StudBud.yielded_type y = StudBud.TEXT) ys ->
  List.filter (fun y => StudBud.is_SUGGESTION (StudBud.yielded_type y)) ys = [].
Proof.
  induction 1 as [|y ys Hy _ IH]; [reflexivity|].
  cbn [List.filter]. rewrite Hy. exact IH.
Qed.

Lemma college_text_not_error {Tensor : Type} (ys : list (@College.Message Tensor)) :
  Forall (fun m => College.type m = College.TEXT) ys ->
  List.filter (fun m => College.is_ERROR (College.type m)) ys = [].
Proof.
  induction 1 as [|y ys Hy _ IH]; [reflexivity|].
  cbn [List.filter]. rewrite Hy. exact IH.
Qed.

Lemma college_text_not_suggestion {Tensor : Type} (ys : list (@College.Message Tensor)) :
  Forall (fun m => College.type m = College.TEXT) ys ->
  List.filter (fun m => College.is_SUGGESTION (College.type m)) ys = [].
Proof.
  induction 1 as [|y ys Hy _ IH]; [reflexivity|].
  cbn [List.filter]. rewrite Hy. exact IH.
Qed.

(** C5.  If the model call of [get_response] raises, either at the call or
    while its streamed reply is being read, then what [get_response] yields
    is the text fragments received before the failure followed by exactly one
    message of type [ERROR], which is the last one: nothing follows it, and
    no suggestion message is yielded at all.  Exactly one request was sent to the
    client (no retry).  When the call itself raises, the error message is
    the only message.  This holds for the StudBud chatbot and, on the general
    chat path, for the College chatbot. *)
Theorem C5_model_failure_yields_one_error :
  (forall set_order random_order system_prompt (client_chat : Ollama.ChatClient)
          (self : StudBud.PlacementChatbot) (query e : string),
      let request :=
        StudBud.chat_request
          (StudBud.prepare_response_prompt set_order system_prompt
             (StudBud.memory self) query) query in
      let result := client_chat (StudBud.client_log self) request in
      chat_failure result = Some e ->
      let run := StudBud.get_response set_order random_order system_prompt
                   client_chat clock self query in
      exists fragments,
        run.1 = fragments ++ [StudBud.YieldMessage (StudBud.error_message e)]
        /\ StudBud.yielded_type (StudBud.YieldMessage (StudBud.error_message e))
           = StudBud.ERROR
        /\ Forall (fun y => StudBud.yielded_type y = StudBud.TEXT) fragments
        /\ length (List.filter (fun y => StudBud.is_ERROR (StudBud.yielded_type y)) run.1) = 1
        /\ List.filter (fun y => StudBud.is_SUGGESTION (StudBud.yielded_type y)) run.1 = []
        /\ (result = Ollama.ChatRaises e -> fragments = [])
        /\ StudBud.client_log run.2 = StudBud.client_log self ++ [request])
  /\
  (forall (Tensor : Type) (encode : string -> Tensor) topk_cos_sim set_order
          random_sample system_prompt (client_chat : Ollama.ChatClient)
          (self : College.PlacementChatbot) (query e : string),
      College.selects_flow self query = false ->
      let request :=
        College.chat_request
          (College.prepare_response_prompt encode topk_cos_sim system_prompt self query)
          query in
      let result := client_chat (College.client_log self) request in
      chat_failure result = Some e ->
      let run := College.get_response encode topk_cos_sim set_order random_sample
                   system_prompt client_chat clock self query in
      exists fragments,
        run.1 = fragments ++ [College.error_message]
        /\ College.type (@College.error_message Tensor) = College.ERROR
        /\ Forall (fun m => College.type m = College.TEXT) fragments
        /\ length (List.filter (fun m => College.is_ERROR (College.type m)) run.1) = 1
        /\ List.filter (fun m => College.is_SUGGESTION (College.type m)) run.1 = []
        /\ (result = Ollama.ChatRaises e -> fragments = [])
        /\ College.client_log run.2 = College.client_log self ++ [request]).
Proof.
  split.
  - intros set_order random_order system_prompt client_chat self query e
           request result Hfail run.
    assert (Hrun : exists fragments,
               run.1 = fragments ++ [StudBud.YieldMessage (StudBud.error_message e)]
               /\ Forall (fun y => StudBud.yielded_type y = StudBud.TEXT) fragments
               /\ (result = Ollama.ChatRaises e -> fragments = [])
               /\ StudBud.client_log run.2 = StudBud.client_log self ++ [request]).
    { subst run. unfold StudBud.get_response. fold request. fold result.
      destruct result as [e'|response] eqn:Hresult; cbn in Hfail.
      - injection Hfail as ->. exists []. repeat split; constructor.
      - pose proof (studbud_consume_chunks_text (Ollama.chunks response) 0 EmptyString)
          as Htext.
        destruct (StudBud.consume_chunks clock (Ollama.chunks response) 0 EmptyString)
          as [[ys current_message] reads].
        rewrite Hfail. cbn in *. exists ys.
        repeat split; [exact Htext|discriminate]. }
    destruct Hrun as (fragments & Hyield & Htext & Hcall & Hlog).
    exists fragments. rewrite Hyield.
    split; [reflexivity|]. split; [reflexivity|]. split; [exact Htext|].
    split; [|split; [|split; [exact Hcall|exact Hlog]]].
    + rewrite List.filter_app, length_app.
      rewrite (studbud_text_not_error fragments Htext). reflexivity.
    + rewrite List.filter_app.
      rewrite (studbud_text_not_suggestion fragments Htext). reflexivity.
  - intros Tensor encode topk_cos_sim set_order random_sample system_prompt client_chat
           self query e Hchat request result Hfail run.
    assert (Hrun : exists fragments,
               run.1 = fragments ++ [College.error_message]
               /\ Forall (fun m => College.type m = College.TEXT) fragments
               /\ (result = Ollama.ChatRaises e -> fragments = [])
               /\ College.client_log run.2 = College.client_log self ++ [request]).
    { subst run. unfold College.get_response. rewrite Hchat.
      cbn [College.set_memory College.client_log]. fold request. fold result.
      destruct result as [e'|response] eqn:Hresult; cbn in Hfail.
      - exists []. repeat split; constructor.
      - pose proof (@college_consume_chunks_text Tensor (Ollama.chunks response) 0
                      EmptyString) as Htext.
        destruct (College.consume_chunks clock (Ollama.chunks response) 0 EmptyString)
          as [[ys current_message] reads].
        rewrite Hfail. cbn in *. exists ys.
        repeat split; [exact Htext|discriminate]. }
    destruct Hrun as (fragments & Hyield & Htext & Hcall & Hlog).
    exists fragments. rewrite Hyield.
    split; [reflexivity|]. split; [reflexivity|]. split; [exact Htext|].
    split; [|split; [|split; [exact Hcall|exact Hlog]]].
    + rewrite List.filter_app, length_app.
      rewrite (college_text_not_error fragments Htext). reflexivity.
    + rewrite List.filter_app.
      rewrite (college_text_not_suggestion fragments Htext). reflexivity.
Qed.

End ChatFailure.

Lemma C5_model_failure_yields_one_error_witness :
  let client : Ollama.ChatClient :=
    fun _ _ => Ollama.ChatStreams
                 {| Ollama.chunks := [Some "Hel"; None; Some "lo"];
                    Ollama.failure := Some "connection reset" |} in
  let self := {| StudBud.memory := StudBud.new_memory 50; StudBud.client_log := [] |} in
  exists fragments,
    (StudBud.get_response elements id "You are an assistant." client
       (fun _ => "2024-01-01T00:00:00") self "hello").1
    = fragments ++ [StudBud.YieldMessage (StudBud.error_message "connection reset")]
    /\ Forall (fun y => StudBud.yielded_type y = StudBud.TEXT) fragments.
Proof.
  intros client self.
  destruct (proj1 (C5_model_failure_yields_one_error (fun _ => "2024-01-01T00:00:00"))
              elements id "You are an assistant." client self "hello"
              "connection reset" eq_refl)
    as (fragments & Hrun & _ & Htext & _).
  exists fragments. split; [exact Hrun|exact Htext].
Defined.

Example college_stream_failure_run :
  map College.type
    (College.get_response (Tensor := unit) (fun _ => tt) (fun _ _ _ => []) elements
       (fun l k => take k l) "You are an assistant."
       (fun _ _ => Ollama.ChatStreams
                     {| Ollama.chunks := [Some "Hel"; Some ""; Some "lo"];
                        Ollama.failure := Some "connection reset" |})
       (fun _ => "2024-01-01T00:00:00") College.new_chatbot "hello").1
  = [College.TEXT; College.TEXT; College.ERROR].
Proof. reflexivity. Qed.

(** ** Follow-up suggestions *)

Lemma submseteq_NoDup_l {A} (l k : list A) : l ⊆+ k -> NoDup k -> NoDup l.
Proof.
  intros Hsub Hk. apply submseteq_Permutation in Hsub as [rest Hperm].
  rewrite Hperm in Hk. apply NoDup_app in Hk as [Hl _]. exact Hl.
Qed.

Section Suggestions.

Variable set_order : gset string -> list string.
Hypothesis set_order_elements : forall s : gset string, set_order s ≡ₚ elements s.

Lemma set_order_NoDup s : NoDup (set_order s).
Proof. rewrite set_order_elements. apply NoDup_elements. Qed.

Lemma set_order_elem_of s x : x ∈ set_order s <-> x ∈ s.
Proof. rewrite set_order_elements. apply elem_of_elements. Qed.

Lemma set_order_head s x rest : set_order s = x :: rest -> x ∈ s.
Proof. intros Heq. apply set_order_elem_of. rewrite Heq. apply list_elem_of_here. Qed.

Lemma studbud_candidates_in_pool ctx s :
  s ∈ StudBud.suggestion_candidates set_order ctx -> studbud_suggestion_pool ctx s.
Proof.
  unfold StudBud.suggestion_candidates, studbud_suggestion_pool.
  cbv zeta. intros Hin.
  repeat match type of Hin with
         | context [bool_decide ?P] => destruct (bool_decide_reflect P)
         end;
  repeat match type of Hin with
         | context [set_order ?S] => destruct (set_order S) as [|? ?] eqn:?
         end;
  repeat (apply elem_of_app in Hin as [Hin|Hin]);
  try (inversion Hin; fail).
  all: try (left; split; [assumption|exact Hin]; fail).
  all: try (right; left; split; [assumption|exact Hin]; fail).
  all: try (right; right; left; split; [assumption|exact Hin]; fail).
  all: try (right; right; right; left; eexists;
            split; [eapply set_order_head; eassumption|exact Hin]; fail).
  all: right; right; right; right; eexists;
       split; [eapply set_order_head; eassumption|exact Hin].
Qed.

Lemma college_candidates_in_pool {Tensor} (self : @College.PlacementChatbot Tensor)
    response s :
  s ∈ College.suggestion_candidates self response ->
  college_suggestion_pool self response s.
Proof.
  unfold College.suggestion_candidates, college_suggestion_pool.
  intros Hin. apply elem_of_app in Hin as [Hin|Hin]; [|right; right; right; exact Hin].
  destruct (Text.contains "system design" (Text.lower response)) eqn:Hsd;
  destruct (Text.contains "machine learning" (Text.lower response)) eqn:Hml;
  destruct (College.dict_get (College.user_preferences self) "skills") as [preferred|] eqn:Hget;
  try destruct (College.pref_truthy preferred);
  repeat (apply elem_of_app in Hin as [Hin|Hin]);
  try (inversion Hin; fail);
  try (left; split; [reflexivity|exact Hin]; fail);
  try (right; left; split; [reflexivity|exact Hin]; fail);
  try (right; right; left; apply list_elem_of_fmap in Hin as (skill & -> & Hskill);
       exists preferred, skill; repeat split; assumption).
Qed.

Section Random.

Variable random_order : list string -> list string.
Hypothesis random_order_permutes : forall l, random_order l ≡ₚ l.

Variable random_sample : list string -> nat -> list string.
Hypothesis random_sample_picks :
  forall l k, k <= length l -> length (random_sample l k) = k /\ random_sample l k ⊆+ l.

(** C6.  Every call of [_generate_suggestions] returns at most 3 strings,
    without duplicates, each from the canned pool of the chatbot: for StudBud
    the suggestions of the detected topics and the templates of a mentioned
    company and a mentioned skill, for College the suggestions of the subjects
    in the response, of a preferred skill, and the standing ones.  The
    iteration order of a set is some enumeration of it, the random ordering
    some permutation, the random sample some choice of [k] distinct
    positions. *)
Theorem C6_suggestions_bounded_distinct_canned :
  (forall (self : StudBud.ConversationMemory) (query response : string),
      let result :=
        StudBud._generate_suggestions set_order random_order self query response in
      length result <= 3
      /\ NoDup result
      /\ forall s, s ∈ result ->
                   studbud_suggestion_pool (StudBud.conversation_context self) s)
  /\
  (forall (Tensor : Type) (self : @College.PlacementChatbot Tensor)
          (query response : string),
      let result :=
        College._generate_suggestions set_order random_sample self query response in
      length result <= 3
      /\ NoDup result
      /\ forall s, s ∈ result -> college_suggestion_pool self response s).
Proof.
  split.
  - intros self query response result. subst result.
    unfold StudBud._generate_suggestions.
    pose proof (studbud_candidates_in_pool (StudBud.conversation_context self)) as Hpool.
    destruct (StudBud.suggestion_candidates set_order (StudBud.conversation_context self))
      as [|c cs] eqn:Hcands.
    + split; [cbn; lia|]. split; [constructor|]. intros s Hs. inversion Hs.
    + split; [rewrite length_take; lia|]. split.
      * eapply sublist_NoDup; [|apply sublist_take].
        rewrite random_order_permutes. apply set_order_NoDup.
      * intros s Hs. apply Hpool.
        apply (fun H => elem_of_sublist _ _ _ H (sublist_take _ 3)) in Hs.
        rewrite random_order_permutes in Hs.
        apply set_order_elem_of in Hs. apply elem_of_list_to_set in Hs. exact Hs.
  - intros Tensor self query response result. subst result.
    unfold College._generate_suggestions.
    pose proof (college_candidates_in_pool self response) as Hpool.
    destruct (College.suggestion_candidates self response) as [|c cs] eqn:Hcands.
    + split; [cbn; lia|]. split; [constructor|]. intros s Hs. inversion Hs.
    + destruct (random_sample_picks (set_order (list_to_set (c :: cs)))
                  (Nat.min (length (set_order (list_to_set (c :: cs)))) 3))
        as [Hlen Hsub]; [lia|].
      split; [rewrite Hlen; lia|]. split.
      * eapply submseteq_NoDup_l; [exact Hsub|apply set_order_NoDup].
      * intros s Hs. apply Hpool.
        apply (fun H => elem_of_submseteq _ _ _ H Hsub) in Hs.
        apply set_order_elem_of in Hs. apply elem_of_list_to_set in Hs. exact Hs.
Qed.

End Random.

End Suggestions.

Lemma C6_suggestions_bounded_distinct_canned_witness :
  let self :=
    StudBud.add_message (StudBud.new_memory 50)
      {| StudBud.content := "How do I prepare for coding interviews at Google?";
         StudBud.type := StudBud.TEXT; StudBud.metadata := None;
         StudBud.sender := "user" |} in
  let result := StudBud._generate_suggestions elements reverse self "" "" in
  length result <= 3 /\ NoDup result.
Proof.
  intros self result.
  assert (Hset : forall s : gset string, elements s ≡ₚ elements s) by reflexivity.
  assert (Hrev : forall l : list string, reverse l ≡ₚ l)
    by (intros l; apply reverse_Permutation).
  assert (Hsample : forall (l : list string) k,
             k <= length l -> length (take k l) = k /\ take k l ⊆+ l).
  { intros l k Hk. split; [apply length_take_le, Hk|].
    apply sublist_submseteq, sublist_take. }
  destruct (proj1 (C6_suggestions_bounded_distinct_canned elements Hset reverse Hrev
                     (fun l k => take k l) Hsample) self "" "")
    as (Hlen & Hnodup & _).
  split; [exact Hlen|exact Hnodup].
Defined.

Example studbud_suggestions_example :
  let self :=
    StudBud.add_message (StudBud.new_memory 50)
      {| StudBud.content := "Tell me about Google";
         StudBud.type := StudBud.TEXT; StudBud.metadata := None;
         StudBud.sender := "user" |} in
  StudBud._generate_suggestions elements reverse self "" ""
  = [ "How can I prepare for Google?";
      "What is Google's interview process?";
      "What skills does Google value?" ].
Proof. vm_compute. reflexivity. Qed.

Example college_suggestions_example :
  College._generate_suggestions (Tensor := unit) elements (fun l k => take k l)
    (College.set_user_preferences College.new_chatbot [("skills", College.PrefStr "Go")])
    "" "About System Design"
  = [ "What are some best practices for scaling systems?";
      "Can you start a mock technical interview with me?";
      "Can you explain the CAP theorem?" ].
Proof. vm_compute. reflexivity. Qed.

(** ** Resume analysis *)

Section ResumeAnalysis.

Context {Tensor : Type}.
Variable client_generate : Ollama.GenerateClient.

(** C7.  With an uploaded, non-empty resume text and a client that answers
    its requests: when the text is longer than 1000 characters,
    [analyze_resume] sends a summarisation request and then a critique
    request on the summary the client returned (the first 1000 characters
    when the reply has no text); when the text has at most 1000 characters it
    sends the critique request on the text only.  In both cases exactly one
    message is yielded, of type [RESUME_FEEDBACK]: its content is the text of
    the reply the client gave to the critique request (the fixed sentence on
    a failed analysis when that reply has no text). *)
Theorem C7_resume_summarised_above_threshold
    (self : @College.PlacementChatbot Tensor) (query : string) :
  College.resume_uploaded self = true ->
  College.user_resume_text self <> EmptyString ->
  (forall log request, exists text,
      client_generate log request = Ollama.GenerateReturns text) ->
  let run := College.analyze_resume client_generate self query in
  let resume := College.user_resume_text self in
  let summary_request :=
    Ollama.Generate College.text_model (College.summary_prompt resume) 200 in
  let critique_request text :=
    Ollama.Generate College.text_model (College.critique_prompt text) 300 in
  let critique_message reply :=
    College.bot_message (default "Unable to analyze resume at this time." reply)
      College.RESUME_FEEDBACK in
  (1000 < String.length resume ->
   exists summary_reply critique_reply,
     client_generate (College.client_log self) summary_request
     = Ollama.GenerateReturns summary_reply
     /\ let summary :=
          default (College.str_take 1000 resume) summary_reply in
        client_generate (College.client_log self ++ [summary_request])
          (critique_request summary)
        = Ollama.GenerateReturns critique_reply
        /\ College.client_log (College.final run)
           = College.client_log self ++ [summary_request; critique_request summary]
        /\ College.yielded run = [critique_message critique_reply]
        /\ College.raised run = None)
  /\
  (String.length resume <= 1000 ->
   exists critique_reply,
     client_generate (College.client_log self) (critique_request resume)
     = Ollama.GenerateReturns critique_reply
     /\ College.client_log (College.final run)
        = College.client_log self ++ [critique_request resume]
     /\ College.yielded run = [critique_message critique_reply]
     /\ College.raised run = None).
Proof.
  intros Huploaded Htext Hclient run resume summary_request critique_request
         critique_message.
  assert (Hnonempty : String.eqb (College.user_resume_text self) "" = false)
    by (apply String.eqb_neq; exact Htext).
  split; intros Hlen.
  - assert (Hlong : Nat.ltb 1000 (String.length resume) = true)
      by (apply Nat.ltb_lt; exact Hlen).
    destruct (Hclient (College.client_log self) summary_request) as [summary_reply Hs].
    destruct (Hclient (College.client_log self ++ [summary_request])
                (critique_request (default (College.str_take 1000 resume) summary_reply)))
      as [critique_reply Hc].
    exists summary_reply, critique_reply. split; [exact Hs|]. cbv zeta.
    split; [exact Hc|].
    assert (Hrun : run =
              {| College.yielded := [critique_message critique_reply];
                 College.final :=
                   College.log_request (College.log_request self summary_request)
                     (critique_request
                        (default (College.str_take 1000 resume) summary_reply));
                 College.raised := None |}).
    { subst run. unfold College.analyze_resume.
      rewrite Huploaded, Hnonempty. cbn [andb negb]. fold resume.
      unfold College.max_resume_length. rewrite Hlong.
      unfold College.generate. fold summary_request. rewrite Hs.
      cbn [College.log_request College.client_log].
      fold (critique_request (default (College.str_take 1000 resume) summary_reply)).
      rewrite Hc. reflexivity. }
    rewrite Hrun. cbn [College.yielded College.final College.raised
                       College.log_request College.client_log].
    rewrite <- app_assoc. repeat split.
  - assert (Hshort : Nat.ltb 1000 (String.length resume) = false)
      by (apply Nat.ltb_ge; exact Hlen).
    destruct (Hclient (College.client_log self) (critique_request resume))
      as [critique_reply Hc].
    exists critique_reply. split; [exact Hc|].
    assert (Hrun : run =
              {| College.yielded := [critique_message critique_reply];
                 College.final := College.log_request self (critique_request resume);
                 College.raised := None |}).
    { subst run. unfold College.analyze_resume.
      rewrite Huploaded, Hnonempty. cbn [andb negb]. fold resume.
      unfold College.max_resume_length. rewrite Hshort.
      unfold College.generate. fold (critique_request resume).
      rewrite Hc. reflexivity. }
    rewrite Hrun. cbn [College.yielded College.final College.raised
                       College.log_request College.client_log].
    repeat split.
Qed.

(** Without an uploaded resume nothing is sent to the client and one
    [ERROR] message asks for the upload. *)
Lemma analyze_resume_without_upload (self : @College.PlacementChatbot Tensor) query :
  College.resume_uploaded self = false ->
  College.analyze_resume client_generate self query
  = {| College.yielded := [College.no_resume_message];
       College.final := self; College.raised := None |}.
Proof. intros H. unfold College.analyze_resume. rewrite H. reflexivity. Qed.

End ResumeAnalysis.

Lemma C7_resume_summarised_above_threshold_witness :
  let client := summarising_client "Five years of Python." "Add measurable results." in
  let run := College.analyze_resume client (chatbot_with_resume 5000) "analyze my resume" in
  College.client_log (College.final run)
  = [ Ollama.Generate College.text_model
        (College.summary_prompt (College.user_resume_text (chatbot_with_resume 5000)))
        200;
      Ollama.Generate College.text_model
        (College.critique_prompt "Five years of Python.") 300 ]
  /\ College.yielded run
     = [ College.bot_message "Add measurable results." College.RESUME_FEEDBACK ].
Proof.
  intros client run.
  assert (Huploaded : College.resume_uploaded (chatbot_with_resume 5000) = true)
    by reflexivity.
  assert (Htext : College.user_resume_text (chatbot_with_resume 5000) <> EmptyString)
    by (vm_compute; discriminate).
  assert (Hclient : forall log request, exists text,
             client log request = Ollama.GenerateReturns text).
  { intros log [model system user stream options|model prompt max_tokens];
      unfold client, summarising_client; [eexists; reflexivity|].
    destruct (Text.startswith "Summarize" prompt); eexists; reflexivity. }
  assert (Hlong : 1000 < String.length (College.user_resume_text (chatbot_with_resume 5000)))
    by (apply Nat.ltb_lt; vm_compute; reflexivity).
  destruct (proj1 (C7_resume_summarised_above_threshold client
                     (chatbot_with_resume 5000) "analyze my resume"
                     Huploaded Htext Hclient) Hlong)
    as (summary_reply & critique_reply & Hs & Hc & Hlog & Hyield & _).
  injection Hs as <-. injection Hc as <-.
  split; [exact Hlog|exact Hyield].
Defined.

Example resume_of_5000_characters :
  let run := College.analyze_resume (constant_client "ok") (chatbot_with_resume 5000) "" in
  length (College.client_log (College.final run)) = 2
  /\ map College.type (College.yielded run) = [College.RESUME_FEEDBACK].
Proof. vm_compute. split; reflexivity. Qed.

Example resume_of_500_characters :
  let run := College.analyze_resume (constant_client "ok") (chatbot_with_resume 500) "" in
  College.client_log (College.final run)
  = [ Ollama.Generate College.text_model
        (College.critique_prompt (College.user_resume_text (chatbot_with_resume 500))) 300 ]
  /\ map College.type (College.yielded run) = [College.RESUME_FEEDBACK].
Proof. vm_compute. split; reflexivity. Qed.

Example resume_of_1000_characters_is_not_summarised :
  length (College.client_log
            (College.final
               (College.analyze_resume (constant_client "ok") (chatbot_with_resume 1000) "")))
  = 1.
Proof. vm_compute. reflexivity. Qed.

(** ** Job listing with a salary range that has no digits *)

Lemma apply_raises_inv {A B} (f : A -> Jobs.Exception + B) (series : list A) e :
  Jobs.apply f series = inl e -> exists x, x ∈ series /\ f x = inl e.
Proof.
  induction series as [|x rest IH]; cbn; [discriminate|].
  destruct (f x) as [e'|y] eqn:Hfx.
  - intros [= ->]. exists x. split; [apply list_elem_of_here|exact Hfx].
  - destruct (Jobs.apply f rest) as [e'|ys]; [|discriminate].
    intros [= ->]. destruct (IH eq_refl) as (x' & Hin & Hx').
    exists x'. split; [apply list_elem_of_further, Hin|exact Hx'].
Qed.

Lemma apply_raises {A B} (f : A -> Jobs.Exception + B) (series : list A) x e :
  x ∈ series -> f x = inl e -> exists e', Jobs.apply f series = inl e'.
Proof.
  intros Hin Hfx. induction Hin as [x rest|x y rest Hin IH]; cbn.
  - rewrite Hfx. eauto.
  - destruct (f y) as [e'|z]; [eauto|].
    destruct (IH Hfx) as [e' ->]. eauto.
Qed.

Lemma first_digit_run_of_string s e :
  Jobs.first_digit_run (Jobs.Str s) = inl e -> e = Jobs.IndexError.
Proof.
  cbn. destruct (Text.findall_digits s); [|discriminate]. intros [= <-]. reflexivity.
Qed.

Section JobListing.

Variable regex_search : string -> option (string -> bool).
Variable sort_values : Jobs.SortKey -> bool -> list Jobs.JobRow -> list Jobs.JobRow.
Variable parse_datetime : string -> option Z.

(** C8.  For every job table with a record whose [salary_range] is a string
    without a digit run, the first digit extraction (the [apply] that fills
    [salary_min]) raises; [get_jobs] ends with that exception for every
    [filters], and so does [get_job_statistics] once the [posted_date] column
    has been converted; neither has a handler, so both calls end with an
    exception.  When every [salary_range] of the table is a string the
    exception is [IndexError]. *)
Theorem C8_digitless_salary_raises (jobs_df : list Jobs.Job) (bad : Jobs.Job)
    (text : string) (filters : option Jobs.Filters) (now : Z) :
  bad ∈ jobs_df ->
  Jobs.salary_range bad = Jobs.Str text ->
  Text.findall_digits text = [] ->
  (exists e,
      Jobs.apply Jobs.first_digit_run (map Jobs.salary_range jobs_df) = inl e
      /\ Jobs.get_jobs regex_search sort_values jobs_df filters = inl e
      /\ (forall dates,
             Jobs.apply (Jobs.to_datetime parse_datetime) (map Jobs.posted_date jobs_df)
             = inr dates ->
             Jobs.get_job_statistics parse_datetime (Some jobs_df) now = inl e)
      /\ ((forall j, j ∈ jobs_df -> exists s, Jobs.salary_range j = Jobs.Str s) ->
          e = Jobs.IndexError))
  /\ (exists e, Jobs.get_job_statistics parse_datetime (Some jobs_df) now = inl e).
Proof.
  intros Hbad Hrange Hdigits.
  assert (Hcell : Jobs.first_digit_run (Jobs.salary_range bad) = inl Jobs.IndexError)
    by (rewrite Hrange; cbn; rewrite Hdigits; reflexivity).
  destruct (apply_raises Jobs.first_digit_run (map Jobs.salary_range jobs_df)
              (Jobs.salary_range bad) Jobs.IndexError) as [e He];
    [apply list_elem_of_fmap; exists bad; split; [reflexivity|exact Hbad]|exact Hcell|].
  assert (Hcolumns : Jobs.add_salary_columns jobs_df = inl e)
    by (unfold Jobs.add_salary_columns; rewrite He; reflexivity).
  split.
  - exists e. split; [exact He|]. split; [|split].
    + unfold Jobs.get_jobs. rewrite Hcolumns. reflexivity.
    + intros dates Hdates. unfold Jobs.get_job_statistics.
      rewrite Hdates, Hcolumns. reflexivity.
    + intros Hstrings.
      apply apply_raises_inv in He as (cell & Hcell_in & Hcell_raises).
      apply list_elem_of_fmap in Hcell_in as (j & -> & Hj).
      destruct (Hstrings j Hj) as [s Hs]. rewrite Hs in Hcell_raises.
      eapply first_digit_run_of_string, Hcell_raises.
  - unfold Jobs.get_job_statistics.
    destruct (Jobs.apply (Jobs.to_datetime parse_datetime) (map Jobs.posted_date jobs_df))
      as [e'|dates]; [eauto|].
    rewrite Hcolumns. eauto.
Qed.

End JobListing.

Lemma C8_digitless_salary_raises_witness :
  Jobs.get_jobs literal_search (fun _ _ df => df) sample_jobs None = inl Jobs.IndexError
  /\ exists e, Jobs.get_job_statistics (fun _ => Some 0%Z) (Some sample_jobs) 0 = inl e.
Proof.
  assert (Hbad : sample_job "2" "Negotiable" ∈ sample_jobs)
    by (apply list_elem_of_further, list_elem_of_here).
  assert (Hrange : Jobs.salary_range (sample_job "2" "Negotiable") = Jobs.Str "Negotiable")
    by reflexivity.
  assert (Hdigits : Text.findall_digits "Negotiable" = []) by reflexivity.
  assert (Hstrings : forall j, j ∈ sample_jobs -> exists s, Jobs.salary_range j = Jobs.Str s).
  { intros j Hj. unfold sample_jobs in Hj.
    rewrite !elem_of_cons, elem_of_nil in Hj.
    destruct Hj as [->|[->|[->|[]]]]; eexists; reflexivity. }
  destruct (C8_digitless_salary_raises literal_search (fun _ _ df => df) (fun _ => Some 0%Z)
              sample_jobs (sample_job "2" "Negotiable") "Negotiable" None 0
              Hbad Hrange Hdigits)
    as [(e & _ & Hjobs & _ & Hkind) Hstats].
  split; [|exact Hstats].
  rewrite Hjobs. f_equal. exact (Hkind Hstrings).
Defined.

Example get_jobs_on_well_formed_table :
  match Jobs.get_jobs literal_search (fun _ _ df => df)
          [sample_job "1" "10-15 LPA"; sample_job "3" "8 LPA"] None with
  | inr df => Some (map (fun r => (Jobs.salary_min r, Jobs.salary_max r)) df)
  | inl _ => None
  end = Some [(10%N, 15%N); (8%N, 8%N)].
Proof. reflexivity. Qed.

(** ** Login *)

(** A login whose e-mail and password match the first user found. *)
Lemma authenticate_user_success (self : Auth.AuthManager) (df : list Auth.User)
    (email password : string) (now : Clock.DateTime) (write_ok : bool)
    (user_data : Auth.User) (others : list Auth.User) :
  Auth.users_df self = Some df ->
  List.filter (fun u => String.eqb (Text.lower (Auth.email u)) (Text.lower email)) df
  = user_data :: others ->
  password = Auth.password user_data ->
  let result := Auth.authenticate_user self email password now write_ok in
  result.2 = (true, "Login successful",
              Some {| Auth.info_user_id := Auth.user_id user_data;
                      Auth.info_name := Auth.name user_data;
                      Auth.info_role := Auth.role user_data |})
  /\ Auth.users_df result.1
     = Some (map (fun u => if String.eqb (Auth.email u) email
                           then Auth.set_last_login u (Clock.isoformat now) else u) df).
Proof.
  intros Hdf Hfound Hpw result. subst result.
  unfold Auth.authenticate_user. rewrite Hdf, Hfound, Hpw, String.eqb_refl.
  cbn [negb]. unfold Auth._save_users. destruct write_ok; split; reflexivity.
Qed.

(** The update of [last_login] compares the stored e-mail with the supplied
    one as written: a user whose stored e-mail differs from the supplied one,
    if only in letter case, keeps the old timestamp. *)
Lemma authenticate_user_keeps_last_login (self : Auth.AuthManager) (df : list Auth.User)
    (email password : string) (now : Clock.DateTime) (write_ok : bool) :
  Auth.users_df self = Some df ->
  (forall u, u ∈ df -> Auth.email u <> email) ->
  Auth.users_df (Auth.authenticate_user self email password now write_ok).1 = Some df.
Proof.
  intros Hdf Hother. unfold Auth.authenticate_user. rewrite Hdf.
  destruct (List.filter _ df) as [|user_data others]; [exact Hdf|].
  destruct (negb _); [exact Hdf|].
  assert (Hmap : map (fun u => if String.eqb (Auth.email u) email
                               then Auth.set_last_login u (Clock.isoformat now) else u) df
                 = df).
  { clear Hdf. induction df as [|u rest IH]; [reflexivity|]. cbn [map].
    assert (Hne : String.eqb (Auth.email u) email = false)
      by (apply String.eqb_neq, Hother, list_elem_of_here).
    rewrite Hne, IH; [reflexivity|].
    intros v Hv. apply Hother, list_elem_of_further, Hv. }
  rewrite Hmap. unfold Auth._save_users. destruct write_ok; reflexivity.
Qed.

(** C9.  The specification has every successful login, with the e-mail
    compared case-insensitively, return the user's identifier, name and role
    and update the stored [last_login].  [authenticate_user] at the default
    user table and the e-mail [Admin@Atlas.edu] with the stored password:
    the login succeeds and returns the identifier, name and role of the stored
    user [admin@atlas.edu], but the user table, and with it that user's
    [last_login], is left exactly as it was; the same login with the e-mail
    written as stored does update [last_login]. *)
Theorem C9_login_in_other_case_keeps_last_login :
  let manager := Auth.new_manager None startup_time true in
  let other_case :=
    Auth.authenticate_user manager "Admin@Atlas.edu" "admin123" login_time true in
  let as_stored :=
    Auth.authenticate_user manager "admin@atlas.edu" "admin123" login_time true in
  other_case.2 = (true, "Login successful",
                  Some {| Auth.info_user_id := "USR_001"; Auth.info_name := "Admin User";
                          Auth.info_role := "admin" |})
  /\ Auth.users_df other_case.1 = Auth.users_df manager
  /\ (map Auth.last_login <$> Auth.users_df other_case.1)
     = Some ["2024-01-05T09:00:00"; "2024-01-05T09:00:00"]
  /\ as_stored.2 = other_case.2
  /\ (map Auth.last_login <$> Auth.users_df as_stored.1)
     = Some ["2024-06-15T14:30:07.250000"; "2024-01-05T09:00:00"].
Proof. vm_compute. repeat split. Qed.

(** ** Application records created in the same second *)

Lemma same_second_same_id (a b : Clock.DateTime) :
  Clock.same_second a b ->
  Applications.make_application_id a = Applications.make_application_id b.
Proof.
  intros (Hy & Hmo & Hd & Hh & Hmi & Hs).
  unfold Applications.make_application_id, Clock.strftime_compact.
  rewrite Hy, Hmo, Hd, Hh, Hmi, Hs. reflexivity.
Qed.

Section Frames.

(** Rows labelled a, a + 1, ... *)
Lemma labelled_cons (a : nat) (r : Applications.Row) (rs : list Applications.Row) :
  zip (seq a (S (length rs))) (r :: rs) = (a, r) :: zip (seq (S a) (length rs)) rs.
Proof. reflexivity. Qed.

Lemma labelled_rows (a : nat) (rs : list Applications.Row) :
  map snd (zip (seq a (length rs)) rs) = rs.
Proof.
  revert a. induction rs as [|r rs IH]; intros a; [reflexivity|].
  cbn [length]. rewrite labelled_cons. cbn [map snd]. rewrite IH. reflexivity.
Qed.

Lemma range_index_rows (rs : list Applications.Row) :
  map snd (Applications.range_index rs) = rs.
Proof. apply labelled_rows. Qed.

Lemma set_at_above (label a : nat) key value (rs : list Applications.Row) :
  label < a ->
  Applications.set_at label key value (zip (seq a (length rs)) rs)
  = zip (seq a (length rs)) rs.
Proof.
  revert a. induction rs as [|r rs IH]; intros a Hlt; [reflexivity|].
  cbn [length]. rewrite labelled_cons. unfold Applications.set_at in *. cbn [map].
  assert (Hne : Nat.eqb a label = false) by (apply Nat.eqb_neq; lia).
  rewrite Hne, IH by lia. reflexivity.
Qed.

Lemma set_at_first_match (a : nat) key value (pre post : list Applications.Row)
    (target : Applications.Row) :
  Applications.set_at (a + length pre) key value
    (zip (seq a (length (pre ++ target :: post))) (pre ++ target :: post))
  = zip (seq a (length (pre ++ <[key := value]> target :: post)))
        (pre ++ <[key := value]> target :: post).
Proof.
  revert a. induction pre as [|r pre IH]; intros a.
  - cbn [app length]. rewrite !labelled_cons, Nat.add_0_r.
    unfold Applications.set_at. cbn [map]. rewrite Nat.eqb_refl.
    f_equal. apply (set_at_above a (S a)). lia.
  - cbn [app length]. rewrite !labelled_cons.
    unfold Applications.set_at in *. cbn [map].
    assert (Hne : Nat.eqb a (a + S (length pre)) = false) by (apply Nat.eqb_neq; lia).
    rewrite Hne. f_equal.
    replace (a + S (length pre)) with (S a + length pre) by lia. apply IH.
Qed.

Lemma updates_at_first_match (a : nat) (updates : list (string * string))
    (pre post : list Applications.Row) (target : Applications.Row) :
  fold_left (fun df '(key, value) => Applications.set_at (a + length pre) key value df)
            updates
            (zip (seq a (length (pre ++ target :: post))) (pre ++ target :: post))
  = let updated := fold_left (fun r '(key, value) => <[key := value]> r) updates target in
    zip (seq a (length (pre ++ updated :: post))) (pre ++ updated :: post).
Proof.
  revert target. induction updates as [|[key value] updates IH]; intros target.
  - reflexivity.
  - cbn [fold_left]. rewrite set_at_first_match. apply IH.
Qed.

Lemma first_label_of_match (p : Applications.Row -> bool) (a : nat)
    (pre post : list Applications.Row) (target : Applications.Row) :
  (forall r, r ∈ pre -> p r = false) ->
  p target = true ->
  exists more,
    map fst (List.filter (fun '(_, r) => p r)
               (zip (seq a (length (pre ++ target :: post))) (pre ++ target :: post)))
    = (a + length pre) :: more.
Proof.
  revert a. induction pre as [|r pre IH]; intros a Hpre Htarget.
  - cbn [app length]. rewrite labelled_cons. cbn [List.filter].
    rewrite Htarget, Nat.add_0_r. cbn [map fst]. eauto.
  - cbn [app length]. rewrite labelled_cons. cbn [List.filter].
    rewrite (Hpre r) by apply list_elem_of_here.
    destruct (IH (S a)) as [more Hmore];
      [intros r' Hr'; apply Hpre, list_elem_of_further, Hr'|exact Htarget|].
    exists more. rewrite Hmore. f_equal. lia.
Qed.

Lemma first_match_split {A} (p : A -> bool) (l : list A) (x : A) :
  x ∈ l -> p x = true ->
  exists pre target post,
    l = pre ++ target :: post /\ (forall r, r ∈ pre -> p r = false) /\ p target = true.
Proof.
  intros Hin Hx. induction Hin as [x l|x y l Hin IH].
  - exists [], x, l. repeat split; [|exact Hx]. intros r Hr. inversion Hr.
  - destruct (p y) eqn:Hy.
    + exists [], y, l. repeat split; [|exact Hy]. intros r Hr. inversion Hr.
    + destruct (IH Hx) as (pre & target & post & -> & Hpre & Htarget).
      exists (y :: pre), target, post. repeat split; [|exact Htarget].
      intros r Hr. apply elem_of_cons in Hr as [->|Hr]; [exact Hy|apply Hpre, Hr].
Qed.

Lemma filter_rows (q : Applications.Row -> bool) (df : list (nat * Applications.Row)) :
  map snd (List.filter (fun '(_, r) => q r) df) = List.filter q (map snd df).
Proof.
  induction df as [|[l r] df IH]; [reflexivity|].
  cbn [List.filter map snd]. destruct (q r); cbn [map snd]; rewrite IH; reflexivity.
Qed.

Lemma filter_drops_match {A} (q : A -> bool) (l : list A) (x : A) :
  x ∈ l -> q x = false -> length (List.filter q l) < length l.
Proof.
  intros Hin Hx. induction Hin as [x l|x y l Hin IH]; cbn [List.filter length].
  - rewrite Hx. pose proof (List.filter_length_le q l). lia.
  - destruct (q y); cbn [length]; specialize (IH Hx); lia.
Qed.

End Frames.

Lemma create_application_rows (self : Applications.ApplicationManager)
    (data : Applications.Row) (now1 now2 : Clock.DateTime) :
  let created := Applications.create_application self data now1 now2 in
  Applications.rows created.1.1 = Applications.rows self ++ [created.2]
  /\ Applications.applications_df created.1.1
     = Applications.range_index (Applications.rows self ++ [created.2])
  /\ created.1.2 = Applications.make_application_id now1
  /\ Applications.has_id (Applications.make_application_id now1) created.2 = true
  /\ Applications.applications_file created.1.1 = Applications.rows created.1.1.
Proof.
  cbn. unfold Applications.rows at 1 4. cbn [Applications.applications_df].
  rewrite range_index_rows. repeat split.
  unfold Applications.has_id. apply bool_decide_eq_true.
  rewrite lookup_insert_ne by discriminate. apply lookup_insert_eq.
Qed.

(** [update_application] on a freshly indexed frame whose first row with the
    identifier is [target]: that row alone receives the updates. *)
Lemma update_application_first_match (self : Applications.ApplicationManager)
    (application_id : string) (updates : list (string * string))
    (pre post : list Applications.Row) (target : Applications.Row) :
  Applications.applications_df self
  = Applications.range_index (pre ++ target :: post) ->
  (forall r, r ∈ pre -> Applications.has_id application_id r = false) ->
  Applications.has_id application_id target = true ->
  let updated := Applications.update_application self application_id updates in
  updated.2 = true
  /\ Applications.rows updated.1
     = pre ++ fold_left (fun r '(key, value) => <[key := value]> r) updates target :: post
  /\ Applications.applications_file updated.1 = Applications.rows updated.1.
Proof.
  intros Hdf Hpre Htarget updated. subst updated.
  unfold Applications.update_application. rewrite Hdf.
  unfold Applications.range_index.
  destruct (first_label_of_match (Applications.has_id application_id) 0 pre post target
              Hpre Htarget) as [more Hidx].
  rewrite Hidx. cbn [Nat.add].
  pose proof (updates_at_first_match 0 updates pre post target) as Hfold.
  cbn [Nat.add] in Hfold. rewrite Hfold. cbv zeta.
  unfold Applications._save_applications, Applications.rows.
  cbn [fst snd Applications.applications_df Applications.applications_file].
  rewrite !labelled_rows. repeat split.
Qed.

Lemma delete_application_rows (self : Applications.ApplicationManager)
    (application_id : string) :
  let deleted := Applications.delete_application self application_id in
  Applications.rows deleted.1
  = List.filter (fun r => negb (Applications.has_id application_id r))
                (Applications.rows self)
  /\ deleted.2 = (length (Applications.rows deleted.1) <? length (Applications.rows self))%nat
  /\ Applications.applications_file deleted.1 = Applications.rows deleted.1.
Proof.
  cbn. unfold Applications.rows. cbn [Applications.applications_df].
  rewrite (filter_rows (fun r => negb (Applications.has_id application_id r))).
  rewrite <- (filter_rows (fun r => negb (Applications.has_id application_id r))).
  rewrite !length_map. repeat split.
Qed.

(** C10.  The identifier made by [create_application] is ["APP_"] followed
    by the clock reading printed to the second, so two applications created
    by readings of the same second, whatever their data and whatever the
    table held before, get the same identifier: identifiers are not unique.
    In the table that results, [update_application] with that identifier
    succeeds and changes one row only, the first one carrying the identifier,
    leaving the rows after it (the second new row is the last of them) as
    they were, while [delete_application] removes every row carrying it and
    nothing else. *)
Theorem C10_same_second_same_identifier (self : Applications.ApplicationManager)
    (data1 data2 : Applications.Row) (now1 now1' now2 now2' : Clock.DateTime)
    (updates : list (string * string)) :
  Clock.same_second now1 now2 ->
  let first := Applications.create_application self data1 now1 now1' in
  let second := Applications.create_application first.1.1 data2 now2 now2' in
  let table := second.1.1 in
  let application_id := first.1.2 in
  let updated := Applications.update_application table application_id updates in
  let deleted := Applications.delete_application table application_id in
  application_id = "APP_" +:+ Clock.strftime_compact now1
  /\ second.1.2 = application_id
  /\ Applications.rows table = Applications.rows self ++ [first.2; second.2]
  /\ Applications.has_id application_id first.2 = true
  /\ Applications.has_id application_id second.2 = true
  /\ updated.2 = true
  /\ (exists pre target post,
        Applications.rows table = pre ++ target :: post
        /\ (forall r, r ∈ pre -> Applications.has_id application_id r = false)
        /\ Applications.has_id application_id target = true
        /\ Applications.rows updated.1
           = pre ++ fold_left (fun r '(key, value) => <[key := value]> r) updates target
                :: post
        /\ last post = Some second.2)
  /\ deleted.2 = true
  /\ Applications.rows deleted.1
     = List.filter (fun r => negb (Applications.has_id application_id r))
                   (Applications.rows table)
  /\ (forall r, r ∈ Applications.rows deleted.1 ->
                Applications.has_id application_id r = false).
Proof.
  intros Hsame first second table application_id updated deleted.
  destruct (create_application_rows self data1 now1 now1')
    as (Hrows1 & _ & Hid1 & Hhas1 & _).
  fold first in Hrows1, Hid1, Hhas1.
  destruct (create_application_rows first.1.1 data2 now2 now2')
    as (Hrows2 & Hdf2 & Hid2 & Hhas2 & _).
  fold second in Hrows2, Hdf2, Hid2, Hhas2. fold table in Hrows2, Hdf2.
  rewrite <- (same_second_same_id now1 now2 Hsame) in Hid2, Hhas2.
  rewrite <- Hid1 in Hhas1, Hhas2, Hid2. fold application_id in Hhas1, Hhas2, Hid2.
  assert (Htable : Applications.rows table = Applications.rows self ++ [first.2; second.2]).
  { rewrite Hrows2, Hrows1, <- app_assoc. reflexivity. }
  assert (Hin1 : first.2 ∈ Applications.rows table).
  { rewrite Htable. apply elem_of_app. right. apply list_elem_of_here. }
  destruct (first_match_split (Applications.has_id application_id)
              (Applications.rows table) first.2 Hin1 Hhas1)
    as (pre & target & post & Hsplit & Hpre & Htarget).
  assert (Hpost : last post = Some second.2).
  { destruct post as [|p post'] using rev_ind.
    - exfalso. rewrite Htable in Hsplit.
      change [first.2; second.2] with ([first.2] ++ [second.2]) in Hsplit.
      change (target :: []) with ([target]) in Hsplit.
      rewrite app_assoc in Hsplit. apply app_inj_tail in Hsplit as [Hpre_eq _].
      assert (Hfalse : Applications.has_id application_id first.2 = false).
      { apply Hpre. rewrite <- Hpre_eq. apply elem_of_app. right. apply list_elem_of_here. }
      congruence.
    - rewrite last_snoc. f_equal.
      rewrite Htable in Hsplit.
      change [first.2; second.2] with ([first.2] ++ [second.2]) in Hsplit.
      rewrite app_assoc, app_comm_cons, (app_assoc pre) in Hsplit.
      apply app_inj_tail in Hsplit as [_ Heq]. symmetry. exact Heq. }
  assert (Hdf : Applications.applications_df table
                = Applications.range_index (pre ++ target :: post)).
  { rewrite Hdf2, <- Hsplit, Hrows2. reflexivity. }
  destruct (update_application_first_match table application_id updates pre post target
              Hdf Hpre Htarget) as (Hfound & Hupdated & _).
  destruct (delete_application_rows table application_id) as (Hdeleted & Hremoved & _).
  fold updated in Hfound, Hupdated. fold deleted in Hdeleted, Hremoved.
  split; [exact Hid1|]. split; [exact Hid2|]. split; [exact Htable|].
  split; [exact Hhas1|]. split; [exact Hhas2|]. split; [exact Hfound|].
  split; [exists pre, target, post; repeat split; assumption|].
  split; [|split; [exact Hdeleted|]].
  - rewrite Hremoved, Hdeleted. apply Nat.ltb_lt.
    apply (filter_drops_match _ _ first.2 Hin1). rewrite Hhas1. reflexivity.
  - intros r Hr. rewrite Hdeleted in Hr.
    apply list_elem_of_In, List.filter_In in Hr as [_ Hr].
    apply negb_true_iff in Hr. exact Hr.
Qed.

Lemma C10_same_second_same_identifier_witness :
  let first :=
    Applications.create_application (Applications.load [])
      ({[ "job_id" := "J1" ]} : Applications.Row) login_time login_time in
  let second :=
    Applications.create_application first.1.1
      ({[ "job_id" := "J2" ]} : Applications.Row) login_time_later login_time_later in
  Clock.same_second login_time login_time_later
  /\ first.1.2 = "APP_20240615143007"
  /\ second.1.2 = first.1.2.
Proof.
  intros first second.
  assert (Hsame : Clock.same_second login_time login_time_later)
    by (repeat split; reflexivity).
  destruct (C10_same_second_same_identifier (Applications.load [])
              {[ "job_id" := "J1" ]} {[ "job_id" := "J2" ]}
              login_time login_time login_time_later login_time_later
              [("status", "Accepted")] Hsame)
    as (Hid & Hequal & _).
  split; [exact Hsame|]. split; [exact Hid|exact Hequal].
Defined.

(** The scenario on an empty table: after two creations in one second and
    an update of the status, only the first row is accepted; a deletion
    empties the table. *)
Example same_second_scenario :
  let first :=
    Applications.create_application (Applications.load [])
      ({[ "job_id" := "J1" ]} : Applications.Row) login_time login_time in
  let second :=
    Applications.create_application first.1.1
      ({[ "job_id" := "J2" ]} : Applications.Row) login_time_later login_time_later in
  let updated :=
    Applications.update_application second.1.1 first.1.2 [("status", "Accepted")] in
  let deleted := Applications.delete_application second.1.1 first.1.2 in
  map (fun r => (r !! "job_id", r !! "status")) (Applications.rows updated.1)
  = [(Some "J1", Some "Accepted"); (Some "J2", None)]
  /\ Applications.rows deleted.1 = []
  /\ deleted.2 = true.
Proof. vm_compute. repeat split. Qed.

(** ** Routing in the College [get_response] *)

(** A query that selects a flow makes [get_response] end at its [return]:
    nothing is yielded, nothing is sent to the client and the chatbot is
    unchanged. *)
Lemma college_get_response_on_flow {Tensor : Type} (encode : string -> Tensor)
    topk_cos_sim set_order random_sample system_prompt client_chat clock
    (self : College.PlacementChatbot) (query : string) :
  College.selects_flow self query = true ->
  College.get_response encode topk_cos_sim set_order random_sample system_prompt
    client_chat clock self query
  = ([], self).
Proof. intros H. unfold College.get_response. rewrite H. reflexivity. Qed.

Example start_command_selects_flow :
  College.selects_flow (@College.new_chatbot unit) "Please START mock interview" = true.
Proof. reflexivity. Qed.

(** * Further properties of the record managers *)

(** ** Application records *)

Lemma fold_insert_snoc (updates : list (string * string)) k v (r : Applications.Row) :
  fold_left (fun r '(key, value) => <[key := value]> r) (updates ++ [(k, v)]) r
  = <[k := v]> (fold_left (fun r '(key, value) => <[key := value]> r) updates r).
Proof. rewrite fold_left_app. reflexivity. Qed.

Lemma final_value_snoc (updates : list (string * string)) k v key :
  final_value (updates ++ [(k, v)]) key
  = if String.eqb k key then Some v else final_value updates key.
Proof. unfold final_value. rewrite fold_left_app. reflexivity. Qed.

Lemma fold_insert_lookup (updates : list (string * string)) (r : Applications.Row) key :
  fold_left (fun r '(key, value) => <[key := value]> r) updates r !! key
  = match final_value updates key with
    | Some v => Some v
    | None => r !! key
    end.
Proof.
  induction updates as [|[k v] updates IH] using rev_ind; [reflexivity|].
  rewrite fold_insert_snoc, final_value_snoc.
  destruct (String.eqb_spec k key) as [->|Hne].
  - apply lookup_insert_eq.
  - rewrite lookup_insert_ne by exact Hne. exact IH.
Qed.

Lemma fresh_index_load file : fresh_index (Applications.load file).
Proof.
  unfold fresh_index, Applications.load, Applications.rows.
  cbn [Applications.applications_df]. rewrite range_index_rows. reflexivity.
Qed.

Lemma fresh_index_create self data now1 now2 :
  fresh_index (Applications.create_application self data now1 now2).1.1.
Proof.
  unfold fresh_index.
  destruct (create_application_rows self data now1 now2) as (Hrows & Hdf & _).
  cbv zeta in Hrows, Hdf. rewrite Hdf, Hrows. reflexivity.
Qed.

(** X1.  [create_application] appends exactly one row after the rows the
    table had: the input with [application_id] and [applied_date] set (any
    values the input had under these keys are overwritten) and every other
    key as given; the whole table is written to the file. *)
Theorem create_application_read_after_write (self : Applications.ApplicationManager)
    (data : Applications.Row) (now1 now2 : Clock.DateTime) :
  let created := Applications.create_application self data now1 now2 in
  let row := created.2 in
  Applications.rows created.1.1 = Applications.rows self ++ [row]
  /\ row !! "application_id" = Some created.1.2
  /\ row !! "applied_date" = Some (Clock.isoformat now2)
  /\ (forall key, key <> "application_id" -> key <> "applied_date" ->
                  row !! key = data !! key)
  /\ Applications.applications_file created.1.1 = Applications.rows self ++ [row].
Proof.
  intros created row.
  destruct (create_application_rows self data now1 now2) as (Hrows & _ & _ & _ & Hfile).
  fold created in Hrows, Hfile. fold row in Hrows.
  split; [exact Hrows|]. split; [|split; [|split]].
  - subst row created. cbn. rewrite lookup_insert_ne by discriminate.
    apply lookup_insert_eq.
  - subst row created. cbn. apply lookup_insert_eq.
  - intros key Hid Hdate. subst row created. cbn.
    rewrite !lookup_insert_ne by congruence. reflexivity.
  - rewrite Hfile. exact Hrows.
Qed.

Lemma filter_no_match {A} (p : A -> bool) (l : list A) :
  (forall x, x ∈ l -> p x = false) -> List.filter p l = [].
Proof.
  induction l as [|x l IH]; intros Hnone; [reflexivity|].
  cbn [List.filter]. rewrite (Hnone x) by apply list_elem_of_here.
  apply IH. intros y Hy. apply Hnone, list_elem_of_further, Hy.
Qed.

Lemma filter_all_match {A} (p : A -> bool) (l : list A) :
  (forall x, x ∈ l -> p x = true) -> List.filter p l = l.
Proof.
  induction l as [|x l IH]; intros Hall; [reflexivity|].
  cbn [List.filter]. rewrite (Hall x) by apply list_elem_of_here.
  f_equal. apply IH. intros y Hy. apply Hall, list_elem_of_further, Hy.
Qed.

Lemma labelled_elem_of_rows (df : list (nat * Applications.Row)) l r :
  (l, r) ∈ df -> r ∈ map snd df.
Proof. intros Hin. apply list_elem_of_fmap. exists (l, r). split; [reflexivity|exact Hin]. Qed.

Lemma absent_identifier_no_op (self : Applications.ApplicationManager)
    (application_id : string) (updates : list (string * string)) :
  (forall r, r ∈ Applications.rows self -> Applications.has_id application_id r = false) ->
  Applications.update_application self application_id updates = (self, false)
  /\ (Applications.delete_application self application_id).2 = false
  /\ Applications.applications_df (Applications.delete_application self application_id).1
     = Applications.applications_df self.
Proof.
  intros Habsent.
  assert (Hnone : List.filter (fun '(_, r) => Applications.has_id application_id r)
                    (Applications.applications_df self) = []).
  { apply filter_no_match. intros [l r] Hin. apply Habsent.
    eapply labelled_elem_of_rows, Hin. }
  assert (Hall : List.filter (fun '(_, r) => negb (Applications.has_id application_id r))
                   (Applications.applications_df self) = Applications.applications_df self).
  { apply filter_all_match. intros [l r] Hin. rewrite Habsent; [reflexivity|].
    eapply labelled_elem_of_rows, Hin. }
  split; [|split].
  - unfold Applications.update_application. rewrite Hnone. reflexivity.
  - unfold Applications.delete_application. rewrite Hall.
    cbn [snd fst Applications._save_applications Applications.applications_df].
    apply Nat.ltb_irrefl.
  - unfold Applications.delete_application. rewrite Hall. reflexivity.
Qed.

(** X2.  With an identifier no row carries, [update_application] returns
    [False] and leaves frame and file untouched, and [delete_application]
    returns [False] and keeps every row. *)
Theorem absent_identifier_changes_nothing (self : Applications.ApplicationManager)
    (application_id : string) (updates : list (string * string)) :
  (forall r, r ∈ Applications.rows self -> Applications.has_id application_id r = false) ->
  Applications.update_application self application_id updates = (self, false)
  /\ (Applications.delete_application self application_id).2 = false
  /\ Applications.applications_df (Applications.delete_application self application_id).1
     = Applications.applications_df self.
Proof. apply absent_identifier_no_op. Qed.

Lemma absent_identifier_changes_nothing_witness :
  Applications.update_application
    (Applications.load [ ({[ "application_id" := "APP_1" ]} : Applications.Row) ])
    "APP_2" [("status", "Accepted")]
  = (Applications.load [ ({[ "application_id" := "APP_1" ]} : Applications.Row) ], false).
Proof.
  refine (proj1 (absent_identifier_changes_nothing _ "APP_2" [("status", "Accepted")] _)).
  intros r Hr. cbn in Hr. apply list_elem_of_singleton in Hr as ->.
  vm_compute. reflexivity.
Defined.

(** X3.  On a freshly indexed table in which some row carries the
    identifier, [update_application] returns [True], keeps the number of
    rows, and rewrites the first such row only: under each key of [updates]
    that row then holds the value of the last item with that key, and under
    every other key what it held before.  The table is written to the file. *)
Theorem update_application_read_after_write (self : Applications.ApplicationManager)
    (application_id : string) (updates : list (string * string))
    (row : Applications.Row) :
  fresh_index self ->
  row ∈ Applications.rows self ->
  Applications.has_id application_id row = true ->
  let updated := Applications.update_application self application_id updates in
  updated.2 = true
  /\ exists pre target target' post,
       Applications.rows self = pre ++ target :: post
       /\ (forall r, r ∈ pre -> Applications.has_id application_id r = false)
       /\ Applications.has_id application_id target = true
       /\ Applications.rows updated.1 = pre ++ target' :: post
       /\ (forall key, target' !! key = match final_value updates key with
                                         | Some v => Some v
                                         | None => target !! key
                                         end)
       /\ Applications.applications_file updated.1 = pre ++ target' :: post.
Proof.
  intros Hfresh Hin Hhas updated.
  destruct (first_match_split (Applications.has_id application_id)
              (Applications.rows self) row Hin Hhas)
    as (pre & target & post & Hsplit & Hpre & Htarget).
  assert (Hdf : Applications.applications_df self
                = Applications.range_index (pre ++ target :: post))
    by (rewrite <- Hsplit; exact Hfresh).
  destruct (update_application_first_match self application_id updates pre post target
              Hdf Hpre Htarget) as (Hfound & Hrows & Hfile).
  fold updated in Hfound, Hrows, Hfile.
  split; [exact Hfound|].
  exists pre, target,
    (fold_left (fun r '(key, value) => <[key := value]> r) updates target), post.
  split; [exact Hsplit|]. split; [exact Hpre|]. split; [exact Htarget|].
  split; [exact Hrows|]. split; [apply fold_insert_lookup|].
  rewrite Hfile. exact Hrows.
Qed.

Lemma update_application_read_after_write_witness :
  let table :=
    Applications.load
      [ ({[ "application_id" := "APP_1"; "status" := "Pending" ]} : Applications.Row) ] in
  (Applications.update_application table "APP_1" [("status", "Accepted")]).2 = true.
Proof.
  intros table.
  refine (proj1 (update_application_read_after_write table "APP_1" [("status", "Accepted")]
                   {[ "application_id" := "APP_1"; "status" := "Pending" ]} _ _ _)).
  - apply fresh_index_load.
  - cbn. apply list_elem_of_here.
  - vm_compute. reflexivity.
Defined.

(** X4.  After [delete_application] no row carries the identifier: a
    following [update_application] with it returns [False] and changes
    nothing, and a second [delete_application] returns [False] and keeps the
    table as it is. *)
Theorem delete_application_is_final (self : Applications.ApplicationManager)
    (application_id : string) (updates : list (string * string)) :
  let deleted := (Applications.delete_application self application_id).1 in
  (forall r, r ∈ Applications.rows deleted -> Applications.has_id application_id r = false)
  /\ Applications.update_application deleted application_id updates = (deleted, false)
  /\ (Applications.delete_application deleted application_id).2 = false
  /\ Applications.rows (Applications.delete_application deleted application_id).1
     = Applications.rows deleted.
Proof.
  intros deleted.
  assert (Hgone : forall r, r ∈ Applications.rows deleted ->
                            Applications.has_id application_id r = false).
  { intros r Hr. subst deleted.
    destruct (delete_application_rows self application_id) as (Hrows & _).
    cbv zeta in Hrows. rewrite Hrows in Hr.
    apply list_elem_of_In, List.filter_In in Hr as [_ Hr].
    apply negb_true_iff in Hr. exact Hr. }
  destruct (absent_identifier_no_op deleted application_id updates Hgone)
    as (Hupdate & Hdelete & Hsame).
  split; [exact Hgone|]. split; [exact Hupdate|]. split; [exact Hdelete|].
  unfold Applications.rows. rewrite Hsame. reflexivity.
Qed.

(** ** Users *)

Lemma lower_char_idempotent c : Text.lower_char (Text.lower_char c) = Text.lower_char c.
Proof. destruct c as [[] [] [] [] [] [] [] []]; reflexivity. Qed.

Lemma lower_idempotent s : Text.lower (Text.lower s) = Text.lower s.
Proof.
  induction s as [|c s IH]; [reflexivity|].
  cbn [Text.lower]. rewrite lower_char_idempotent, IH. reflexivity.
Qed.

Lemma filter_head_split {A} (p : A -> bool) (l : list A) x rest :
  List.filter p l = x :: rest ->
  exists pre post, l = pre ++ x :: post
                   /\ (forall y, y ∈ pre -> p y = false) /\ p x = true.
Proof.
  induction l as [|y l IH]; cbn [List.filter]; [discriminate|].
  destruct (p y) eqn:Hy.
  - intros [= -> _]. exists [], l. repeat split; [|exact Hy].
    intros z Hz. inversion Hz.
  - intros Hfilter. destruct (IH Hfilter) as (pre & post & -> & Hpre & Hx).
    exists (y :: pre), post. repeat split; [|exact Hx].
    intros z Hz. apply elem_of_cons in Hz as [->|Hz]; [exact Hy|apply Hpre, Hz].
Qed.

(** X5.  [authenticate_user] reports success only for a stored user whose
    e-mail equals the supplied one up to letter case and whose stored
    password is the supplied one; it is the first such user of the table that
    is compared and whose identifier, name and role are returned, so a later
    user with the same e-mail cannot log in with another password. *)
Theorem authentication_is_sound (self : Auth.AuthManager) (email password : string)
    (now : Clock.DateTime) (write_ok : bool) :
  let result := Auth.authenticate_user self email password now write_ok in
  result.2.1.1 = true ->
  exists df pre user post,
    Auth.users_df self = Some df
    /\ df = pre ++ user :: post
    /\ (forall u, u ∈ pre -> email_key u <> Text.lower email)
    /\ email_key user = Text.lower email
    /\ Auth.password user = password
    /\ result.2 = (true, "Login successful",
                   Some {| Auth.info_user_id := Auth.user_id user;
                           Auth.info_name := Auth.name user;
                           Auth.info_role := Auth.role user |}).
Proof.
  intros result Hsuccess. subst result. unfold Auth.authenticate_user in *.
  destruct (Auth.users_df self) as [df|] eqn:Hdf; [|discriminate].
  destruct (List.filter _ df) as [|user others] eqn:Hfilter; [discriminate|].
  destruct (String.eqb_spec password (Auth.password user)) as [Hpw|Hpw];
    cbn [negb] in *; [|discriminate].
  apply filter_head_split in Hfilter as (pre & post & -> & Hpre & Huser).
  exists (pre ++ user :: post), pre, user, post.
  split; [reflexivity|]. split; [reflexivity|]. split; [|split; [|split]].
  - intros u Hu. apply String.eqb_neq, Hpre, Hu.
  - apply String.eqb_eq, Huser.
  - symmetry. exact Hpw.
  - reflexivity.
Qed.

Lemma authentication_is_sound_witness :
  exists user,
    user ∈ Auth.default_users startup_time
    /\ (Auth.authenticate_user (Auth.new_manager None startup_time true)
          "STUDENT@atlas.edu" "student123" login_time true).2.2
       = Some {| Auth.info_user_id := Auth.user_id user; Auth.info_name := Auth.name user;
                 Auth.info_role := Auth.role user |}.
Proof.
  destruct (authentication_is_sound (Auth.new_manager None startup_time true)
              "STUDENT@atlas.edu" "student123" login_time true eq_refl)
    as (df & pre & user & post & Hdf & Hsplit & _ & _ & _ & Hresult).
  exists user. split.
  - injection Hdf as <-. rewrite Hsplit. apply elem_of_app. right. apply list_elem_of_here.
  - rewrite Hresult. reflexivity.
Defined.

(** X6.  A login that fails, whatever the reason, changes nothing: frame
    and file of the manager are as before and no user dictionary is
    returned. *)
Theorem failed_login_changes_nothing (self : Auth.AuthManager) (email password : string)
    (now : Clock.DateTime) (write_ok : bool) :
  let result := Auth.authenticate_user self email password now write_ok in
  result.2.1.1 = false ->
  result.1 = self /\ result.2.2 = None.
Proof.
  intros result Hfail. subst result. unfold Auth.authenticate_user in *.
  destruct (Auth.users_df self) as [df|]; [|split; reflexivity].
  destruct (List.filter _ df) as [|user others]; [split; reflexivity|].
  destruct (negb _); [split; reflexivity|discriminate].
Qed.

Lemma failed_login_changes_nothing_witness :
  (Auth.authenticate_user (Auth.new_manager None startup_time true)
     "admin@atlas.edu" "guess" login_time true).1
  = Auth.new_manager None startup_time true.
Proof.
  exact (proj1 (failed_login_changes_nothing (Auth.new_manager None startup_time true)
                  "admin@atlas.edu" "guess" login_time true eq_refl)).
Defined.

Lemma map_set_last_login_same (email : string) (t : string) (df : list Auth.User) :
  map without_last_login
    (map (fun u => if String.eqb (Auth.email u) email then Auth.set_last_login u t else u) df)
  = map without_last_login df.
Proof.
  induction df as [|u df IH]; [reflexivity|].
  cbn [map]. rewrite IH. f_equal.
  destruct (String.eqb (Auth.email u) email); reflexivity.
Qed.

(** X7.  Whatever its outcome, [authenticate_user] keeps the users and
    their order and changes no field of a user other than [last_login];
    the file afterwards holds what it held or the frame in memory. *)
Theorem authenticate_user_touches_last_login_only (self : Auth.AuthManager)
    (email password : string) (now : Clock.DateTime) (write_ok : bool) :
  let after := (Auth.authenticate_user self email password now write_ok).1 in
  (map without_last_login <$> Auth.users_df after)
  = (map without_last_login <$> Auth.users_df self)
  /\ (Auth.users_file after = Auth.users_file self
      \/ Auth.users_file after = Auth.users_df after).
Proof.
  intros after. subst after. unfold Auth.authenticate_user.
  destruct (Auth.users_df self) as [df|] eqn:Hdf;
    [|cbn [fst]; rewrite Hdf; split; [reflexivity|left; reflexivity]].
  destruct (List.filter _ df) as [|user others];
    [cbn [fst]; rewrite Hdf; split; [reflexivity|left; reflexivity]|].
  destruct (negb _); [cbn [fst]; rewrite Hdf; split; [reflexivity|left; reflexivity]|].
  unfold Auth._save_users.
  destruct write_ok; cbn [fst Auth.users_df Auth.users_file fmap option_fmap option_map];
    rewrite map_set_last_login_same; (split; [reflexivity|]); [right|left]; reflexivity.
Qed.

Lemma existsb_false_elem_of {A} (p : A -> bool) (l : list A) :
  existsb p l = false -> forall x, x ∈ l -> p x = false.
Proof.
  intros Hnone x Hx. destruct (p x) eqn:Hp; [|reflexivity].
  assert (Htrue : existsb p l = true)
    by (apply existsb_exists; exists x; split; [apply list_elem_of_In, Hx|exact Hp]).
  congruence.
Qed.

(** What a registration leaves in the frame. *)
Lemma register_user_frame (self : Auth.AuthManager) (user_data : Auth.Registration)
    (now1 now2 : Clock.DateTime) (write_ok : bool) (df : list Auth.User) :
  Auth.users_df self = Some df ->
  let result := Auth.register_user self user_data now1 now2 write_ok in
  (result.2.1 = false /\ result.1 = self
   /\ exists u, u ∈ df /\ email_key u = Text.lower (Auth.reg_email user_data))
  \/ (result.2 = (true, "Registration successful")
      /\ (forall u, u ∈ df -> email_key u <> Text.lower (Auth.reg_email user_data))
      /\ exists new_user,
           Auth.users_df result.1 = Some (df ++ [new_user])
           /\ Auth.email new_user = Text.lower (Auth.reg_email user_data)
           /\ Auth.password new_user = Auth.reg_password user_data
           /\ Auth.name new_user = Auth.reg_name user_data
           /\ Auth.role new_user = "student"
           /\ Auth.last_login new_user = "").
Proof.
  intros Hdf result. subst result. unfold Auth.register_user. rewrite Hdf.
  destruct (existsb _ df) eqn:Hexists.
  - left. split; [reflexivity|]. split; [reflexivity|].
    apply existsb_exists in Hexists as (u & Hu & Hkey).
    exists u. split; [apply list_elem_of_In, Hu|apply String.eqb_eq, Hkey].
  - right. split; [reflexivity|]. split.
    + intros u Hu. apply String.eqb_neq.
      exact (existsb_false_elem_of _ _ Hexists u Hu).
    + unfold Auth._save_users.
      destruct write_ok; cbn [fst Auth.users_df];
        (eexists; split; [reflexivity|]); repeat split.
Qed.

(** X8.  [register_user] keeps e-mails unique up to letter case: if no two
    users of the table have e-mails that agree when lower-cased, the same
    holds afterwards, whether the registration was accepted or refused.  A
    refusal changes nothing; an accepted registration adds one user, last,
    with the e-mail lower-cased and the role [student]. *)
Theorem register_user_keeps_emails_unique (self : Auth.AuthManager)
    (user_data : Auth.Registration) (now1 now2 : Clock.DateTime) (write_ok : bool)
    (df : list Auth.User) :
  Auth.users_df self = Some df ->
  NoDup (map email_key df) ->
  let result := Auth.register_user self user_data now1 now2 write_ok in
  exists df',
    Auth.users_df result.1 = Some df'
    /\ NoDup (map email_key df')
    /\ (result.2.1 = false -> df' = df)
    /\ (result.2.1 = true ->
        exists new_user, df' = df ++ [new_user]
                         /\ Auth.email new_user = Text.lower (Auth.reg_email user_data)
                         /\ Auth.role new_user = "student").
Proof.
  intros Hdf Hunique result.
  destruct (register_user_frame self user_data now1 now2 write_ok df Hdf)
    as [(Hfalse & Hsame & _)|(Htrue & Hfresh & new_user & Hdf' & Hemail & _ & _ & Hrole & _)];
    fold result in Hfalse || fold result in Htrue.
  - fold result in Hsame. exists df. rewrite Hsame.
    split; [exact Hdf|]. split; [exact Hunique|]. split; [reflexivity|].
    intros Htrue. congruence.
  - fold result in Hdf'. exists (df ++ [new_user]).
    split; [exact Hdf'|]. split; [|split].
    + rewrite map_app. apply NoDup_app. split; [exact Hunique|]. split.
      * intros key Hkey Hnew. cbn in Hnew. apply list_elem_of_singleton in Hnew.
        apply list_elem_of_fmap in Hkey as (u & Hu_key & Hu).
        apply (Hfresh u Hu). rewrite <- Hu_key, Hnew.
        unfold email_key. rewrite Hemail. apply lower_idempotent.
      * cbn. apply NoDup_singleton.
    + intros Hfalse. rewrite Htrue in Hfalse. discriminate.
    + intros _. exists new_user. repeat split; assumption.
Qed.

Lemma register_user_keeps_emails_unique_witness :
  exists df',
    Auth.users_df
      (Auth.register_user (Auth.new_manager None startup_time true)
         {| Auth.reg_email := "New.Student@Atlas.edu"; Auth.reg_password := "pw";
            Auth.reg_name := "New Student"; Auth.reg_department := None;
            Auth.reg_year := None |}
         login_time login_time true).1 = Some df'
    /\ NoDup (map email_key df').
Proof.
  assert (Hunique : NoDup (map email_key (Auth.default_users startup_time))).
  { vm_compute. apply NoDup_cons. split.
    - intros Hin. apply list_elem_of_singleton in Hin. discriminate.
    - apply NoDup_singleton. }
  destruct (register_user_keeps_emails_unique (Auth.new_manager None startup_time true)
              {| Auth.reg_email := "New.Student@Atlas.edu"; Auth.reg_password := "pw";
                 Auth.reg_name := "New Student"; Auth.reg_department := None;
                 Auth.reg_year := None |}
              login_time login_time true (Auth.default_users startup_time)
              eq_refl Hunique)
    as (df' & Hdf' & Hnodup & _).
  exists df'. split; [exact Hdf'|exact Hnodup].
Defined.

Lemma register_user_file (self : Auth.AuthManager) (user_data : Auth.Registration)
    (now1 now2 : Clock.DateTime) (write_ok : bool) :
  let result := Auth.register_user self user_data now1 now2 write_ok in
  result.2.1 = true ->
  Auth.users_file result.1
  = if write_ok then Auth.users_df result.1 else Auth.users_file self.
Proof.
  cbv zeta. unfold Auth.register_user.
  destruct (Auth.users_df self) as [df|]; [|discriminate].
  destruct (existsb _ df); [discriminate|].
  intros _. unfold Auth._save_users. destruct write_ok; reflexivity.
Qed.

Lemma authenticate_user_unknown (self : Auth.AuthManager) (email password : string)
    (now : Clock.DateTime) (write_ok : bool) :
  (forall df u, Auth.users_df self = Some df -> u ∈ df -> email_key u <> Text.lower email) ->
  let result := Auth.authenticate_user self email password now write_ok in
  result.1 = self /\ result.2.1.1 = false /\ result.2.2 = None.
Proof.
  intros Hunknown. cbv zeta. unfold Auth.authenticate_user.
  destruct (Auth.users_df self) as [df|] eqn:Hdf; [|repeat split].
  rewrite filter_no_match; [repeat split|].
  intros u Hu. apply String.eqb_neq. exact (Hunknown df u eq_refl Hu).
Qed.

(** X9.  An accepted registration is known to the [AuthManager] object
    that took it: [authenticate_user] on that object, with the e-mail as
    typed at registration (in any letter case) and the same password,
    succeeds and returns the registered name and the role [student].
    Whether it is known beyond that object depends on the write, which
    [register_user] does not report: when the write succeeded the file holds
    the table with the new user as its last row; when it failed the
    registration is still reported as successful, the file is as it was, and
    if it was in step with the table, a new [AuthManager] built from it (as
    the login pages do) refuses the login of the registered user. *)
Theorem registration_outlives_the_manager_only_if_written (self : Auth.AuthManager)
    (user_data : Auth.Registration) (now1 now2 now3 now_load : Clock.DateTime)
    (write_ok write_ok' io_ok : bool) (email : string) :
  let registered := Auth.register_user self user_data now1 now2 write_ok in
  let password := Auth.reg_password user_data in
  let reloaded := Auth.new_manager (Auth.users_file registered.1) now_load io_ok in
  registered.2.1 = true ->
  Text.lower email = Text.lower (Auth.reg_email user_data) ->
  (exists user_id,
      (Auth.authenticate_user registered.1 email password now3 write_ok').2
      = (true, "Login successful",
         Some {| Auth.info_user_id := user_id;
                 Auth.info_name := Auth.reg_name user_data;
                 Auth.info_role := "student" |}))
  /\ (write_ok = true ->
      exists df new_user,
        Auth.users_df self = Some df
        /\ Auth.users_file registered.1 = Some (df ++ [new_user])
        /\ Auth.email new_user = Text.lower (Auth.reg_email user_data)
        /\ Auth.password new_user = password
        /\ Auth.name new_user = Auth.reg_name user_data
        /\ Auth.role new_user = "student")
  /\ (write_ok = false ->
      registered.2 = (true, "Registration successful")
      /\ Auth.users_file registered.1 = Auth.users_file self
      /\ (Auth.users_file self = Auth.users_df self ->
          let login := Auth.authenticate_user reloaded email password now3 write_ok' in
          login.2.1.1 = false /\ login.2.2 = None)).
Proof.
  intros registered password reloaded Haccepted Hemail.
  pose proof (register_user_file self user_data now1 now2 write_ok Haccepted) as Hfile.
  fold registered in Hfile.
  destruct (Auth.users_df self) as [df|] eqn:Hdf.
  2:{ subst registered. unfold Auth.register_user in Haccepted.
      rewrite Hdf in Haccepted. discriminate. }
  destruct (register_user_frame self user_data now1 now2 write_ok df Hdf)
    as [(Hfalse & _)|(Hresult & Hfresh & new_user & Hdf' & Hnew_email & Hpw & Hname
                      & Hrole & _)];
    fold registered in Hfalse || fold registered in Hresult, Hdf'.
  { congruence. }
  split; [|split].
  - assert (Hfilter :
      List.filter (fun u => String.eqb (Text.lower (Auth.email u)) (Text.lower email))
                  (df ++ [new_user]) = [new_user]).
    { rewrite List.filter_app, filter_no_match.
      - cbn. rewrite Hnew_email, lower_idempotent, Hemail, String.eqb_refl. reflexivity.
      - intros u Hu. apply String.eqb_neq. rewrite Hemail. apply (Hfresh u Hu). }
    destruct (authenticate_user_success registered.1 (df ++ [new_user]) email
                password now3 write_ok' new_user []
                Hdf' Hfilter (eq_sym Hpw)) as [Hlogin _].
    exists (Auth.user_id new_user). rewrite Hlogin, Hname, Hrole. reflexivity.
  - intros ->. exists df, new_user. rewrite Hfile, Hdf'. repeat split; assumption.
  - intros ->. split; [exact Hresult|]. split; [exact Hfile|].
    intros Hsync login.
    assert (Hunknown : forall rows u,
               Auth.users_df reloaded = Some rows -> u ∈ rows ->
               email_key u <> Text.lower email).
    { subst reloaded. rewrite Hfile, Hsync. unfold Auth.new_manager.
      destruct io_ok; cbn [Auth.users_df]; [|discriminate].
      intros rows u [= <-] Hu. rewrite Hemail. exact (Hfresh u Hu). }
    destruct (authenticate_user_unknown reloaded email password now3 write_ok' Hunknown)
      as (_ & Hflag & Hinfo).
    split; [exact Hflag|exact Hinfo].
Qed.

Lemma registration_outlives_the_manager_only_if_written_witness :
  let data :=
    {| Auth.reg_email := "New.Student@Atlas.edu"; Auth.reg_password := "pw";
       Auth.reg_name := "New Student"; Auth.reg_department := None;
       Auth.reg_year := None |} in
  let registered :=
    Auth.register_user (Auth.new_manager None startup_time true) data
      login_time login_time false in
  registered.2 = (true, "Registration successful")
  /\ (exists user_id,
        (Auth.authenticate_user registered.1 "NEW.student@atlas.edu" "pw"
           login_time_later true).2
        = (true, "Login successful",
           Some {| Auth.info_user_id := user_id; Auth.info_name := "New Student";
                   Auth.info_role := "student" |}))
  /\ (Auth.authenticate_user
        (Auth.new_manager (Auth.users_file registered.1) login_time_later true)
        "NEW.student@atlas.edu" "pw" login_time_later true).2.1.1 = false.
Proof.
  intros data registered.
  destruct (registration_outlives_the_manager_only_if_written
              (Auth.new_manager None startup_time true) data
              login_time login_time login_time_later login_time_later
              false true true "NEW.student@atlas.edu" eq_refl eq_refl)
    as (Hsame & _ & Hlost).
  destruct (Hlost eq_refl) as (Hreported & _ & Hreload).
  split; [exact Hreported|]. split; [exact Hsame|].
  exact (proj1 (Hreload eq_refl)).
Defined.

Example registration_written_to_the_file :
  let data :=
    {| Auth.reg_email := "New.Student@Atlas.edu"; Auth.reg_password := "pw";
       Auth.reg_name := "New Student"; Auth.reg_department := None;
       Auth.reg_year := None |} in
  let registered :=
    Auth.register_user (Auth.new_manager None startup_time true) data
      login_time login_time true in
  map Auth.email (default [] (Auth.users_file registered.1))
  = ["admin@atlas.edu"; "student@atlas.edu"; "new.student@atlas.edu"].
Proof. vm_compute. reflexivity. Qed.

(** ** Job listing on well-formed tables *)

Lemma first_digit_run_ok c : has_digit_run c <-> exists n, Jobs.first_digit_run c = inr n.
Proof.
  split.
  - intros (s & -> & Hruns). cbn. destruct (Text.findall_digits s); [congruence|eauto].
  - intros [n Hn]. destruct c as [s|]; [|discriminate]. exists s. split; [reflexivity|].
    cbn in Hn. destruct (Text.findall_digits s); [discriminate|congruence].
Qed.

Lemma last_digit_run_ok c : has_digit_run c <-> exists n, Jobs.last_digit_run c = inr n.
Proof.
  split.
  - intros (s & -> & Hruns). cbn.
    destruct (Text.findall_digits s) as [|run runs] using rev_ind; [congruence|].
    rewrite last_snoc. eauto.
  - intros [n Hn]. destruct c as [s|]; [|discriminate]. exists s. split; [reflexivity|].
    cbn in Hn. destruct (Text.findall_digits s); [discriminate|congruence].
Qed.

Lemma apply_returns {A B} (f : A -> Jobs.Exception + B) (series : list A) :
  (forall x, x ∈ series -> exists y, f x = inr y) ->
  exists ys, Jobs.apply f series = inr ys.
Proof.
  induction series as [|x rest IH]; intros Hall; cbn; [eauto|].
  destruct (Hall x (list_elem_of_here _ _)) as [y ->].
  destruct IH as [ys ->]; [intros z Hz; apply Hall, list_elem_of_further, Hz|]. eauto.
Qed.

Lemma apply_returns_inv {A B} (f : A -> Jobs.Exception + B) (series : list A) ys :
  Jobs.apply f series = inr ys -> Forall2 (fun x y => f x = inr y) series ys.
Proof.
  revert ys. induction series as [|x rest IH]; intros ys; cbn.
  - intros [= <-]. constructor.
  - destruct (f x) as [e|y] eqn:Hfx; [discriminate|].
    destruct (Jobs.apply f rest) as [e|ys']; [discriminate|].
    intros [= <-]. constructor; [exact Hfx|apply IH; reflexivity].
Qed.

(** The rows [add_salary_columns] builds: one per job, in order, with the
    first and the last digit run of its salary range. *)
Lemma add_salary_columns_rows (jobs_df : list Jobs.Job) (df : list Jobs.JobRow) :
  Jobs.add_salary_columns jobs_df = inr df ->
  map Jobs.job df = jobs_df
  /\ Forall (fun r =>
               Jobs.first_digit_run (Jobs.salary_range (Jobs.job r)) = inr (Jobs.salary_min r)
               /\ Jobs.last_digit_run (Jobs.salary_range (Jobs.job r)) = inr (Jobs.salary_max r)
               /\ Jobs.avg_salary r = None) df.
Proof.
  unfold Jobs.add_salary_columns.
  destruct (Jobs.apply Jobs.first_digit_run (map Jobs.salary_range jobs_df))
    as [e|mins] eqn:Hmins; [discriminate|].
  destruct (Jobs.apply Jobs.last_digit_run (map Jobs.salary_range jobs_df))
    as [e|maxs] eqn:Hmaxs; [discriminate|].
  intros [= <-].
  apply apply_returns_inv in Hmins, Hmaxs.
  revert mins maxs Hmins Hmaxs.
  induction jobs_df as [|j jobs_df IH]; intros mins maxs Hmins Hmaxs.
  - inversion Hmins; inversion Hmaxs; subst. split; constructor.
  - cbn [map] in Hmins, Hmaxs.
    inversion Hmins as [|? lo ? mins' Hlo Hmins']; subst.
    inversion Hmaxs as [|? hi ? maxs' Hhi Hmaxs']; subst.
    destruct (IH mins' maxs' Hmins' Hmaxs') as [Hjobs Hrows].
    cbn. split; [f_equal; exact Hjobs|].
    constructor; [repeat split; assumption|exact Hrows].
Qed.

Lemma str_accessor_text_column (column : list Jobs.Cell) :
  text_column column -> Jobs.str_accessor column = inr column.
Proof.
  intros [->|[s Hs]]; [reflexivity|].
  unfold Jobs.str_accessor. destruct column as [|c column]; [reflexivity|].
  assert (Hsome : existsb Jobs.is_str (c :: column) = true).
  { apply existsb_exists. exists (Jobs.Str s). split; [apply list_elem_of_In, Hs|reflexivity]. }
  rewrite Hsome. reflexivity.
Qed.

Lemma str_accessor_other_column (column : list Jobs.Cell) :
  ~ text_column column -> Jobs.str_accessor column = inl Jobs.AttributeError.
Proof.
  intros Hnot. unfold Jobs.str_accessor.
  destruct column as [|c column]; [exfalso; apply Hnot; left; reflexivity|].
  destruct (existsb Jobs.is_str (c :: column)) eqn:Hsome; [|reflexivity].
  exfalso. apply Hnot. right.
  apply existsb_exists in Hsome as ([s|] & Hin & Hstr); [|discriminate].
  exists s. apply list_elem_of_In, Hin.
Qed.

Lemma text_column_dec (column : list Jobs.Cell) :
  text_column column \/ ~ text_column column.
Proof.
  destruct column as [|c column]; [left; left; reflexivity|].
  destruct (existsb Jobs.is_str (c :: column)) eqn:Hsome.
  - left. right. apply existsb_exists in Hsome as ([s|] & Hin & Hstr); [|discriminate].
    exists s. apply list_elem_of_In, Hin.
  - right. intros [Hnil|[s Hs]]; [discriminate|].
    assert (Htrue : existsb Jobs.is_str (c :: column) = true).
    { apply existsb_exists. exists (Jobs.Str s).
      split; [apply list_elem_of_In, Hs|reflexivity]. }
    congruence.
Qed.

Lemma select_mask {A} (p : A -> bool) (l : list A) :
  Jobs.select (map p l) l = List.filter p l.
Proof.
  unfold Jobs.select. induction l as [|x l IH]; [reflexivity|].
  cbn [map zip zip_with List.filter snd]. destruct (p x); cbn [map fst]; rewrite IH; reflexivity.
Qed.

Lemma mask_or_map {A} (p q : A -> bool) (l : list A) :
  Jobs.mask_or (map p l) (map q l) = map (fun x => p x || q x) l.
Proof.
  unfold Jobs.mask_or. induction l as [|x l IH]; [reflexivity|].
  cbn [map zip_with]. rewrite IH. reflexivity.
Qed.

Lemma filter_filter_and {A} (p q : A -> bool) (l : list A) :
  List.filter p (List.filter q l) = List.filter (fun x => q x && p x) l.
Proof.
  induction l as [|x l IH]; [reflexivity|].
  cbn [List.filter]. destruct (q x); cbn [List.filter andb]; [|exact IH].
  destruct (p x); rewrite IH; reflexivity.
Qed.

Lemma filter_true {A} (l : list A) : List.filter (fun _ => true) l = l.
Proof. induction l as [|x l IH]; [reflexivity|]. cbn. rewrite IH. reflexivity. Qed.

Lemma listing_with_avg_salary (l : list Jobs.JobRow) :
  map listing (map Jobs.with_avg_salary l) = map listing l.
Proof. rewrite map_map. reflexivity. Qed.

Section Listing.

Variable regex_search : string -> option (string -> bool).
Variable sort_values : Jobs.SortKey -> bool -> list Jobs.JobRow -> list Jobs.JobRow.

(** X10.  Without filters ([None] or the empty dictionary) [get_jobs]
    returns normally exactly when every [salary_range] of the table is a
    string with a digit run, and then lists every job of the table once, in
    table order.  Each listed row has a first and a last digit run in its
    salary range; when the number one of them writes is at most 2^53, which
    [float] converts exactly, that number is the [salary_min], respectively
    the [salary_max], of the row. *)
Theorem get_jobs_returns_iff_salaries_have_digits (jobs_df : list Jobs.Job) :
  ((forall j, j ∈ jobs_df -> has_digit_run (Jobs.salary_range j))
   <-> exists df, Jobs.get_jobs regex_search sort_values jobs_df None = inr df)
  /\ Jobs.get_jobs regex_search sort_values jobs_df (Some empty_filters)
     = Jobs.get_jobs regex_search sort_values jobs_df None
  /\ forall df,
       Jobs.get_jobs regex_search sort_values jobs_df None = inr df ->
       map Jobs.job df = jobs_df
       /\ Forall (fun r =>
                    exists text first_run last_run,
                      Jobs.salary_range (Jobs.job r) = Jobs.Str text
                      /\ head (Text.findall_digits text) = Some first_run
                      /\ last (Text.findall_digits text) = Some last_run
                      /\ ((Text.digits_value first_run <= 2 ^ 53)%N ->
                          Jobs.salary_min r = Text.digits_value first_run)
                      /\ ((Text.digits_value last_run <= 2 ^ 53)%N ->
                          Jobs.salary_max r = Text.digits_value last_run)
                      /\ Jobs.avg_salary r = None) df.
Proof.
  split; [split|split].
  - intros Hall. unfold Jobs.get_jobs, Jobs.add_salary_columns.
    destruct (apply_returns Jobs.first_digit_run (map Jobs.salary_range jobs_df))
      as [mins ->].
    { intros c Hc. apply list_elem_of_fmap in Hc as (j & -> & Hj).
      apply first_digit_run_ok, Hall, Hj. }
    destruct (apply_returns Jobs.last_digit_run (map Jobs.salary_range jobs_df))
      as [maxs ->].
    { intros c Hc. apply list_elem_of_fmap in Hc as (j & -> & Hj).
      apply last_digit_run_ok, Hall, Hj. }
    eauto.
  - intros [df Hdf] j Hj. unfold Jobs.get_jobs in Hdf.
    destruct (Jobs.add_salary_columns jobs_df) as [e|rows] eqn:Hrows; [discriminate|].
    apply add_salary_columns_rows in Hrows as [Hjobs Hcolumns].
    rewrite <- Hjobs in Hj. apply list_elem_of_fmap in Hj as (r & -> & Hr).
    rewrite Forall_forall in Hcolumns. destruct (Hcolumns r Hr) as (Hfirst & _).
    apply first_digit_run_ok. eauto.
  - unfold Jobs.get_jobs. destruct (Jobs.add_salary_columns jobs_df); reflexivity.
  - intros df Hdf. unfold Jobs.get_jobs in Hdf.
    destruct (Jobs.add_salary_columns jobs_df) as [e|rows] eqn:Hrows; [discriminate|].
    injection Hdf as <-. apply add_salary_columns_rows in Hrows as [Hjobs Hcolumns].
    split; [exact Hjobs|].
    eapply Forall_impl; [exact Hcolumns|].
    intros r (Hfirst & Hlast & Havg).
    destruct (Jobs.salary_range (Jobs.job r)) as [text|]; [|discriminate].
    cbn in Hfirst, Hlast.
    destruct (Text.findall_digits text) as [|first_run runs] eqn:Hruns; [discriminate|].
    destruct (last (first_run :: runs)) as [last_run|] eqn:Hlast_run; [|discriminate].
    exists text, first_run, last_run.
    injection Hfirst as Hfirst. injection Hlast as Hlast.
    rewrite Hruns. repeat split; auto.
Qed.

Hypothesis sort_values_permutes : forall key ascending l, sort_values key ascending l ≡ₚ l.

(** X11.  [apply_filters], the part of [get_jobs] that runs under a
    non-empty [filters] dictionary.  With a search text it raises
    [AttributeError] when the title, company or skills column has rows and a
    string in none of them, and [re.error] when the lower-cased text is not a
    regular expression (the title column is looked at first).  Otherwise it
    returns, and for salary figures and bounds that [float64] holds exactly
    the listing is, up to the order chosen by the sort, exactly the rows that
    meet the filter conditions, each once: the search pattern found in the
    lower-cased title, company or skills (a missing value counts as not
    found), type and location among the chosen ones, and both salary bounds
    inside the salary range.  When [filters] has no salary range the range 0
    to 100 is applied. *)
Theorem apply_filters_lists_the_passing_rows (filters : Jobs.Filters)
    (df : list Jobs.JobRow) :
  let query := Text.lower (default "" (Jobs.search_query filters)) in
  let column (field : Jobs.Job -> Jobs.Cell) := map (fun r => field (Jobs.job r)) df in
  let result := Jobs.apply_filters regex_search sort_values filters df in
  (query <> "" ->
   (~ text_column (column Jobs.title) -> result = inl Jobs.AttributeError)
   /\ (text_column (column Jobs.title) -> regex_search query = None ->
       result = inl Jobs.ReError)
   /\ (text_column (column Jobs.title) -> regex_search query <> None ->
       ~ (text_column (column Jobs.company) /\ text_column (column Jobs.skills)) ->
       result = inl Jobs.AttributeError))
  /\ (forall search,
        query = ""
        \/ (regex_search query = Some search
            /\ text_column (column Jobs.title)
            /\ text_column (column Jobs.company)
            /\ text_column (column Jobs.skills)) ->
        exists listed,
          result = inr listed
          /\ (salaries_exact filters df ->
              map listing listed
              ≡ₚ map listing (List.filter (passes_filters search filters) df))).
Proof.
  intros query column result.
  assert (Hrest : forall search by_search,
    by_search
    = List.filter
        (fun r => String.eqb query ""
                  || Jobs.cell_contains search (Jobs.title (Jobs.job r))
                  || Jobs.cell_contains search (Jobs.company (Jobs.job r))
                  || Jobs.cell_contains search (Jobs.skills (Jobs.job r))) df ->
    exists listed,
      (let job_types := default [] (Jobs.job_types filters) in
       let df0 :=
         match job_types with
         | [] => by_search
         | _ => List.filter (fun r => Jobs.cell_isin (Jobs.job_type (Jobs.job r)) job_types)
                            by_search
         end in
       let locations := default [] (Jobs.locations filters) in
       let df1 :=
         match locations with
         | [] => df0
         | _ => List.filter (fun r => Jobs.cell_isin (Jobs.location (Jobs.job r)) locations)
                            df0
         end in
       let '(salary_min_filter, salary_max_filter) :=
         default (0, 100)%Z (Jobs.salary_range_filter filters) in
       let df2 :=
         List.filter (fun r => (salary_min_filter <=? Z.of_N (Jobs.salary_min r))%Z
                               && (Z.of_N (Jobs.salary_max r) <=? salary_max_filter)%Z) df1 in
       let sort_by := default "Most Recent" (Jobs.sort_by filters) in
       if String.eqb sort_by "Most Recent"
       then inr (sort_values Jobs.by_posted_date false df2)
       else if String.eqb sort_by "Salary (High to Low)"
       then inr (sort_values Jobs.by_avg_salary false (map Jobs.with_avg_salary df2))
       else if String.eqb sort_by "Salary (Low to High)"
       then inr (sort_values Jobs.by_avg_salary true (map Jobs.with_avg_salary df2))
       else inr df2) = (inr listed : Jobs.Exception + list Jobs.JobRow)
      /\ map listing listed
         ≡ₚ map listing (List.filter (passes_filters search filters) df)).
  { intros search by_search ->. cbv zeta.
    set (types := default [] (Jobs.job_types filters)).
    set (places := default [] (Jobs.locations filters)).
    destruct (default (0, 100)%Z (Jobs.salary_range_filter filters)) as [lo hi] eqn:Hrange.
    set (by_search := List.filter _ df).
    set (by_type := match types with [] => by_search | _ => List.filter _ by_search end).
    set (by_place := match places with [] => by_type | _ => List.filter _ by_type end).
    set (by_salary := List.filter _ by_place).
    assert (Hkept : by_salary = List.filter (passes_filters search filters) df).
    { subst by_salary by_place by_type by_search.
      assert (Htype : forall l,
        match types with
        | [] => l
        | _ => List.filter (fun r => Jobs.cell_isin (Jobs.job_type (Jobs.job r)) types) l
        end
        = List.filter (fun r => match types with
                                | [] => true
                                | _ => Jobs.cell_isin (Jobs.job_type (Jobs.job r)) types
                                end) l).
      { intros l. destruct types; [symmetry; apply filter_true|reflexivity]. }
      rewrite Htype.
      assert (Hplace : forall l,
        match places with
        | [] => l
        | _ => List.filter (fun r => Jobs.cell_isin (Jobs.location (Jobs.job r)) places) l
        end
        = List.filter (fun r => match places with
                                | [] => true
                                | _ => Jobs.cell_isin (Jobs.location (Jobs.job r)) places
                                end) l).
      { intros l. destruct places; [symmetry; apply filter_true|reflexivity]. }
      rewrite Hplace, !filter_filter_and.
      apply List.filter_ext. intros r. unfold passes_filters.
      fold query types places. rewrite Hrange. cbn [fst snd].
      rewrite <- !andb_assoc. reflexivity. }
    rewrite <- Hkept.
    repeat match goal with |- context [if ?b then _ else _] => destruct b end;
      eexists; (split; [reflexivity|]);
      rewrite ?sort_values_permutes, ?listing_with_avg_salary; reflexivity. }
  split.
  - intros Hquery.
    assert (Hneq : String.eqb query "" = false) by (apply String.eqb_neq, Hquery).
    subst result. unfold Jobs.apply_filters. fold query. rewrite Hneq.
    fold (column Jobs.title) (column Jobs.company) (column Jobs.skills).
    unfold Jobs.str_lower_contains.
    split; [|split].
    + intros Htitle. rewrite (str_accessor_other_column _ Htitle). reflexivity.
    + intros Htitle Hpattern. rewrite (str_accessor_text_column _ Htitle), Hpattern.
      reflexivity.
    + intros Htitle Hpattern Hother.
      rewrite (str_accessor_text_column _ Htitle).
      destruct (regex_search query) as [search|]; [|congruence].
      destruct (Jobs.str_accessor (column Jobs.company)) as [e|cells] eqn:Hcompany.
      * destruct (column Jobs.company) as [|c cs]; [discriminate|].
        cbn in Hcompany. destruct (Jobs.is_str c || existsb Jobs.is_str cs);
          [discriminate|]. injection Hcompany as <-. reflexivity.
      * destruct (Jobs.str_accessor (column Jobs.skills)) as [e|cells'] eqn:Hskills.
        -- destruct (column Jobs.skills) as [|c cs]; [discriminate|].
           cbn in Hskills. destruct (Jobs.is_str c || existsb Jobs.is_str cs);
             [discriminate|]. injection Hskills as <-. reflexivity.
        -- exfalso. apply Hother. split.
           ++ destruct (text_column_dec (column Jobs.company)) as [H|H]; [exact H|].
              rewrite (str_accessor_other_column _ H) in Hcompany. discriminate.
           ++ destruct (text_column_dec (column Jobs.skills)) as [H|H]; [exact H|].
              rewrite (str_accessor_other_column _ H) in Hskills. discriminate.
  - intros search Hcase.
    destruct (Hrest search _ eq_refl) as (listed & Hlisted & Hperm).
    exists listed. split; [|intros _; exact Hperm].
    subst result. unfold Jobs.apply_filters. fold query.
    destruct Hcase as [Hempty|(Hpattern & Htitle & Hcompany & Hskills)].
    + rewrite Hempty in Hlisted |- *. cbn [String.eqb orb] in Hlisted |- *.
      rewrite filter_true in Hlisted. exact Hlisted.
    + destruct (String.eqb query "") eqn:Hq.
      * cbn [orb] in Hlisted. rewrite filter_true in Hlisted. exact Hlisted.
      * cbn [orb] in Hlisted.
        fold (column Jobs.title) (column Jobs.company) (column Jobs.skills).
        unfold Jobs.str_lower_contains.
        rewrite (str_accessor_text_column _ Htitle), (str_accessor_text_column _ Hcompany),
          (str_accessor_text_column _ Hskills), Hpattern.
        subst column. cbv beta.
        rewrite !map_map, !mask_or_map, select_mask. exact Hlisted.
Qed.

End Listing.

Lemma apply_filters_lists_the_passing_rows_witness :
  exists listed,
    Jobs.apply_filters literal_search (fun _ _ l => l) (search_filters "Atlas") search_rows
    = inr listed
    /\ map listing listed
       ≡ₚ map listing
            (List.filter (passes_filters (Text.contains "atlas") (search_filters "Atlas"))
                         search_rows).
Proof.
  assert (Hsort : forall (key : Jobs.SortKey) (ascending : bool) (l : list Jobs.JobRow),
             l ≡ₚ l) by reflexivity.
  assert (Hexact : salaries_exact (search_filters "Atlas") search_rows).
  { split; [vm_compute; discriminate|]. split; [vm_compute; discriminate|].
    intros r Hr. unfold search_rows in Hr.
    rewrite !elem_of_cons, elem_of_nil in Hr.
    destruct Hr as [->|[->|[->|[]]]]; split; vm_compute; discriminate. }
  destruct (proj2 (apply_filters_lists_the_passing_rows literal_search (fun _ _ l => l)
                     Hsort (search_filters "Atlas") search_rows)
              (Text.contains "atlas"))
    as (listed & Hlisted & Hperm).
  { right. split; [reflexivity|].
    repeat split; right; eexists; apply list_elem_of_here. }
  exists listed. split; [exact Hlisted|exact (Hperm Hexact)].
Defined.

Example search_lists_the_matching_row_in_range :
  Jobs.apply_filters literal_search (fun _ _ l => l) (search_filters "Atlas") search_rows
  = inr (take 1 search_rows).
Proof. reflexivity. Qed.

Example search_on_a_table_without_any_company_raises :
  Jobs.apply_filters literal_search (fun _ _ l => l) (search_filters "Atlas")
    (drop 2 search_rows)
  = inl Jobs.AttributeError
  /\ exists listed,
       Jobs.apply_filters literal_search (fun _ _ l => l) (search_filters "")
         (drop 2 search_rows)
       = inr listed.
Proof. split; [reflexivity|eexists; reflexivity]. Qed.

Example search_text_that_is_no_pattern_raises :
  Jobs.apply_filters literal_search_or_error (fun _ _ l => l) (search_filters "(Remote")
    search_rows
  = inl Jobs.ReError.
Proof. reflexivity. Qed.

Example salary_above_default_range_is_not_listed :
  Jobs.apply_filters literal_search (fun _ _ l => l) salary_sort_only sample_rows
  = inr (map Jobs.with_avg_salary (take 1 sample_rows)).
Proof. reflexivity. Qed.

Example unread_key_applies_the_default_range :
  match Jobs.get_jobs literal_search (fun _ _ l => l)
          [sample_job "1" "10-15 LPA"; sample_job "3" "80-120 LPA"]
          (Some unknown_key_only) with
  | inr df => Some (map (fun r => Jobs.id (Jobs.job r)) df)
  | inl _ => None
  end = Some [Jobs.Str "1"].
Proof. reflexivity. Qed.

Lemma length_filter_le {A} (p : A -> bool) (l : list A) :
  length (List.filter p l) <= length l.
Proof. apply List.filter_length_le. Qed.

Lemma length_cell_strings (cs : list Jobs.Cell) : length (Jobs.cell_strings cs) <= length cs.
Proof.
  induction cs as [|[s|] cs IH]; cbn; [lia| |]; unfold Jobs.cell_strings in IH; lia.
Qed.

Lemma length_remove_dups_le (l : list string) : length (remove_dups l) <= length l.
Proof.
  induction l as [|x l IH]; cbn; [lia|].
  destruct (decide_rel elem_of x l); cbn; lia.
Qed.

Section Statistics.

Variable parse_datetime : string -> option Z.

(** X12.  When [get_job_statistics] returns its dictionary, [active_jobs]
    is the number of rows of the file, the count of distinct companies and
    the count of jobs of the last seven days are at most that number, and the
    average salary is missing exactly when the file has no rows.  The empty
    dictionary is returned only when the file does not exist. *)
Theorem job_statistics_counts (jobs_df : list Jobs.Job) (now : Z)
    (stats : option Jobs.Statistics) :
  Jobs.get_job_statistics parse_datetime (Some jobs_df) now = inr stats ->
  exists st,
    stats = Some st
    /\ Jobs.active_jobs st = length jobs_df
    /\ Jobs.companies st <= length jobs_df
    /\ Jobs.recent_jobs st <= length jobs_df
    /\ (Jobs.salary_avg st = None <-> jobs_df = []).
Proof.
  unfold Jobs.get_job_statistics.
  destruct (Jobs.apply (Jobs.to_datetime parse_datetime) (map Jobs.posted_date jobs_df))
    as [e|dates] eqn:Hdates; [discriminate|].
  destruct (Jobs.add_salary_columns jobs_df) as [e|df] eqn:Hdf; [discriminate|].
  intros [= <-]. eexists. split; [reflexivity|].
  apply add_salary_columns_rows in Hdf as [Hjobs _].
  assert (Hlen : length df = length jobs_df) by (rewrite <- Hjobs, length_map; reflexivity).
  apply apply_returns_inv, Forall2_length in Hdates. rewrite length_map in Hdates.
  cbn [Jobs.active_jobs Jobs.companies Jobs.recent_jobs Jobs.salary_avg].
  split; [exact Hlen|]. split; [|split].
  - etransitivity; [apply length_remove_dups_le|].
    etransitivity; [apply length_cell_strings|]. rewrite length_map. lia.
  - etransitivity; [apply length_filter_le|]. lia.
  - unfold Jobs.mean. destruct df as [|r df]; cbn [map].
    + split; [intros _|reflexivity]. destruct jobs_df; [reflexivity|discriminate].
    + split; [discriminate|]. intros ->. discriminate.
Qed.

End Statistics.

Lemma job_statistics_counts_witness :
  exists st,
    Jobs.get_job_statistics (fun _ => Some 0%Z)
      (Some [sample_job "1" "10-15 LPA"; sample_job "3" "8-12 LPA"]) 0
    = inr (Some st)
    /\ Jobs.active_jobs st = 2 /\ Jobs.companies st <= 2.
Proof.
  destruct (job_statistics_counts (fun _ => Some 0%Z)
              [sample_job "1" "10-15 LPA"; sample_job "3" "8-12 LPA"] 0 _ eq_refl)
    as (st & Hst & Hactive & Hcompanies & _).
  exists st. split; [rewrite <- Hst; reflexivity|].
  split; [exact Hactive|exact Hcompanies].
Defined.

(** ** Job lookup *)

(** X13.  [get_job_by_id] returns the first row of the table whose [id] is
    the requested one, also when several rows carry it, and [None] exactly
    when no row does; a row without an [id] is never returned. *)
Theorem get_job_by_id_finds_first (jobs_df : list Jobs.Job) (job_id : string) :
  (JobLookup.get_job_by_id jobs_df job_id = None
   <-> forall j, j ∈ jobs_df -> Jobs.id j <> Jobs.Str job_id)
  /\ forall job,
       JobLookup.get_job_by_id jobs_df job_id = Some job ->
       Jobs.id job = Jobs.Str job_id
       /\ exists pre post,
            jobs_df = pre ++ job :: post
            /\ forall j, j ∈ pre -> Jobs.id j <> Jobs.Str job_id.
Proof.
  assert (Hid : forall j, JobLookup.id_is job_id j = true <-> Jobs.id j = Jobs.Str job_id).
  { intros j. unfold JobLookup.id_is. destruct (Jobs.id j) as [s|].
    - rewrite String.eqb_eq. split; congruence.
    - split; discriminate. }
  unfold JobLookup.get_job_by_id. split; [split|].
  - destruct (List.filter _ jobs_df) as [|job rest] eqn:Hfilter; [|discriminate].
    intros _ j Hj Hmatch. apply Hid in Hmatch.
    assert (Hin : In j (List.filter (JobLookup.id_is job_id) jobs_df))
      by (apply List.filter_In; split; [apply list_elem_of_In, Hj|exact Hmatch]).
    rewrite Hfilter in Hin. inversion Hin.
  - intros Hnone. rewrite filter_no_match; [reflexivity|].
    intros j Hj. destruct (JobLookup.id_is job_id j) eqn:Hmatch; [|reflexivity].
    apply Hid in Hmatch. destruct (Hnone j Hj Hmatch).
  - intros job. destruct (List.filter _ jobs_df) as [|first rest] eqn:Hfilter; [discriminate|].
    intros [= ->].
    apply filter_head_split in Hfilter as (pre & post & -> & Hpre & Hjob).
    split; [apply Hid, Hjob|]. exists pre, post. split; [reflexivity|].
    intros j Hj Hmatch. apply Hid in Hmatch. rewrite (Hpre j Hj) in Hmatch. discriminate.
Qed.

(** * Further properties of the chatbots *)

(** ** The formatted context of the StudBud memory *)

Lemma append_nonempty (a b : string) : a <> "" -> a +:+ b <> "".
Proof. destruct a as [|c a]; [congruence|]. intros _. discriminate. Qed.

Lemma append_assoc_str (a b c : string) : (a +:+ b) +:+ c = a +:+ (b +:+ c).
Proof.
  induction a as [|x a IH]; [reflexivity|].
  change (String x ((a +:+ b) +:+ c) = String x (a +:+ (b +:+ c))).
  rewrite IH. reflexivity.
Qed.

Lemma append_empty_r (a : string) : a +:+ "" = a.
Proof.
  induction a as [|x a IH]; [reflexivity|].
  change (String x (a +:+ "") = String x a). rewrite IH. reflexivity.
Qed.

Lemma join_nonempty sep x rest : x <> "" -> Text.join sep (x :: rest) <> "".
Proof.
  intros Hx. destruct rest as [|y rest]; [exact Hx|].
  cbn [Text.join]. apply append_nonempty, Hx.
Qed.

Section FormattedContext.

Variable set_order : gset string -> list string.

(** X14.  [get_formatted_context] gives the empty string exactly when the
    memory holds nothing to report: no current focus, no topic, no skill, no
    company and no message.  As soon as one message is stored the context is
    not empty. *)
Theorem formatted_context_empty_iff_nothing_recorded (self : StudBud.ConversationMemory) :
  StudBud.get_formatted_context set_order self = ""
  <-> StudBud.truthy (StudBud.current_focus (StudBud.conversation_context self)) = false
      /\ StudBud.topics (StudBud.conversation_context self) = ∅
      /\ StudBud.skills_mentioned (StudBud.conversation_context self) = ∅
      /\ StudBud.companies_mentioned (StudBud.conversation_context self) = ∅
      /\ StudBud.messages self = [].
Proof.
  unfold StudBud.get_formatted_context. cbv zeta.
  destruct (StudBud.current_focus (StudBud.conversation_context self)) as [f|];
    [destruct (StudBud.truthy (Some f)) eqn:Hfocus|];
    destruct (bool_decide_reflect (StudBud.topics (StudBud.conversation_context self) = ∅));
    destruct (bool_decide_reflect
                (StudBud.skills_mentioned (StudBud.conversation_context self) = ∅));
    destruct (bool_decide_reflect
                (StudBud.companies_mentioned (StudBud.conversation_context self) = ∅));
    destruct (StudBud.messages self) as [|m ms];
    cbn [app];
    (split;
     [intros Hempty; try (repeat split; (assumption || reflexivity));
      exfalso; revert Hempty; apply join_nonempty; discriminate
     |intros (H1 & H2 & H3 & H4 & H5); try reflexivity; congruence]).
Qed.

End FormattedContext.

(** ** The focus and the format instructions *)

Lemma scan_focus_values table content_lower focus :
  StudBud.scan_focus table content_lower focus = focus
  \/ StudBud.scan_focus table content_lower focus
     ∈ map (fun entry => Some entry.1) table.
Proof.
  induction table as [|[label indicators] table IH]; cbn [StudBud.scan_focus]; [left; reflexivity|].
  destruct (Text.any_in indicators content_lower).
  - right. apply list_elem_of_here.
  - destruct IH as [IH|IH]; [left; exact IH|right; apply list_elem_of_further, IH].
Qed.

Lemma add_message_focus_values m message :
  StudBud.current_focus (StudBud.conversation_context m) ∈ focus_values ->
  StudBud.current_focus (StudBud.conversation_context (StudBud.add_message m message))
  ∈ focus_values.
Proof.
  intros Hfocus. unfold StudBud.add_message. cbn [StudBud.conversation_context].
  destruct (StudBud.is_TEXT (StudBud.type message)); [|exact Hfocus].
  unfold StudBud._update_context. cbn [StudBud.current_focus].
  destruct (scan_focus_values StudBud.focus_indicators
              (Text.lower (StudBud.content message))
              (StudBud.current_focus (StudBud.conversation_context m))) as [->| Hlabel].
  - exact Hfocus.
  - apply list_elem_of_further, Hlabel.
Qed.

(** X15.  Whatever messages are added to a new memory, [current_focus] is
    absent or one of technical, conceptual, practical, career; it is never
    [interview].  So the interview branch of [_get_format_instructions] is
    never taken: the instructions never contain its line on the interview
    format. *)
Theorem focus_is_never_interview (cap : Z) (ms : list StudBud.Message) :
  let m := StudBud.add_messages (StudBud.new_memory cap) ms in
  StudBud.current_focus (StudBud.conversation_context m)
  ∈ [None; Some "technical"; Some "conceptual"; Some "practical"; Some "career"]
  /\ Text.contains "- Structure response in interview format"
       (StudBud._get_format_instructions m) = false.
Proof.
  intros m.
  assert (Hfocus : StudBud.current_focus (StudBud.conversation_context m) ∈ focus_values).
  { subst m. induction ms as [|x ms IH] using rev_ind.
    - apply list_elem_of_here.
    - rewrite studbud_add_messages_snoc. apply add_message_focus_values, IH. }
  split; [exact Hfocus|].
  unfold StudBud._get_format_instructions. cbv zeta.
  unfold focus_values in Hfocus. cbn [map StudBud.focus_indicators fst] in Hfocus.
  rewrite !elem_of_cons, elem_of_nil in Hfocus.
  destruct Hfocus as [->|[->|[->|[->|[->|[]]]]]]; vm_compute; reflexivity.
Qed.

(** ** A reply that arrives in full *)

Lemma elem_of_length_pos {A} (x : A) (l : list A) : x ∈ l -> 1 <= length l.
Proof. destruct 1; cbn; lia. Qed.

Lemma delivered_cons chunk rest :
  delivered (chunk :: rest)
  = match chunk with
    | Some content =>
        if String.eqb content "" then delivered rest else content :: delivered rest
    | None => delivered rest
    end.
Proof.
  destruct chunk as [content|]; [|reflexivity].
  unfold delivered. cbn. destruct (String.eqb content ""); reflexivity.
Qed.

Section Delivery.

Variable clock : nat -> string.

Lemma studbud_consume_chunks_delivers chunks reads current :
  exists fragments,
    StudBud.consume_chunks clock chunks reads current
    = (map StudBud.YieldMessage fragments,
       current +:+ concat_all (delivered chunks),
       reads + length (delivered chunks))
    /\ map StudBud.content fragments = delivered chunks
    /\ Forall (fun m => StudBud.type m = StudBud.TEXT /\ StudBud.sender m = "bot") fragments.
Proof.
  revert reads current. induction chunks as [|chunk rest IH]; intros reads current.
  - exists []. cbn. rewrite append_empty_r, Nat.add_0_r. repeat split. constructor.
  - cbn [StudBud.consume_chunks]. rewrite delivered_cons.
    destruct chunk as [content|]; cbn [StudBud.truthy];
      [destruct (String.eqb content "") eqn:Hcontent; cbn [negb]|].
    + apply IH.
    + change (default "" (Some content)) with content.
      destruct (IH (S reads) (current +:+ content)) as (fragments & -> & Hcontents & Htext).
      eexists (_ :: fragments). cbn [map length concat_all fold_right].
      split; [|split].
      * f_equal; [f_equal|lia]. apply append_assoc_str.
      * cbn [StudBud.content]. f_equal. exact Hcontents.
      * constructor; [split; reflexivity|exact Htext].
    + apply IH.
Qed.

Lemma college_consume_chunks_delivers {Tensor : Type} chunks reads current :
  exists fragments : list (@College.Message Tensor),
    College.consume_chunks clock chunks reads current
    = (fragments, current +:+ concat_all (delivered chunks),
       reads + length (delivered chunks))
    /\ map College.content fragments = delivered chunks
    /\ Forall (fun m => College.type m = College.TEXT /\ College.sender m = "bot") fragments.
Proof.
  revert reads current. induction chunks as [|chunk rest IH]; intros reads current.
  - exists []. cbn. rewrite append_empty_r, Nat.add_0_r. repeat split. constructor.
  - cbn [College.consume_chunks]. rewrite delivered_cons.
    destruct chunk as [content|];
      [destruct (String.eqb content "") eqn:Hcontent|].
    + apply IH.
    + destruct (IH (S reads) (current +:+ content)) as (fragments & -> & Hcontents & Htext).
      eexists (_ :: fragments). cbn [map length concat_all fold_right].
      split; [|split].
      * f_equal; [f_equal|lia]. apply append_assoc_str.
      * cbn [College.content]. f_equal. exact Hcontents.
      * constructor; [split; reflexivity|exact Htext].
    + apply IH.
Qed.

(** X16.  When the StudBud model call streams its reply to the end,
    [get_response] yields one text message per chunk that carries a non-empty
    text, in order and with that text, followed by at most one suggestion
    message, which is never empty.  The memory receives the query as a user
    message and then one bot message whose content is the yielded texts put
    together; one request was sent. *)
Theorem studbud_reply_is_streamed_and_remembered
    (set_order : gset string -> list string) (random_order : list string -> list string)
    (system_prompt : string) (client_chat : Ollama.ChatClient)
    (self : StudBud.PlacementChatbot) (query : string) (response : Ollama.Stream) :
  let request :=
    StudBud.chat_request
      (StudBud.prepare_response_prompt set_order system_prompt (StudBud.memory self) query)
      query in
  client_chat (StudBud.client_log self) request = Ollama.ChatStreams response ->
  Ollama.failure response = None ->
  let run := StudBud.get_response set_order random_order system_prompt client_chat clock
               self query in
  exists fragments bot_metadata suggestions,
    run.1 = map StudBud.YieldMessage fragments ++ suggestions
    /\ map StudBud.content fragments = delivered (Ollama.chunks response)
    /\ Forall (fun m => StudBud.type m = StudBud.TEXT /\ StudBud.sender m = "bot") fragments
    /\ (suggestions = []
        \/ exists items, items <> [] /\ suggestions = [StudBud.YieldSuggestions items])
    /\ StudBud.memory run.2
       = StudBud.add_message
           (StudBud.add_message (StudBud.memory self)
              {| StudBud.content := query; StudBud.type := StudBud.TEXT;
                 StudBud.metadata := None; StudBud.sender := "user" |})
           {| StudBud.content := concat_all (delivered (Ollama.chunks response));
              StudBud.type := StudBud.TEXT; StudBud.metadata := Some bot_metadata;
              StudBud.sender := "bot" |}
    /\ StudBud.client_log run.2 = StudBud.client_log self ++ [request].
Proof.
  intros request Hreply Hend run. subst run. unfold StudBud.get_response.
  fold request. rewrite Hreply.
  destruct (studbud_consume_chunks_delivers (Ollama.chunks response) 0 EmptyString)
    as (fragments & -> & Hcontents & Htext).
  rewrite Hend. cbn [fst snd StudBud.memory StudBud.client_log].
  change ("" +:+ concat_all (delivered (Ollama.chunks response)))
    with (concat_all (delivered (Ollama.chunks response))).
  eexists fragments, _, _. split; [reflexivity|].
  split; [exact Hcontents|]. split; [exact Htext|]. split; [|split; reflexivity].
  destruct (StudBud._generate_suggestions _ _ _ _ _) as [|item items];
    [left; reflexivity|right]. eexists. split; [|reflexivity]. discriminate.
Qed.

End Delivery.

Lemma studbud_reply_is_streamed_and_remembered_witness :
  let client : Ollama.ChatClient :=
    fun _ _ => Ollama.ChatStreams
                 {| Ollama.chunks := [Some "Hel"; None; Some ""; Some "lo"];
                    Ollama.failure := None |} in
  let self := {| StudBud.memory := StudBud.new_memory 50; StudBud.client_log := [] |} in
  exists fragments,
    map StudBud.content fragments = ["Hel"; "lo"]
    /\ exists suggestions,
         (StudBud.get_response elements id "You are an assistant." client
            (fun _ => "2024-01-01T00:00:00") self "hello").1
         = map StudBud.YieldMessage fragments ++ suggestions.
Proof.
  intros client self.
  destruct (studbud_reply_is_streamed_and_remembered (fun _ => "2024-01-01T00:00:00")
              elements id "You are an assistant." client self "hello"
              {| Ollama.chunks := [Some "Hel"; None; Some ""; Some "lo"];
                 Ollama.failure := None |} eq_refl eq_refl)
    as (fragments & _ & suggestions & Hrun & Hcontents & _).
  exists fragments. split; [exact Hcontents|]. exists suggestions. exact Hrun.
Defined.

(** ** When suggestions are offered *)

Section SuggestionsOffered.

Variable set_order : gset string -> list string.
Hypothesis set_order_elements : forall s : gset string, set_order s ≡ₚ elements s.

Lemma set_order_nil_empty (s : gset string) : set_order s = [] -> s = ∅.
Proof.
  intros Hnil. apply leibniz_equiv, elements_empty_inv.
  apply Permutation_nil_r. rewrite <- Hnil. symmetry. apply set_order_elements.
Qed.

Lemma set_order_of_list_nonempty (x : string) (l : list string) :
  1 <= length (set_order (list_to_set (x :: l))).
Proof.
  apply (elem_of_length_pos x), (set_order_elem_of set_order set_order_elements).
  apply elem_of_list_to_set, list_elem_of_here.
Qed.

Lemma studbud_candidates_nil_iff (ctx : StudBud.ConversationContext) :
  StudBud.suggestion_candidates set_order ctx = []
  <-> ("technical" ∉ StudBud.topics ctx)
      /\ ("interview" ∉ StudBud.topics ctx)
      /\ ("career" ∉ StudBud.topics ctx)
      /\ StudBud.companies_mentioned ctx = ∅
      /\ StudBud.skills_mentioned ctx = ∅.
Proof.
  unfold StudBud.suggestion_candidates. cbv zeta.
  destruct (bool_decide_reflect ("technical" ∈ StudBud.topics ctx));
    destruct (bool_decide_reflect ("interview" ∈ StudBud.topics ctx));
    destruct (bool_decide_reflect ("career" ∈ StudBud.topics ctx));
    destruct (bool_decide_reflect (StudBud.companies_mentioned ctx = ∅)) as [Hc|Hc];
    destruct (bool_decide_reflect (StudBud.skills_mentioned ctx = ∅)) as [Hs|Hs];
    try (destruct (set_order (StudBud.companies_mentioned ctx)) as [|? ?] eqn:Hco;
         [apply set_order_nil_empty in Hco; contradiction|]);
    try (destruct (set_order (StudBud.skills_mentioned ctx)) as [|? ?] eqn:Hso;
         [apply set_order_nil_empty in Hso; contradiction|]);
    (split; [intros Hnil; try discriminate Hnil; repeat split; assumption
            |intros (H1 & H2 & H3 & H4 & H5); try reflexivity; contradiction]).
Qed.

Section Ordering.

Variable random_order : list string -> list string.
Hypothesis random_order_permutes : forall l, random_order l ≡ₚ l.

(** X17.  The StudBud chatbot offers no suggestions exactly when its context
    has none of the topics technical, interview and career and no company and
    no skill was mentioned; the topics skills, companies and placement alone
    produce none. *)
Theorem studbud_no_suggestions_iff (self : StudBud.ConversationMemory)
    (query response : string) :
  StudBud._generate_suggestions set_order random_order self query response = []
  <-> ("technical" ∉ StudBud.topics (StudBud.conversation_context self))
      /\ ("interview" ∉ StudBud.topics (StudBud.conversation_context self))
      /\ ("career" ∉ StudBud.topics (StudBud.conversation_context self))
      /\ StudBud.companies_mentioned (StudBud.conversation_context self) = ∅
      /\ StudBud.skills_mentioned (StudBud.conversation_context self) = ∅.
Proof.
  rewrite <- studbud_candidates_nil_iff. unfold StudBud._generate_suggestions.
  destruct (StudBud.suggestion_candidates set_order (StudBud.conversation_context self))
    as [|c cs]; [split; reflexivity|].
  split; [|discriminate]. intros Hnil. exfalso.
  pose proof (set_order_of_list_nonempty c cs) as Hlen.
  pose proof (Permutation_length
                (random_order_permutes (set_order (list_to_set (c :: cs))))) as Hperm.
  apply (f_equal length) in Hnil. rewrite length_take in Hnil.
  cbn [length] in Hnil. lia.
Qed.

End Ordering.

Section Sampling.

Context {Tensor : Type}.
Variable encode : string -> Tensor.
Variable topk_cos_sim : Tensor -> list Tensor -> nat -> list nat.
Variable random_sample : list string -> nat -> list string.
Hypothesis random_sample_picks :
  forall l k, k <= length l -> length (random_sample l k) = k /\ random_sample l k ⊆+ l.
Variable system_prompt : string.
Variable client_chat : Ollama.ChatClient.
Variable clock : nat -> string.

Lemma college_suggestions_count (self : @College.PlacementChatbot Tensor) query response :
  let suggestions :=
    College._generate_suggestions set_order random_sample self query response in
  1 <= length suggestions <= 3.
Proof.
  cbv zeta. unfold College._generate_suggestions.
  destruct (College.suggestion_candidates self response) as [|c cs] eqn:Hcands.
  - unfold College.suggestion_candidates in Hcands.
    apply app_eq_nil in Hcands as [_ Hstanding]. discriminate.
  - pose proof (set_order_of_list_nonempty c cs) as Hlen.
    destruct (random_sample_picks (set_order (list_to_set (c :: cs)))
                (Nat.min (length (set_order (list_to_set (c :: cs)))) 3)) as [-> _]; lia.
Qed.

(** X18.  On the general chat path of the College chatbot, when the model
    call streams its reply to the end, [get_response] yields one text message
    per chunk that carries a non-empty text, in order, and then always
    exactly one suggestion message, made of the suggestions that
    [_generate_suggestions] returns for the query and the whole reply, one to
    three of them, joined by line breaks.  The memory receives the query as a
    user message and one bot message whose content is the yielded texts put
    together; one request was sent. *)
Theorem college_reply_ends_with_suggestions (self : @College.PlacementChatbot Tensor)
    (query : string) (response : Ollama.Stream) :
  College.selects_flow self query = false ->
  let request :=
    College.chat_request
      (College.prepare_response_prompt encode topk_cos_sim system_prompt self query) query in
  client_chat (College.client_log self) request = Ollama.ChatStreams response ->
  Ollama.failure response = None ->
  let run := College.get_response encode topk_cos_sim set_order random_sample
               system_prompt client_chat clock self query in
  exists fragments suggestions bot_metadata,
    run.1 = fragments
            ++ [College.bot_message (Text.join College.nl suggestions) College.SUGGESTION]
    /\ map College.content fragments = delivered (Ollama.chunks response)
    /\ Forall (fun m => College.type m = College.TEXT /\ College.sender m = "bot") fragments
    /\ suggestions
       = College._generate_suggestions set_order random_sample run.2 query
           (concat_all (delivered (Ollama.chunks response)))
    /\ 1 <= length suggestions <= 3
    /\ College.memory run.2
       = College.add_message encode
           (College.add_message encode (College.memory self)
              {| College.content := query; College.type := College.TEXT;
                 College.metadata := None; College.sender := "user";
                 College.embedding := None |})
           {| College.content := concat_all (delivered (Ollama.chunks response));
              College.type := College.TEXT; College.metadata := Some bot_metadata;
              College.sender := "bot"; College.embedding := None |}
    /\ College.client_log run.2 = College.client_log self ++ [request].
Proof.
  intros Hchat request Hreply Hend run. subst run. unfold College.get_response.
  rewrite Hchat. cbn [College.set_memory College.client_log]. fold request.
  rewrite Hreply.
  destruct (@college_consume_chunks_delivers clock Tensor (Ollama.chunks response) 0
              EmptyString) as (fragments & -> & Hcontents & Htext).
  rewrite Hend.
  change ("" +:+ concat_all (delivered (Ollama.chunks response)))
    with (concat_all (delivered (Ollama.chunks response))).
  cbn [fst snd].
  match goal with
  | |- context [College._generate_suggestions set_order random_sample ?s ?q ?r] =>
      pose proof (college_suggestions_count s q r) as Hcount;
      cbv zeta in Hcount;
      destruct (College._generate_suggestions set_order random_sample s q r)
        as [|item items] eqn:Hsuggestions
  end; [cbn in Hcount; lia|].
  exists fragments, (item :: items). eexists.
  cbn [fst snd College.memory College.client_log College.log_request College.set_memory].
  split; [reflexivity|]. split; [exact Hcontents|]. split; [exact Htext|].
  split; [reflexivity|].
  split; [exact Hcount|]. split; reflexivity.
Qed.

End Sampling.

End SuggestionsOffered.

Lemma studbud_no_suggestions_iff_witness :
  StudBud._generate_suggestions elements reverse
    (StudBud.add_message (StudBud.new_memory 50)
       {| StudBud.content := "Any placement opportunity?"; StudBud.type := StudBud.TEXT;
          StudBud.metadata := None; StudBud.sender := "user" |}) "" ""
  = [].
Proof.
  apply (studbud_no_suggestions_iff elements (fun s => reflexivity _) reverse
           (fun l => reverse_Permutation l)).
  vm_compute. repeat split; set_solver.
Defined.

Lemma college_reply_ends_with_suggestions_witness :
  let client : Ollama.ChatClient :=
    fun _ _ => Ollama.ChatStreams
                 {| Ollama.chunks := [Some "Hel"; Some "lo"]; Ollama.failure := None |} in
  exists fragments suggestions,
    (College.get_response (Tensor := unit) (fun _ => tt) (fun _ _ _ => []) elements
       (fun l k => take k l) "You are an assistant." client
       (fun _ => "2024-01-01T00:00:00") College.new_chatbot "hello").1
    = fragments
      ++ [College.bot_message (Text.join College.nl suggestions) College.SUGGESTION]
    /\ 1 <= length suggestions <= 3.
Proof.
  intros client.
  assert (Hset : forall s : gset string, elements s ≡ₚ elements s) by reflexivity.
  assert (Hsample : forall (l : list string) k,
             k <= length l -> length (take k l) = k /\ take k l ⊆+ l).
  { intros l k Hk. split; [apply length_take_le, Hk|].
    apply sublist_submseteq, sublist_take. }
  destruct (college_reply_ends_with_suggestions elements Hset (fun _ : string => tt)
              (fun _ _ _ => []) (fun l k => take k l) Hsample "You are an assistant."
              client (fun _ => "2024-01-01T00:00:00") College.new_chatbot "hello"
              {| Ollama.chunks := [Some "Hel"; Some "lo"]; Ollama.failure := None |}
              eq_refl eq_refl eq_refl)
    as (fragments & suggestions & _ & Hrun & _ & _ & _ & Hcount & _).
  exists fragments, suggestions. split; [exact Hrun|exact Hcount].
Defined.

(** ** What a conversation through the College [get_response] never does *)

Section Conversation.

Context {Tensor : Type}.
Variable encode : string -> Tensor.
Variable topk_cos_sim : Tensor -> list Tensor -> nat -> list nat.
Variable set_order : gset string -> list string.
Variable random_sample : list string -> nat -> list string.
Variable system_prompt : string.
Variable client_chat : Ollama.ChatClient.
Variable clock : nat -> string.

Lemma college_get_response_step (self : @College.PlacementChatbot Tensor) (query : string) :
  let run := College.get_response encode topk_cos_sim set_order random_sample
               system_prompt client_chat clock self query in
  flow_state run.2 = flow_state self
  /\ Forall (fun m => College.type m = College.TEXT \/ College.type m = College.SUGGESTION
                      \/ College.type m = College.ERROR) run.1
  /\ exists sent, College.client_log run.2 = College.client_log self ++ sent
                  /\ Forall is_chat_request sent.
Proof.
  cbv zeta. unfold College.get_response.
  destruct (College.selects_flow self query).
  { split; [reflexivity|]. split; [constructor|]. exists [].
    rewrite app_nil_r. split; [reflexivity|constructor]. }
  cbn [College.set_memory College.client_log].
  destruct (client_chat _ _) as [e|response].
  { split; [reflexivity|].
    split; [constructor; [right; right; reflexivity|constructor]|].
    eexists [_]. split; [reflexivity|]. repeat constructor. }
  pose proof (@college_consume_chunks_text clock Tensor (Ollama.chunks response) 0 EmptyString)
    as Htext.
  destruct (College.consume_chunks clock (Ollama.chunks response) 0 EmptyString)
    as [[ys current_message] reads].
  cbn [fst] in Htext.
  assert (Hys : Forall (fun m : @College.Message Tensor =>
                          College.type m = College.TEXT \/ College.type m = College.SUGGESTION
                          \/ College.type m = College.ERROR) ys).
  { eapply Forall_impl; [exact Htext|]. intros m Hm. left. exact Hm. }
  destruct (Ollama.failure response) as [e|].
  { split; [reflexivity|]. split.
    - apply Forall_app. split; [exact Hys|].
      constructor; [right; right; reflexivity|constructor].
    - eexists [_]. split; [reflexivity|]. repeat constructor. }
  split; [reflexivity|]. split.
  - apply Forall_app. split; [exact Hys|].
    destruct (College._generate_suggestions _ _ _ _ _); [constructor|].
    constructor; [right; left; reflexivity|constructor].
  - eexists [_]. split; [reflexivity|]. repeat constructor.
Qed.

(** X19.  Through [get_response], whatever the queries and whatever the
    model answers, the College chatbot never starts or advances a mock
    interview, never touches the resume or the preferences, sends only chat
    requests (never a generation request), and yields only text, suggestion
    and error messages: no interview question, resume feedback or job match
    is ever yielded, also for the queries that name these flows. *)
Theorem conversation_never_runs_a_flow (self : @College.PlacementChatbot Tensor)
    (queries : list string) :
  let talk := converse encode topk_cos_sim set_order random_sample system_prompt
                client_chat clock self queries in
  flow_state talk.2 = flow_state self
  /\ Forall (fun m => College.type m = College.TEXT \/ College.type m = College.SUGGESTION
                      \/ College.type m = College.ERROR) talk.1
  /\ exists sent, College.client_log talk.2 = College.client_log self ++ sent
                  /\ Forall is_chat_request sent.
Proof.
  cbv zeta. revert self. induction queries as [|query rest IH]; intros self.
  - split; [reflexivity|]. split; [constructor|]. exists [].
    rewrite app_nil_r. split; [reflexivity|constructor].
  - cbn [converse fst snd].
    destruct (college_get_response_step self query) as (Hstate & Htypes & sent & Hlog & Hsent).
    cbv zeta in Hstate, Htypes, Hlog.
    destruct (IH (College.get_response encode topk_cos_sim set_order random_sample
                    system_prompt client_chat clock self query).2)
      as (Hstate' & Htypes' & sent' & Hlog' & Hsent').
    split; [rewrite Hstate'; exact Hstate|]. split.
    + apply Forall_app. split; assumption.
    + exists (sent ++ sent'). rewrite Hlog', Hlog, app_assoc.
      split; [reflexivity|]. apply Forall_app. split; assumption.
Qed.

End Conversation.

Example start_command_does_not_start_the_interview :
  let talk :=
    converse (Tensor := unit) (fun _ => tt) (fun _ _ _ => []) elements (fun l k => take k l)
      "You are an assistant." (fun _ _ => Ollama.ChatRaises "offline")
      (fun _ => "2024-01-01T00:00:00") College.new_chatbot
      ["start mock interview"; "analyze my resume"; "find jobs"] in
  talk.1 = [] /\ College.is_mock_interview_active talk.2 = false.
Proof. vm_compute. split; reflexivity. Qed.

(** ** The mock interview and the resume analysis when something fails *)

Lemma py_index_next {A} (l : list A) (i : Z) :
  is_Some (College.py_index l (i - 1)) ->
  (i < Z.of_nat (length l))%Z ->
  is_Some (College.py_index l i).
Proof.
  unfold College.py_index. intros Hprev Hlt.
  destruct (Z.leb_spec 0 i) as [Hi|Hi].
  - apply lookup_lt_is_Some. lia.
  - destruct (Z.leb_spec 0 (i - 1)) as [Hprev0|Hprev0]; [lia|].
    destruct (Z.leb_spec (- Z.of_nat (length l)) (i - 1)) as [Hlow|Hlow];
      [|destruct Hprev as [x Hx]; discriminate].
    destruct (Z.leb_spec (- Z.of_nat (length l)) i) as [_|Hlow']; [|lia].
    apply lookup_lt_is_Some. lia.
Qed.

Section Failures.

Context {Tensor : Type}.
Variable client_generate : Ollama.GenerateClient.

(** X20.  [process_mock_interview_response] is all or nothing: when it ends
    with an exception, whether raised by the model call or by the look-up of
    the question, nothing was yielded and the interview is where it was:
    same active flag, same questions, same index.  The answer can be given
    again. *)
Theorem failed_evaluation_does_not_advance (self : @College.PlacementChatbot Tensor)
    (user_answer e : string) :
  let run := College.process_mock_interview_response client_generate self user_answer in
  College.raised run = Some e ->
  College.yielded run = []
  /\ College.is_mock_interview_active (College.final run)
     = College.is_mock_interview_active self
  /\ College.mock_interview_questions (College.final run)
     = College.mock_interview_questions self
  /\ College.current_question_index (College.final run)
     = College.current_question_index self.
Proof.
  cbv zeta. unfold College.process_mock_interview_response, College.evaluate_answer.
  destruct (College.py_index (College.mock_interview_questions self)
              (College.current_question_index self - 1)) as [question|] eqn:Hquestion;
    [|intros _; repeat split].
  unfold College.generate.
  destruct (client_generate _ _) as [e'|text]; [intros _; repeat split|].
  cbn [College.log_request College.mock_interview_questions College.current_question_index].
  destruct (Z.ltb_spec (College.current_question_index self)
              (Z.of_nat (length (College.mock_interview_questions self)))) as [Hmore|Hlast];
    [|discriminate].
  destruct (py_index_next (College.mock_interview_questions self)
              (College.current_question_index self)) as [next Hnext];
    [rewrite Hquestion; eauto|exact Hmore|].
  rewrite Hnext. discriminate.
Qed.

(** X21.  An answer given when no interview was ever started (the chatbot
    has no questions) raises [IndexError] before the model is asked anything:
    nothing is yielded, nothing is sent and the chatbot is unchanged. *)
Theorem answer_without_questions_raises (self : @College.PlacementChatbot Tensor)
    (user_answer : string) :
  College.mock_interview_questions self = [] ->
  College.process_mock_interview_response client_generate self user_answer
  = {| College.yielded := []; College.final := self;
       College.raised := Some "IndexError" |}.
Proof.
  intros Hempty.
  unfold College.process_mock_interview_response, College.evaluate_answer.
  rewrite Hempty. unfold College.py_index. cbn [length].
  destruct (0 <=? College.current_question_index self - 1)%Z; [rewrite lookup_nil; reflexivity|].
  destruct (- Z.of_nat 0 <=? College.current_question_index self - 1)%Z;
    [rewrite lookup_nil|]; reflexivity.
Qed.

(** X22.  [analyze_resume] either yields exactly one message and ends
    normally, or raises having yielded nothing.  The message is a resume
    feedback or, when no resume was uploaded or its text is empty, the error
    message asking for the upload; in that case nothing is sent to the
    model.  At most two requests are sent in any case. *)
Theorem analyze_resume_one_message_or_exception (self : @College.PlacementChatbot Tensor)
    (query : string) :
  let run := College.analyze_resume client_generate self query in
  ((College.raised run = None /\ length (College.yielded run) = 1)
   \/ (exists e, College.raised run = Some e) /\ College.yielded run = [])
  /\ Forall (fun m => College.type m = College.RESUME_FEEDBACK
                      \/ m = College.no_resume_message) (College.yielded run)
  /\ (College.resume_uploaded self = false \/ College.user_resume_text self = "" ->
      run = {| College.yielded := [College.no_resume_message]; College.final := self;
               College.raised := None |})
  /\ exists sent, College.client_log (College.final run) = College.client_log self ++ sent
                  /\ length sent <= 2.
Proof.
  cbv zeta. unfold College.analyze_resume.
  destruct (College.resume_uploaded self) eqn:Huploaded; cbn [andb];
    [destruct (String.eqb_spec (College.user_resume_text self) "") as [Hempty|Htext];
     cbn [negb]|].
  - split; [left; split; reflexivity|]. split; [constructor; [right; reflexivity|constructor]|].
    split; [reflexivity|]. exists []. rewrite app_nil_r. split; [reflexivity|cbn; lia].
  - assert (Hno : true = false \/ College.user_resume_text self = "" -> False)
      by (intros [H|H]; [discriminate|contradiction]).
    unfold College.generate.
    destruct (College.max_resume_length <? String.length (College.user_resume_text self))%nat.
    + destruct (client_generate (College.client_log self) _) as [e|summary].
      * split; [right; split; [eauto|reflexivity]|]. split; [constructor|].
        split; [intros H; destruct (Hno H)|]. eexists [_]. split; [reflexivity|cbn; lia].
      * cbn [College.log_request College.client_log].
        destruct (client_generate _ _) as [e|critique].
        -- split; [right; split; [eauto|reflexivity]|]. split; [constructor|].
           split; [intros H; destruct (Hno H)|].
           cbn [College.final College.client_log College.log_request].
           rewrite <- app_assoc. eexists. split; [reflexivity|cbn; lia].
        -- split; [left; split; reflexivity|].
           split; [constructor; [left; reflexivity|constructor]|].
           split; [intros H; destruct (Hno H)|].
           cbn [College.final College.client_log College.log_request].
           rewrite <- app_assoc. eexists. split; [reflexivity|cbn; lia].
    + destruct (client_generate (College.client_log self) _) as [e|critique].
      * split; [right; split; [eauto|reflexivity]|]. split; [constructor|].
        split; [intros H; destruct (Hno H)|]. eexists [_]. split; [reflexivity|cbn; lia].
      * split; [left; split; reflexivity|].
        split; [constructor; [left; reflexivity|constructor]|].
        split; [intros H; destruct (Hno H)|]. eexists [_]. split; [reflexivity|cbn; lia].
  - split; [left; split; reflexivity|]. split; [constructor; [right; reflexivity|constructor]|].
    split; [reflexivity|]. exists []. rewrite app_nil_r. split; [reflexivity|cbn; lia].
Qed.

End Failures.

Lemma failed_evaluation_does_not_advance_witness :
  let client : Ollama.GenerateClient := fun _ _ => Ollama.GenerateRaises "timeout" in
  let started := College.final (College.start_mock_interview (@College.new_chatbot unit)) in
  let run := College.process_mock_interview_response client started "my answer" in
  College.yielded run = []
  /\ College.current_question_index (College.final run) = 1%Z.
Proof.
  intros client started run.
  destruct (failed_evaluation_does_not_advance client started "my answer" "timeout" eq_refl)
    as (Hyield & _ & _ & Hindex).
  split; [exact Hyield|exact Hindex].
Defined.

Lemma answer_without_questions_raises_witness :
  College.raised
    (College.process_mock_interview_response (constant_client "ok")
       (@College.new_chatbot unit) "my answer")
  = Some "IndexError".
Proof.
  rewrite (answer_without_questions_raises (constant_client "ok")
             (@College.new_chatbot unit) "my answer" eq_refl).
  reflexivity.
Defined.

(** ** Job matching *)

Lemma job_matches_iff (user_skills : list string) (job : JobMatching.JobPosting) :
  JobMatching.job_matches user_skills job = true <-> skills_overlap user_skills job.
Proof.
  unfold JobMatching.job_matches, skills_overlap. rewrite existsb_exists. split.
  - intros (skill & Hskill & Hin). apply bool_decide_eq_true in Hin.
    apply list_elem_of_fmap in Hin as (required & Hlower & Hrequired).
    exists skill, required. split; [apply list_elem_of_In, Hskill|]. split; assumption.
  - intros (skill & required & Hskill & Hrequired & Hlower).
    exists skill. split; [apply list_elem_of_In, Hskill|].
    apply bool_decide_eq_true, list_elem_of_fmap. exists required. split; assumption.
Qed.

Lemma fold_format_jobs (listed : list JobMatching.JobPosting) (header : string) :
  fold_left (fun response job => response +:+ JobMatching.format_job job) listed header
  = header +:+ concat_all (map JobMatching.format_job listed).
Proof.
  revert header. induction listed as [|job listed IH]; intros header.
  - cbn. symmetry. apply append_empty_r.
  - cbn [fold_left map concat_all fold_right]. rewrite IH. apply append_assoc_str.
Qed.

Section JobMatches.

Context {Tensor : Type}.

(** X23.  With a list of preferred skills (or none set), [find_jobs] yields
    exactly one message, of type [JOB_MATCH], sends nothing to the model and
    leaves the chatbot unchanged.  The jobs listed are exactly the jobs of the
    data that require a skill equal, up to letter case, to a preferred one,
    in their order; the message is the heading followed by their entries, and
    it is the sorry message exactly when there is no such job. *)
Theorem find_jobs_lists_overlapping_jobs (jobs : list JobMatching.JobPosting)
    (self : @College.PlacementChatbot Tensor) (user_skills : list string) :
  default (College.PrefList [])
    (College.dict_get (College.user_preferences self) "skills")
  = College.PrefList user_skills ->
  let run := JobMatching.find_jobs jobs self in
  College.raised run = None
  /\ College.final run = self
  /\ exists listed text,
       College.yielded run = [College.bot_message text College.JOB_MATCH]
       /\ listed `sublist_of` jobs
       /\ (forall job, job ∈ listed <-> job ∈ jobs /\ skills_overlap user_skills job)
       /\ (listed = [] -> text = JobMatching.no_match_text)
       /\ (listed <> [] ->
           text = JobMatching.matches_header
                  +:+ concat_all (map JobMatching.format_job listed)).
Proof.
  intros Hskills run. subst run. unfold JobMatching.find_jobs. rewrite Hskills.
  cbn [College.pref_iter].
  assert (Hlisted : forall job,
             job ∈ List.filter (JobMatching.job_matches user_skills) jobs
             <-> job ∈ jobs /\ skills_overlap user_skills job).
  { intros job. rewrite <- job_matches_iff, !list_elem_of_In. apply List.filter_In. }
  assert (Hsub : List.filter (JobMatching.job_matches user_skills) jobs `sublist_of` jobs).
  { clear. induction jobs as [|job jobs IH]; [constructor|].
    cbn [List.filter]. destruct (JobMatching.job_matches user_skills job);
      [apply sublist_skip|apply sublist_cons]; exact IH. }
  destruct (List.filter (JobMatching.job_matches user_skills) jobs) as [|job listed] eqn:Hfilter.
  - split; [reflexivity|]. split; [reflexivity|].
    exists [], JobMatching.no_match_text.
    split; [reflexivity|]. split; [exact Hsub|]. split; [exact Hlisted|].
    split; [reflexivity|congruence].
  - split; [reflexivity|]. split; [reflexivity|].
    exists (job :: listed). eexists.
    split; [reflexivity|]. split; [exact Hsub|]. split; [exact Hlisted|].
    split; [discriminate|]. intros _. apply fold_format_jobs.
Qed.

End JobMatches.

Lemma find_jobs_lists_overlapping_jobs_witness :
  exists (listed : list JobMatching.JobPosting) text,
    College.yielded (JobMatching.find_jobs [python_sql_job; java_job]
                       (chatbot_with_skills ["python"]))
    = [College.bot_message text College.JOB_MATCH]
    /\ (forall job, job ∈ listed
                    <-> job ∈ [python_sql_job; java_job] /\ skills_overlap ["python"] job).
Proof.
  destruct (find_jobs_lists_overlapping_jobs [python_sql_job; java_job]
              (chatbot_with_skills ["python"]) ["python"] eq_refl)
    as (_ & _ & listed & text & Hyield & _ & Hlisted & _).
  exists listed, text. split; [exact Hyield|exact Hlisted].
Defined.

Example find_jobs_python_scenario :
  College.yielded (JobMatching.find_jobs [python_sql_job; java_job]
                     (chatbot_with_skills ["Python"]))
  = [ College.bot_message
        (JobMatching.matches_header +:+ JobMatching.format_job python_sql_job)
        College.JOB_MATCH ].
Proof. vm_compute. reflexivity. Qed.

Example find_jobs_without_skills :
  College.yielded (JobMatching.find_jobs [python_sql_job; java_job] (@College.new_chatbot unit))
  = [College.bot_message JobMatching.no_match_text College.JOB_MATCH].
Proof. vm_compute. reflexivity. Qed.

Example find_jobs_with_skills_unset :
  College.raised
    (JobMatching.find_jobs [python_sql_job]
       (College.set_user_preferences (@College.new_chatbot unit)
          [("industry", College.PrefNone); ("skills", College.PrefNone)]))
  = Some "TypeError".
Proof. reflexivity. Qed.

(** * Properties of the session and of the page routing *)

Lemma is_admin_role_iff (s : Session.State) :
  Session.is_admin_role (default Session.VNone (s !! "user_role")) = true
  <-> s !! "user_role" = Some (Session.VStr "admin").
Proof.
  destruct (s !! "user_role") as [[| |role|]|]; cbn; try (split; discriminate).
  rewrite String.eqb_eq. split; congruence.
Qed.

(** X24.  The function wrapped by [require_admin] runs exactly when the
    session is authenticated and its [user_role] is [admin]; it then runs on
    that session and nothing is shown.  Otherwise the wrapper returns [False]
    without calling it and shows one message: the login warning when the
    session is not authenticated, the permission error otherwise. *)
Theorem require_admin_runs_for_admins_only {R : Type} (func : Session.State -> R)
    (s : Session.State) :
  let allowed :=
    Session.truthy (Session.check_authentication s) = true
    /\ s !! "user_role" = Some (Session.VStr "admin") in
  (allowed -> Session.require_admin func s = ([], Some (func s)))
  /\ (~ allowed ->
      (Session.require_admin func s).2 = None
      /\ (Session.require_admin func s).1
         = [if Session.truthy (Session.check_authentication s)
            then Session.Error "You don't have permission to access this page."
            else Session.Warning "Please login to access this page."]).
Proof.
  cbv zeta. unfold Session.require_admin, Session.check_authentication.
  destruct (Session.truthy (default (Session.VBool false) (s !! "authenticated"))) eqn:Hauth;
    cbn [negb].
  - destruct (Session.is_admin_role (default Session.VNone (s !! "user_role"))) eqn:Hrole;
      cbn [negb].
    + split; [reflexivity|]. intros Hnot. exfalso. apply Hnot.
      split; [reflexivity|apply is_admin_role_iff, Hrole].
    + split; [|split; reflexivity]. intros [_ Hadmin].
      apply is_admin_role_iff in Hadmin. congruence.
  - split; [intros [Htrue _]; discriminate|split; reflexivity].
Qed.

Lemma logout_lookup (s : Session.State) (key : string) :
  (Session.logout s).1 !! key
  = if bool_decide (key ∈ Session.session_keys) then None else s !! key.
Proof.
  unfold Session.logout, Session.session_keys. cbn [fst fold_left].
  case_bool_decide as Hkey.
  - rewrite !elem_of_cons, elem_of_nil in Hkey.
    destruct Hkey as [->|[->|[->|[->|[]]]]];
      repeat (rewrite lookup_delete_eq || rewrite lookup_delete_ne by discriminate);
      reflexivity.
  - rewrite !elem_of_cons, elem_of_nil in Hkey.
    rewrite !lookup_delete_ne by (intros <-; apply Hkey; tauto). reflexivity.
Qed.

(** X25.  After [logout] the session is not authenticated and
    [require_admin] lets nothing run, whatever the session was; the four
    login keys are gone and every other key of the session is kept. *)
Theorem logout_ends_the_session {R : Type} (func : Session.State -> R) (s : Session.State) :
  let after := (Session.logout s).1 in
  Session.truthy (Session.check_authentication after) = false
  /\ (Session.require_admin func after).2 = None
  /\ (forall key, key ∈ Session.session_keys -> after !! key = None)
  /\ (forall key, key ∉ Session.session_keys -> after !! key = s !! key).
Proof.
  intros after.
  assert (Hauth : after !! "authenticated" = None)
    by (subst after; rewrite logout_lookup; reflexivity).
  split; [|split; [|split]].
  - unfold Session.check_authentication. rewrite Hauth. reflexivity.
  - unfold Session.require_admin. rewrite Hauth. reflexivity.
  - intros key Hkey. subst after. rewrite logout_lookup.
    rewrite bool_decide_eq_true_2 by exact Hkey. reflexivity.
  - intros key Hkey. subst after. rewrite logout_lookup.
    rewrite bool_decide_eq_false_2 by exact Hkey. reflexivity.
Qed.

Lemma authenticate_user_success_inv (self : Auth.AuthManager) (email password : string)
    (now : Clock.DateTime) (write_ok : bool) after message info :
  Auth.authenticate_user self email password now write_ok = (after, (true, message, Some info)) ->
  exists df user,
    Auth.users_df self = Some df /\ user ∈ df
    /\ email_key user = Text.lower email /\ Auth.password user = password
    /\ info = {| Auth.info_user_id := Auth.user_id user; Auth.info_name := Auth.name user;
                 Auth.info_role := Auth.role user |}.
Proof.
  unfold Auth.authenticate_user.
  destruct (Auth.users_df self) as [df|] eqn:Hdf; [|discriminate].
  destruct (List.filter _ df) as [|user others] eqn:Hfilter; [discriminate|].
  destruct (String.eqb_spec password (Auth.password user)) as [Hpw|Hpw];
    cbn [negb]; [|discriminate].
  intros [= _ _ <-].
  assert (Hin : In user (List.filter
                           (fun u => String.eqb (Text.lower (Auth.email u)) (Text.lower email))
                           df)) by (rewrite Hfilter; left; reflexivity).
  apply List.filter_In in Hin as [Hin Hkey].
  exists df, user. split; [reflexivity|]. split; [apply list_elem_of_In, Hin|].
  split; [apply String.eqb_eq, Hkey|]. split; [symmetry; exact Hpw|reflexivity].
Qed.

(** X26.  [login_ui] changes the session only on a successful
    authentication, and then records the identifier, name and role of a user
    of the table whose e-mail is the typed one up to letter case and whose
    password is the typed one.  So after [login_ui] the function wrapped by
    [require_admin] can run only if it could before or if that stored user
    has the role [admin]. *)
Theorem login_ui_takes_the_role_from_the_table {R : Type} (func : Session.State -> R)
    (users_file : option (list Auth.User)) (s : Session.State) (email password : string)
    (clicked : bool) (now_load now_login : Clock.DateTime) (io_ok write_ok : bool) :
  let after :=
    (Session.login_ui users_file s email password clicked now_load now_login io_ok
       write_ok).1.2 in
  (after = s
   \/ exists df user,
        Auth.users_df (Auth.new_manager users_file now_load io_ok) = Some df
        /\ user ∈ df
        /\ email_key user = Text.lower email
        /\ Auth.password user = password
        /\ after !! "authenticated" = Some (Session.VBool true)
        /\ after !! "user_id" = Some (Session.VStr (Auth.user_id user))
        /\ after !! "user_name" = Some (Session.VStr (Auth.name user))
        /\ after !! "user_role" = Some (Session.VStr (Auth.role user))
        /\ (is_Some (Session.require_admin func after).2 -> Auth.role user = "admin"))
  /\ (is_Some (Session.require_admin func after).2 ->
      is_Some (Session.require_admin func s).2
      \/ exists df user,
           Auth.users_df (Auth.new_manager users_file now_load io_ok) = Some df
           /\ user ∈ df /\ email_key user = Text.lower email
           /\ Auth.password user = password /\ Auth.role user = "admin").
Proof.
  intros after.
  assert (Hcases :
    after = s
    \/ exists df user,
         Auth.users_df (Auth.new_manager users_file now_load io_ok) = Some df
         /\ user ∈ df
         /\ email_key user = Text.lower email
         /\ Auth.password user = password
         /\ after !! "authenticated" = Some (Session.VBool true)
         /\ after !! "user_id" = Some (Session.VStr (Auth.user_id user))
         /\ after !! "user_name" = Some (Session.VStr (Auth.name user))
         /\ after !! "user_role" = Some (Session.VStr (Auth.role user))
         /\ (is_Some (Session.require_admin func after).2 -> Auth.role user = "admin")).
  { subst after. unfold Session.login_ui.
    destruct clicked; [|left; reflexivity].
    destruct (Auth.authenticate_user _ email password now_login write_ok)
      as [manager [[[|] message] [info|]]] eqn:Hlogin; try (left; reflexivity).
    right. apply authenticate_user_success_inv in Hlogin
      as (df & user & Hdf & Hin & Hkey & Hpw & ->).
    exists df, user. cbn [fst snd Auth.info_user_id Auth.info_name Auth.info_role].
    split; [exact Hdf|]. split; [exact Hin|]. split; [exact Hkey|]. split; [exact Hpw|].
    assert (Hrole : forall t : Session.State,
               <["user_role" := Session.VStr (Auth.role user)]> t !! "user_role"
               = Some (Session.VStr (Auth.role user))) by (intros t; apply lookup_insert_eq).
    split; [|split; [|split; [|split]]].
    - rewrite !lookup_insert_ne by discriminate. apply lookup_insert_eq.
    - rewrite !lookup_insert_ne by discriminate. apply lookup_insert_eq.
    - rewrite !lookup_insert_ne by discriminate. apply lookup_insert_eq.
    - apply Hrole.
    - unfold Session.require_admin.
      destruct (negb (Session.truthy _)); [intros [r Hr]; discriminate|].
      rewrite Hrole. cbn [default from_option id Session.is_admin_role].
      destruct (String.eqb_spec (Auth.role user) "admin") as [Hadmin|_];
        [intros _; exact Hadmin|intros [r Hr]; discriminate]. }
  split; [exact Hcases|].
  intros Hruns. destruct Hcases as [Hsame|(df & user & Hdf & Hin & Hkey & Hpw & _ & _ & _ & _ & Hadmin)].
  - left. rewrite <- Hsame. exact Hruns.
  - right. exists df, user. repeat split; try assumption. apply Hadmin, Hruns.
Qed.

Example student_login_does_not_open_the_admin_page :
  let after :=
    (Session.login_ui None (Session.init_session_state ∅) "Student@Atlas.edu" "student123"
       true startup_time login_time true true).1.2 in
  after !! "user_role" = Some (Session.VStr "student")
  /\ (Session.require_admin (fun _ => tt) after).2 = None.
Proof. vm_compute. split; reflexivity. Qed.

Example admin_login_opens_the_admin_page :
  let after :=
    (Session.login_ui None (Session.init_session_state ∅) "admin@atlas.edu" "admin123"
       true startup_time login_time true true).1.2 in
  (Session.require_admin (fun _ => tt) after).2 = Some tt.
Proof. vm_compute. reflexivity. Qed.

(** * Properties of the clean-up script and of the page routing *)

Lemma cleanup_fold_elem_of (remove : string -> option string) (files : list string) :
  forall (fs : gset string) (printed : list string) (path : string),
    path ∈ (fold_left (Cleanup.cleanup_step remove) files (fs, printed)).1
    <-> path ∈ fs /\ (path ∉ files \/ is_Some (remove path)).
Proof.
  induction files as [|file rest IH]; intros fs printed path; cbn [fold_left fst].
  - split; [intros Hin; split; [exact Hin|left; apply not_elem_of_nil]|tauto].
  - unfold Cleanup.cleanup_step at 2.
    case_bool_decide as Hexists; [destruct (remove file) as [e|] eqn:Hremove|];
      rewrite IH, not_elem_of_cons.
    + split; intros [Hin Hkept]; (split; [exact Hin|]);
        destruct (decide (path = file)) as [->|Hne];
        try (right; rewrite Hremove; eexists; reflexivity);
        destruct Hkept as [Hkept|Hkept]; try tauto.
    + rewrite elem_of_difference, elem_of_singleton.
      split.
      * intros [[Hin Hne] [Hrest|Hfail]]; (split; [exact Hin|tauto]).
      * intros [Hin [[Hne Hrest]|Hfail]]; [tauto|].
        assert (path <> file)
          by (intros ->; rewrite Hremove in Hfail; destruct Hfail; discriminate).
        tauto.
    + split; intros [Hin Hkept]; (split; [exact Hin|]);
        destruct (decide (path = file)) as [->|Hne]; try tauto.
Qed.

(** X27.  After [cleanup] a path exists exactly when it existed before and
    is either not one of the eight listed data files or a file whose removal
    raised: the script creates nothing, removes nothing outside its list, and
    an exception on one file does not keep it from removing the others. *)
Theorem cleanup_removes_exactly_the_data_files (remove : string -> option string)
    (fs : gset string) (path : string) :
  path ∈ (Cleanup.cleanup remove fs).1
  <-> path ∈ fs /\ (path ∉ Cleanup.data_files \/ is_Some (remove path)).
Proof. unfold Cleanup.cleanup. apply cleanup_fold_elem_of. Qed.

Example cleanup_goes_on_after_an_exception :
  let remove := fun path =>
    if String.eqb path "data/faq.csv" then Some "Permission denied" else None in
  Cleanup.cleanup remove {[ "data/jobs.csv"; "data/faq.csv"; "data/interviews.json"; "app.py" ]}
  = ({[ "data/faq.csv"; "app.py" ]},
     [ "Cleaning up data files..."; "Removed: data/jobs.csv";
       "Error removing data/faq.csv: Permission denied";
       "Removed: data/interviews.json" ]).
Proof. vm_compute. reflexivity. Qed.

(** X28.  Page routing of the College application.  [main] hands over to
    the admin page exactly when [check_authentication] accepts the
    initialised session, its [user_role] is [admin], the requested page is
    [Admin] and Logout was not pressed.  A session that
    [check_authentication] rejects ends in the login form, in the
    redirection to [Login] or in the [IndexError] of an empty [page]
    parameter: [main] never hands it over to a page and never reports a
    missing page to it. *)
Theorem main_guards_the_pages
    (init_session_state : Session.State -> Session.State)
    (check_authentication : Session.State -> Session.Value)
    (s : Session.State) (page_param : option App.QueryValue) (logout_clicked : bool) :
  let ready := init_session_state s in
  let requested := App.first_of (default (App.QueryList ["Login"]) page_param) in
  let result := App.main init_session_state check_authentication s page_param logout_clicked in
  (result = App.AdminPage
   <-> Session.truthy (check_authentication ready) = true
       /\ ready !! "user_role" = Some (Session.VStr "admin")
       /\ requested = Some "Admin"
       /\ logout_clicked = false)
  /\ (Session.truthy (check_authentication ready) = false ->
      (requested = Some "Login" /\ result = App.LoginForm)
      \/ ((exists page, requested = Some page /\ page <> "Login")
          /\ result = App.RedirectTo "Login")
      \/ (requested = None /\ result = App.IndexErrorRaised)).
Proof.
  cbv zeta. unfold App.main.
  destruct (App.first_of _) as [current_page|].
  2:{ split; [split; [discriminate|intros (_ & _ & H & _); discriminate]|].
      intros _. right; right. split; reflexivity. }
  destruct (Session.truthy (check_authentication (init_session_state s))) eqn:Hauth;
    cbn [negb].
  - split; [|discriminate].
    destruct (String.eqb_spec current_page "Login") as [Hlogin|Hlogin].
    { destruct (Session.is_admin_role _);
        (split; [discriminate|intros (_ & _ & [= H] & _); subst; discriminate]). }
    destruct logout_clicked.
    { split; [discriminate|intros (_ & _ & _ & H); discriminate]. }
    destruct (String.eqb_spec current_page "Home") as [Hhome|Hhome].
    { split; [discriminate|intros (_ & _ & [= H] & _); subst; discriminate]. }
    destruct (String.eqb_spec current_page "Applications") as [Happ|Happ].
    { split; [discriminate|intros (_ & _ & [= H] & _); subst; discriminate]. }
    destruct (String.eqb_spec current_page "Admin") as [Hadmin|Hadmin]; cbn [andb].
    2:{ split; [discriminate|intros (_ & _ & [= H] & _); contradiction]. }
    destruct (Session.is_admin_role _) eqn:Hrole.
    + split; [|reflexivity]. intros _. split; [reflexivity|].
      split; [apply is_admin_role_iff, Hrole|]. split; [rewrite Hadmin|]; reflexivity.
    + split; [discriminate|]. intros (_ & Hr & _).
      apply is_admin_role_iff in Hr. congruence.
  - split; [split; [|intros (H & _); discriminate]|].
    + destruct (String.eqb_spec current_page "Login"); cbn [negb]; discriminate.
    + intros _. destruct (String.eqb_spec current_page "Login") as [Hlogin|Hlogin];
        cbn [negb].
      * left. split; [rewrite Hlogin|]; reflexivity.
      * right; left. split; [exists current_page; split; [reflexivity|exact Hlogin]|reflexivity].
Qed.

Example require_admin_on_three_sessions :
  Session.require_admin (fun _ => tt) admin_session = ([], Some tt)
  /\ Session.require_admin (fun _ => tt)
       (<["user_role" := Session.VStr "student"]> admin_session)
     = ([Session.Error "You don't have permission to access this page."], None)
  /\ Session.require_admin (fun _ => tt) (Session.init_session_state ∅)
     = ([Session.Warning "Please login to access this page."], None).
Proof. vm_compute. repeat split. Qed.

Example main_routes_by_role :
  let main := App.main Session.init_session_state Session.check_authentication in
  main admin_session (Some (App.QueryList ["Admin"])) false = App.AdminPage
  /\ main (<["user_role" := Session.VStr "student"]> admin_session)
       (Some (App.QueryList ["Admin"])) false = App.PageNotFound
  /\ main admin_session (Some (App.QueryList ["Admin"])) true = App.LoggedOut
  /\ main admin_session (Some (App.QueryStr "Admin")) false = App.PageNotFound
  /\ main ∅ (Some (App.QueryList ["Admin"])) false = App.RedirectTo "Login"
  /\ main ∅ None false = App.LoginForm
  /\ main admin_session (Some (App.QueryList [])) false = App.IndexErrorRaised.
Proof. vm_compute. repeat split. Qed.
